(** * CCF security auditor: assessment store, scoring and report synthesis

    A shallow embedding of [security_auditor.py] (class [SecurityAuditor]
    and its dataclasses) and of [QuestionnaireEngine.interpret_response]
    from [questionnaire.py], with the properties the specification states
    about them.

    Modelling conventions.
    - Python [float] values are exact rationals ([Q]).  Every score the
      stored table produces (0, 50, 100) and every value the concrete
      scenarios below compute (25, 50, 75, 200) is exactly representable
      in binary64 and is produced by exact operations, so the
      idealisation only affects the rounding of a general quotient:
      where Python returns the binary64 number nearest to a quotient,
      the model holds the quotient itself.  The statements use a
      quotient only through facts that rounding to nearest preserves:
      order comparisons with binary64 numbers, the equality of two
      quotients of the same operands, and values that are exact in
      binary64.
    - Python [str] is [string] over the code points 0..255 (Latin-1).
    - A Python [dict] is an association list in insertion order; writing
      an existing key replaces the value in place, as CPython does.
    - The list object behind [self.findings] lives in a heap of list
      objects, because [generate_report] hands out a reference to it. *)

From Stdlib Require Import List String Ascii Bool Arith ZArith QArith Lia.
From Stdlib Require Import Permutation Sorted DecimalString DecimalNat Lqa.
Import ListNotations.

(* ================================================================== *)
(** ** Python strings *)

Module PyStr.

Local Open Scope string_scope.

Definition nl : string := String (ascii_of_nat 10) EmptyString.

(** [str(n)] for a non-negative integer. *)
Definition of_nat (n : nat) : string :=
  NilEmpty.string_of_uint (Nat.to_uint n).

(** [c.lower()] on a single Latin-1 code point: A-Z, and the accented
    capitals 0xC0-0xDE except the multiplication sign 0xD7. *)
Definition lower_char (c : ascii) : ascii :=
  let n := nat_of_ascii c in
  if ((65 <=? n) && (n <=? 90))%nat then ascii_of_nat (n + 32)
  else if ((192 <=? n) && (n <=? 222) && negb (n =? 215))%nat
       then ascii_of_nat (n + 32)
  else c.

Fixpoint lower (s : string) : string :=
  match s with
  | EmptyString => EmptyString
  | String c s' => String (lower_char c) (lower s')
  end.

(** [c.isspace()] on Latin-1: TAB..CR, FS..US, space, NEL, NBSP. *)
Definition isspace (c : ascii) : bool :=
  let n := nat_of_ascii c in
  (((9 <=? n) && (n <=? 13)) || ((28 <=? n) && (n <=? 32))
   || (n =? 133) || (n =? 160))%nat.

Fixpoint lstrip (s : string) : string :=
  match s with
  | EmptyString => EmptyString
  | String c s' => if isspace c then lstrip s' else s
  end.

(** Drops the trailing run of white space: a character is kept when it
    is not white space or when something is kept after it. *)
Fixpoint rstrip (s : string) : string :=
  match s with
  | EmptyString => EmptyString
  | String c s' =>
      match rstrip s' with
      | EmptyString => if isspace c then EmptyString
                       else String c EmptyString
      | r => String c r
      end
  end.

Definition strip (s : string) : string := rstrip (lstrip s).

(** [needle in hay]. *)
Fixpoint contains (needle hay : string) : bool :=
  prefix needle hay
  || match hay with
     | EmptyString => false
     | String _ hay' => contains needle hay'
     end.

End PyStr.

(* ================================================================== *)
(** ** Python dictionaries with string keys *)

Module PyDict.
Section Dict.

Variable V : Type.

Definition dict := list (string * V).

(** [d.get(k)], [None] when the key is absent. *)
Fixpoint get (d : dict) (k : string) : option V :=
  match d with
  | [] => None
  | (k', v) :: d' => if String.eqb k' k then Some v else get d' k
  end.

(** [k in d]. *)
Definition mem (d : dict) (k : string) : bool :=
  match get d k with Some _ => true | None => false end.

(** [d[k] = v]: an existing key keeps its position, a new key goes
    last. *)
Fixpoint set (d : dict) (k : string) (v : V) : dict :=
  match d with
  | [] => [(k, v)]
  | (k', v') :: d' =>
      if String.eqb k' k then (k', v) :: d' else (k', v') :: set d' k v
  end.

Definition keys (d : dict) : list string := map fst d.
Definition values (d : dict) : list V := map snd d.
Definition items (d : dict) : list (string * V) := d.

(** [{k: v for (k, v) in l}]. *)
Definition of_list (l : list (string * V)) : dict :=
  fold_left (fun acc kv => set acc (fst kv) (snd kv)) l [].

End Dict.
End PyDict.

Arguments PyDict.get {V} d k.
Arguments PyDict.mem {V} d k.
Arguments PyDict.set {V} d k v.
Arguments PyDict.keys {V} d.
Arguments PyDict.values {V} d.
Arguments PyDict.items {V} d.
Arguments PyDict.of_list {V} l.

Abbreviation dict := PyDict.dict.

(* ================================================================== *)
(** ** Data model *)

Inductive ComplianceStatus :=
| COMPLIANT | PARTIAL | NON_COMPLIANT | NOT_APPLICABLE | NOT_ASSESSED.

Inductive Priority := CRITICAL | HIGH | MEDIUM | LOW | INFO.

Definition status_eqb (a b : ComplianceStatus) : bool :=
  match a, b with
  | COMPLIANT, COMPLIANT | PARTIAL, PARTIAL
  | NON_COMPLIANT, NON_COMPLIANT | NOT_APPLICABLE, NOT_APPLICABLE
  | NOT_ASSESSED, NOT_ASSESSED => true
  | _, _ => false
  end.

Definition priority_eqb (a b : Priority) : bool :=
  match a, b with
  | CRITICAL, CRITICAL | HIGH, HIGH | MEDIUM, MEDIUM | LOW, LOW
  | INFO, INFO => true
  | _, _ => false
  end.

Record SystemScope := {
  system_name : string;
  primary_function : string;
  data_types : list string;
  architecture : string;
  deployment_environment : string;
  compliance_requirements : list string;
  user_base : string;
  criticality : string;
  additional_context : string
}.

(** One entry of [ccf_data['controls']]: the keys the auditor reads. *)
Record Control := {
  ctl_ccf_id : string;
  ctl_domain : string;
  ctl_name : string
}.

Record ControlAssessment := {
  ccf_id : string;
  domain : string;
  control_name : string;
  status : ComplianceStatus;
  evidence : string;
  gaps : list string;
  notes : string;
  score : Q
}.

Record Finding := {
  finding_id : string;
  title : string;
  description : string;
  affected_controls : list string;
  priority : Priority;
  recommendation : string;
  risk_impact : string;
  remediation_effort : string
}.

(** Address of a list object. *)
Definition ref := nat.

(** [AuditReport]; its fields carry the prefix [report_] because the
    auditor has attributes of the same names.  [assessments] is a list
    built at generation time whose elements no method mutates, held by
    value; [findings] is whatever list object the constructor was given,
    held by reference. *)
Record AuditReport := {
  report_scope : option SystemScope;
  report_assessment_date : string;
  report_assessments : list ControlAssessment;
  report_findings : ref;
  report_overall_score : Q;
  report_domain_scores : dict Q;
  report_executive_summary : string;
  report_recommendations_summary : string
}.

(** The attributes of a [SecurityAuditor] instance. *)
Record SecurityAuditor := {
  controls : list Control;
  domains : dict (list string);
  scope : option SystemScope;
  assessments : dict ControlAssessment;
  findings : ref
}.

(** The heap of [List[Finding]] objects, indexed by address. *)
Definition Heap := list (list Finding).

Definition deref (h : Heap) (r : ref) : list Finding := nth r h [].

Fixpoint heap_update (h : Heap) (r : ref) (l : list Finding) : Heap :=
  match h, r with
  | [], _ => []
  | _ :: h', O => l :: h'
  | x :: h', S r' => x :: heap_update h' r' l
  end.

Record World := {
  self : SecurityAuditor;
  heap : Heap
}.

(* ================================================================== *)
(** ** Methods as computations over the world *)

Inductive exn :=
| ValueError (msg : string)
| ZeroDivisionError.

(** A method call: it returns a value or raises, and leaves a world
    behind in both cases. *)
Definition M (A : Type) := World -> (exn + A) * World.

Definition ret {A} (a : A) : M A := fun w => (inr a, w).
Definition raise {A} (e : exn) : M A := fun w => (inl e, w).
Definition bind {A B} (m : M A) (k : A -> M B) : M B :=
  fun w => match m w with
           | (inr a, w') => k a w'
           | (inl e, w') => (inl e, w')
           end.
Definition get_self : M SecurityAuditor := fun w => (inr (self w), w).
Definition put_self (s : SecurityAuditor) : M unit :=
  fun w => (inr tt, {| self := s; heap := heap w |}).
Definition get_heap : M Heap := fun w => (inr (heap w), w).
Definition put_heap (h : Heap) : M unit :=
  fun w => (inr tt, {| self := self w; heap := h |}).

Declare Scope py_scope.
Delimit Scope py_scope with py.
Notation "x <- m ;; k" := (bind m (fun x => k))
  (at level 61, m at next level, right associativity) : py_scope.
Notation "m ;;; k" := (bind m (fun _ => k))
  (at level 61, right associativity) : py_scope.

Local Open Scope Q_scope.

(** [SecurityAuditor.__init__] after the catalog file has been read:
    empty store, and a fresh empty findings list at address 0. *)
Definition init (ccf_controls : list Control)
                (ccf_domains : dict (list string)) : World :=
  {| self := {| controls := ccf_controls;
                domains := ccf_domains;
                scope := None;
                assessments := [];
                findings := 0%nat |};
     heap := [[]] |}.

Definition set_scope (s : SystemScope) : M unit :=
  (a <- get_self ;;
   put_self {| controls := controls a; domains := domains a;
               scope := Some s; assessments := assessments a;
               findings := findings a |})%py.

(** [get_control_by_id]: the first control with that identifier. *)
Fixpoint get_control_by_id (cs : list Control) (id : string)
  : option Control :=
  match cs with
  | [] => None
  | control :: cs' =>
      if String.eqb (ctl_ccf_id control) id then Some control
      else get_control_by_id cs' id
  end.

(** The [score_map] literal of [assess_control]. *)
Definition score_map (st : ComplianceStatus) : option Q :=
  match st with
  | COMPLIANT => Some 100
  | PARTIAL => Some 50
  | NON_COMPLIANT => Some 0
  | NOT_APPLICABLE => None
  | NOT_ASSESSED => Some 0
  end.

Definition not_found_msg (id : string) : string :=
  ("Control " ++ id ++ " not found")%string.

(** [assess_control].  A control found by [get_control_by_id] is a
    dictionary with a ['ccf_id'] key, hence truthy: [not control] holds
    exactly for [None]. *)
Definition assess_control (id : string) (st : ComplianceStatus)
    (ev : string) (gs : list string) (nt : string)
  : M ControlAssessment :=
  (a <- get_self ;;
   match get_control_by_id (controls a) id with
   | None => raise (ValueError (not_found_msg id))
   | Some control =>
       let assessment :=
         {| ccf_id := id;
            domain := ctl_domain control;
            control_name := ctl_name control;
            status := st;
            evidence := ev;
            gaps := gs;
            notes := nt;
            score := match score_map st with
                     | Some s => s
                     | None => 0
                     end |} in
       put_self {| controls := controls a; domains := domains a;
                   scope := scope a;
                   assessments := PyDict.set (assessments a) id assessment;
                   findings := findings a |} ;;;
       ret assessment
   end)%py.

(** [add_finding]: appends to the list object [self.findings] points
    to. *)
Definition add_finding (f : Finding) : M unit :=
  (a <- get_self ;;
   h <- get_heap ;;
   put_heap (heap_update h (findings a) (deref h (findings a) ++ [f])))%py.

(** [sum(a.score for a in l)]. *)
Definition total_score (l : list ControlAssessment) : Q :=
  fold_left Qplus (map score l) 0.

(** The tail shared by both score methods: 0.0 for an empty list, the
    mean otherwise.  The quotient is the exact one; Python returns the
    binary64 number nearest to it. *)
Definition mean_score (assessed_controls : list ControlAssessment) : Q :=
  match assessed_controls with
  | [] => 0
  | _ => total_score assessed_controls
         / inject_Z (Z.of_nat (List.length assessed_controls))
  end.

Definition is_applicable (a : ControlAssessment) : bool :=
  negb (status_eqb (status a) NOT_APPLICABLE).

(** The list [assessed_controls] of [calculate_domain_score]. *)
Definition domain_assessed_controls (a : SecurityAuditor) (d : string)
  : list ControlAssessment :=
  let control_ids :=
    match PyDict.get (domains a) d with Some l => l | None => [] end in
  flat_map (fun cid =>
              match PyDict.get (assessments a) cid with
              | Some x => if is_applicable x then [x] else []
              | None => []
              end) control_ids.

Definition calculate_domain_score (a : SecurityAuditor) (d : string) : Q :=
  mean_score (domain_assessed_controls a d).

(** The list [assessed_controls] of [calculate_overall_score]. *)
Definition overall_assessed_controls (a : SecurityAuditor)
  : list ControlAssessment :=
  filter is_applicable (PyDict.values (assessments a)).

Definition calculate_overall_score (a : SecurityAuditor) : Q :=
  mean_score (overall_assessed_controls a).

(* ================================================================== *)
(** ** Report synthesis *)

(** [enumerate(l, start)]. *)
Fixpoint enumerate {A} (start : nat) (l : list A) : list (nat * A) :=
  match l with
  | [] => []
  | x :: l' => (start, x) :: enumerate (S start) l'
  end.

Definition with_priority (p : Priority) (fs : list Finding) : list Finding :=
  filter (fun f => priority_eqb (priority f) p) fs.

(** One [for i, finding in enumerate(band, 1)] loop of a band that
    prints the recommendation (the Critical, High and Medium bands). *)
Definition add_entries_with_recommendation (summary : string)
    (band : list Finding) : string :=
  fold_left
    (fun s (e : nat * Finding) =>
       let s1 := (s ++ PyStr.of_nat (fst e) ++ ". " ++ title (snd e)
                    ++ PyStr.nl)%string in
       (s1 ++ "   - " ++ recommendation (snd e) ++ PyStr.nl ++ PyStr.nl)%string)
    (enumerate 1 band) summary.

(** The loop of the Low band: the title line only. *)
Definition add_entries_title_only (summary : string)
    (band : list Finding) : string :=
  fold_left
    (fun s (e : nat * Finding) =>
       (s ++ PyStr.of_nat (fst e) ++ ". " ++ title (snd e)
          ++ PyStr.nl ++ PyStr.nl)%string)
    (enumerate 1 band) summary.

Definition is_empty {A} (l : list A) : bool :=
  match l with [] => true | _ => false end.

(** [_generate_recommendations_summary], on the list [self.findings]
    points to. *)
Definition _generate_recommendations_summary (fs : list Finding) : string :=
  let critical := with_priority CRITICAL fs in
  let high := with_priority HIGH fs in
  let medium := with_priority MEDIUM fs in
  let low := with_priority LOW fs in
  let summary := ("**Prioritized Recommendations:**" ++ PyStr.nl
                    ++ PyStr.nl)%string in
  let summary :=
    if is_empty critical then summary
    else add_entries_with_recommendation
           (summary ++ "**CRITICAL PRIORITY (Immediate Action Required):**"
                    ++ PyStr.nl)%string critical in
  let summary :=
    if is_empty high then summary
    else add_entries_with_recommendation
           (summary ++ "**HIGH PRIORITY (Address within 30 days):**"
                    ++ PyStr.nl)%string high in
  let summary :=
    if is_empty medium then summary
    else add_entries_with_recommendation
           (summary ++ "**MEDIUM PRIORITY (Address within 90 days):**"
                    ++ PyStr.nl)%string medium in
  let summary :=
    if is_empty low then summary
    else add_entries_title_only
           (summary ++ "**LOW PRIORITY (Address within 6 months):**"
                    ++ PyStr.nl)%string low in
  PyStr.strip summary.

(** [sorted(items, key=lambda x: x[1])]: a stable sort on the score, as
    an insertion sort that puts an element before the first one whose
    score is not smaller. *)
Fixpoint insert_by_score (x : string * Q) (l : list (string * Q))
  : list (string * Q) :=
  match l with
  | [] => [x]
  | y :: l' => if Qle_bool (snd x) (snd y) then x :: l
               else y :: insert_by_score x l'
  end.

Definition sorted_by_score (l : list (string * Q)) : list (string * Q) :=
  fold_right insert_by_score [] l.

(** The local [weakest_domains] of [_generate_executive_summary]. *)
Definition weakest_domains (domain_scores : dict Q) : list string :=
  let sorted_domains := sorted_by_score (PyDict.items domain_scores) in
  map fst (filter (fun d => negb (Qle_bool 60 (snd d)))
                  (firstn 3 sorted_domains)).

Definition posture_of (overall_score : Q) : string :=
  if Qle_bool 90 overall_score then "Excellent"
  else if Qle_bool 75 overall_score then "Good"
  else if Qle_bool 60 overall_score then "Fair"
  else if Qle_bool 40 overall_score then "Poor"
  else "Critical".

Definition count_status (st : ComplianceStatus)
    (d : dict ControlAssessment) : nat :=
  List.length (filter (fun a => status_eqb (status a) st) (PyDict.values d)).

Section Formatting.

(** The format specification [:.1f] applied to a float. *)
Variable format_1f : Q -> string.

(** [_generate_executive_summary]; [fs] is the content of the list
    [self.findings] points to. *)
Definition _generate_executive_summary (a : SecurityAuditor)
    (fs : list Finding) (overall_score : Q) (domain_scores : dict Q)
  : string :=
  let posture := posture_of overall_score in
  let weakest := weakest_domains domain_scores in
  let critical_findings := List.length (with_priority CRITICAL fs) in
  let high_findings := List.length (with_priority HIGH fs) in
  let medium_findings := List.length (with_priority MEDIUM fs) in
  let name := match scope a with
              | Some s => system_name s
              | None => "the system"%string
              end in
  let summary :=
    (PyStr.nl
     ++ "**Overall Security Posture: " ++ posture ++ " ("
     ++ format_1f overall_score ++ "/100)**" ++ PyStr.nl
     ++ PyStr.nl
     ++ "The security assessment of " ++ name ++ " has been completed"
     ++ PyStr.nl
     ++ "based on the Adobe Common Controls Framework (CCF). The system achieved an overall security score"
     ++ PyStr.nl
     ++ "of " ++ format_1f overall_score ++ " out of 100." ++ PyStr.nl
     ++ PyStr.nl
     ++ "**Key Statistics:**" ++ PyStr.nl
     ++ "- Total Controls Assessed: "
     ++ PyStr.of_nat (List.length (assessments a)) ++ PyStr.nl
     ++ "- Compliant Controls: "
     ++ PyStr.of_nat (count_status COMPLIANT (assessments a)) ++ PyStr.nl
     ++ "- Partially Compliant: "
     ++ PyStr.of_nat (count_status PARTIAL (assessments a)) ++ PyStr.nl
     ++ "- Non-Compliant: "
     ++ PyStr.of_nat (count_status NON_COMPLIANT (assessments a))
     ++ PyStr.nl
     ++ PyStr.nl
     ++ "**Findings Summary:**" ++ PyStr.nl
     ++ "- Critical Priority: " ++ PyStr.of_nat critical_findings
     ++ PyStr.nl
     ++ "- High Priority: " ++ PyStr.of_nat high_findings ++ PyStr.nl
     ++ "- Medium Priority: " ++ PyStr.of_nat medium_findings
     ++ PyStr.nl)%string in
  let summary :=
    if is_empty weakest then summary
    else fold_left
           (fun s d =>
              (* [domain_scores[domain]]: the key comes from the
                 dictionary itself, so the lookup cannot fail *)
              let sc := match PyDict.get domain_scores d with
                        | Some x => x
                        | None => 0
                        end in
              (s ++ "- " ++ d ++ " (Score: " ++ format_1f sc ++ "/100)"
                 ++ PyStr.nl)%string)
           weakest
           (summary ++ PyStr.nl
              ++ "**Areas Requiring Immediate Attention:**"
              ++ PyStr.nl)%string in
  PyStr.strip summary.

(** The dictionary comprehension of [generate_report]. *)
Definition domain_scores_of (a : SecurityAuditor) : dict Q :=
  PyDict.of_list
    (map (fun d => (d, calculate_domain_score a d))
         (PyDict.keys (domains a))).

(** [generate_report]; [now] is the formatted clock reading. *)
Definition generate_report (now : string) : M AuditReport :=
  (a <- get_self ;;
   h <- get_heap ;;
   let overall_score := calculate_overall_score a in
   let domain_scores := domain_scores_of a in
   let executive_summary :=
     _generate_executive_summary a (deref h (findings a))
                                 overall_score domain_scores in
   let recommendations_summary :=
     _generate_recommendations_summary (deref h (findings a)) in
   ret {| report_scope := scope a;
          report_assessment_date := now;
          report_assessments := PyDict.values (assessments a);
          report_findings := findings a;
          report_overall_score := overall_score;
          report_domain_scores := domain_scores;
          report_executive_summary := executive_summary;
          report_recommendations_summary := recommendations_summary |})%py.

End Formatting.

(* ================================================================== *)
(** ** Questionnaire: interpreting a response *)

Module QuestionnaireEngine.

(** The test of the loop body:
    [response_lower in option.lower() or option.lower() in response_lower]. *)
Definition option_matches (response_lower option : string) : bool :=
  PyStr.contains response_lower (PyStr.lower option)
  || PyStr.contains (PyStr.lower option) response_lower.

(** The [for i, option in enumerate(options)] loop with its [break];
    -1 when no option matches. *)
Fixpoint find_option (i : Z) (response_lower : string)
    (options : list string) : Z :=
  match options with
  | [] => (-1)%Z
  | option :: rest =>
      if option_matches response_lower option then i
      else find_option (i + 1)%Z response_lower rest
  end.

(** The words of the keyword fallback. *)
Definition fallback_keywords : list string :=
  ["yes"; "comprehensive"; "all"; "partial"; "basic"; "some";
   "no"; "never"; "none"]%string.

Definition has_any (words : list string) (s : string) : bool :=
  existsb (fun w => PyStr.contains w s) words.

(** The keyword fallback, taken when [option_index == -1]. *)
Definition infer_option (response_lower : string) (len : Z) : Z :=
  if has_any ["yes"; "comprehensive"; "all"]%string response_lower
  then 0%Z
  else if has_any ["partial"; "basic"; "some"]%string response_lower
  then Z.min 1 (len - 1)
  else if has_any ["no"; "never"; "none"]%string response_lower
  then (len - 1)%Z
  else (-1)%Z.

Definition resolve_option (response : string) (options : list string)
  : Z :=
  let response_lower := PyStr.strip (PyStr.lower response) in
  let option_index := find_option 0 response_lower options in
  if (option_index =? -1)%Z
  then infer_option response_lower (Z.of_nat (List.length options))
  else option_index.

(** [interpret_response].  A true division by [len(options) - 1 == 0]
    raises.  The score of a middle option is computed exactly; Python
    rounds the quotient, the product and the difference to binary64. *)
Definition interpret_response (question response : string)
    (options : list string) : exn + (ComplianceStatus * Q) :=
  let len := Z.of_nat (List.length options) in
  let option_index := resolve_option response options in
  if (option_index =? 0)%Z then inr (COMPLIANT, 100)
  else if (option_index =? len - 1)%Z then inr (NON_COMPLIANT, 0)
  else if (len - 1 =? 0)%Z then inl ZeroDivisionError
  else
    let score :=
      100 - (inject_Z option_index / inject_Z (len - 1)) * 100 in
    if negb (Qle_bool score 60) then inr (PARTIAL, score)
    else inr (NON_COMPLIANT, score).

End QuestionnaireEngine.

(* ================================================================== *)
(** ** Operations of an audit session *)

(** The calls a driver makes on one auditor. *)
Inductive op :=
| OpAssess (id : string) (st : ComplianceStatus) (ev : string)
           (gs : list string) (nt : string)
| OpAddFinding (f : Finding)
| OpSetScope (s : SystemScope).

(** The world a call leaves behind, whether it returned or raised. *)
Definition exec (o : op) (w : World) : World :=
  match o with
  | OpAssess id st ev gs nt => snd (assess_control id st ev gs nt w)
  | OpAddFinding f => snd (add_finding f w)
  | OpSetScope s => snd (set_scope s w)
  end.

Definition exec_all (ops : list op) (w : World) : World :=
  fold_left (fun w o => exec o w) ops w.

Definition assesses (id : string) (o : op) : bool :=
  match o with
  | OpAssess id' _ _ _ _ => String.eqb id' id
  | _ => false
  end.

(** A store as [assess_control] builds it: distinct keys, and every
    record filed under its own identifier. *)
Definition store_ok (d : dict ControlAssessment) : Prop :=
  NoDup (PyDict.keys d) /\ forall k a, In (k, a) d -> ccf_id a = k.

Definition in_catalog (w : World) (id : string) : Prop :=
  In id (map ctl_ccf_id (controls (self w))).

(** [sum(l) / len(l)] on plain numbers. *)
Definition mean (l : list Q) : Q :=
  fold_left Qplus l 0 / inject_Z (Z.of_nat (List.length l)).

(* ================================================================== *)
(** ** Vocabulary of the statements *)

(** The record [assess_control] builds from a catalog entry. *)
Definition assessment_of (c : Control) (id : string)
    (st : ComplianceStatus) (ev : string) (gs : list string) (nt : string)
  : ControlAssessment :=
  {| ccf_id := id; domain := ctl_domain c; control_name := ctl_name c;
     status := st; evidence := ev; gaps := gs; notes := nt;
     score := match score_map st with Some s => s | None => 0 end |}.

(** The auditor with the not-applicable records taken out of its
    store. *)
Definition without_not_applicable (a : SecurityAuditor) : SecurityAuditor :=
  {| controls := controls a; domains := domains a; scope := scope a;
     assessments := filter (fun kv => is_applicable (snd kv)) (assessments a);
     findings := findings a |}.

Definition stored_score (w : World) (id : string) : option Q :=
  option_map score (PyDict.get (assessments (self w)) id).

(** The findings reference of the auditor always points into the
    heap. *)
Definition heap_ok (w : World) : Prop :=
  (findings (self w) < List.length (heap w))%nat.

Definition by_score (x y : string * Q) : Prop := snd x <= snd y.

Definition below_60 (e : string * Q) : bool :=
  if Qlt_le_dec (snd e) 60 then true else false.

(** The block that closes the executive summary: nothing when there is
    no entry, else the heading and one line per entry, with its name
    and its score. *)
Definition attention_block (format_1f : Q -> string)
    (entries : list (string * Q)) : string :=
  match entries with
  | [] => ""
  | _ =>
      PyStr.nl ++ "**Areas Requiring Immediate Attention:**" ++ PyStr.nl
      ++ String.concat ""
           (map (fun e => "- " ++ fst e ++ " (Score: "
                          ++ format_1f (snd e) ++ "/100)" ++ PyStr.nl)
                entries)
  end%string.

Module RecommendationsSpec.

Local Open Scope string_scope.

(** The section as the specification words it: four bands in a fixed
    order, each listing its findings in registry order. *)
Definition bands : list Priority := [CRITICAL; HIGH; MEDIUM; LOW].

Definition band_header (p : Priority) : string :=
  match p with
  | CRITICAL => "**CRITICAL PRIORITY (Immediate Action Required):**"
  | HIGH => "**HIGH PRIORITY (Address within 30 days):**"
  | MEDIUM => "**MEDIUM PRIORITY (Address within 90 days):**"
  | LOW => "**LOW PRIORITY (Address within 6 months):**"
  | INFO => ""
  end ++ PyStr.nl.

(** Title and recommendation, or the title alone in the Low band. *)
Definition entry (p : Priority) (e : nat * Finding) : string :=
  match p with
  | LOW => PyStr.of_nat (fst e) ++ ". " ++ title (snd e)
             ++ PyStr.nl ++ PyStr.nl
  | _ => PyStr.of_nat (fst e) ++ ". " ++ title (snd e) ++ PyStr.nl
           ++ "   - " ++ recommendation (snd e) ++ PyStr.nl ++ PyStr.nl
  end.

Definition band (fs : list Finding) (p : Priority) : string :=
  match filter (fun f => priority_eqb (priority f) p) fs with
  | [] => ""
  | members => band_header p
               ++ String.concat "" (map (entry p) (enumerate 1 members))
  end.

Definition recommendations (fs : list Finding) : string :=
  PyStr.strip ("**Prioritized Recommendations:**" ++ PyStr.nl ++ PyStr.nl
               ++ String.concat "" (map (band fs) bands)).

(** A finding with its recommendation text blanked when it is Low. *)
Definition blank_low_recommendation (f : Finding) : Finding :=
  match priority f with
  | LOW => {| finding_id := finding_id f; title := title f;
              description := description f;
              affected_controls := affected_controls f;
              priority := priority f; recommendation := "";
              risk_impact := risk_impact f;
              remediation_effort := remediation_effort f |}
  | _ => f
  end.

Definition not_info (f : Finding) : bool :=
  negb (priority_eqb (priority f) INFO).

End RecommendationsSpec.

(* ================================================================== *)
(** ** Scenarios *)

(** The catalog of the end-to-end scenario: two domains, three
    controls. *)
Definition sample_controls : list Control :=
  [ {| ctl_ccf_id := "IAM-01"; ctl_domain := "IAM";
       ctl_name := "Logical Access Provisioning" |};
    {| ctl_ccf_id := "IAM-02"; ctl_domain := "IAM";
       ctl_name := "Logical Access De-provisioning" |};
    {| ctl_ccf_id := "CR-01"; ctl_domain := "CR";
       ctl_name := "Encryption of Data in Transit" |} ]%string.

Definition sample_domains : dict (list string) :=
  [ ("IAM", ["IAM-01"; "IAM-02"]); ("CR", ["CR-01"]) ]%string.

Definition sample_world : World := init sample_controls sample_domains.

Definition sample_finding : Finding :=
  {| finding_id := "F-001"; title := "Accounts are never de-provisioned";
     description := "Leavers keep their access";
     affected_controls := ["IAM-02"]; priority := CRITICAL;
     recommendation := "Automate de-provisioning";
     risk_impact := "Unauthorised access";
     remediation_effort := "medium" |}%string.

Definition world_with_not_applicable : World :=
  exec_all [OpAssess "IAM-01" COMPLIANT "" [] "";
            OpAssess "IAM-02" NOT_APPLICABLE "" [] ""]%string sample_world.

Definition world_with_non_compliant : World :=
  exec_all [OpAssess "IAM-01" COMPLIANT "" [] "";
            OpAssess "IAM-02" NON_COMPLIANT "" [] ""]%string sample_world.

Definition controls_AB : list Control :=
  [ {| ctl_ccf_id := "A-1"; ctl_domain := "A"; ctl_name := "a1" |};
    {| ctl_ccf_id := "B-1"; ctl_domain := "B"; ctl_name := "b1" |};
    {| ctl_ccf_id := "B-2"; ctl_domain := "B"; ctl_name := "b2" |};
    {| ctl_ccf_id := "B-3"; ctl_domain := "B"; ctl_name := "b3" |} ]%string.

Definition domains_AB : dict (list string) :=
  [ ("A", ["A-1"]); ("B", ["B-1"; "B-2"; "B-3"]) ]%string.

(** Domain A: one control scoring 100; domain B: three scoring 0. *)
Definition world_AB : World :=
  exec_all [OpAssess "A-1" COMPLIANT "" [] "";
            OpAssess "B-1" NON_COMPLIANT "" [] "";
            OpAssess "B-2" NON_COMPLIANT "" [] "";
            OpAssess "B-3" NON_COMPLIANT "" [] ""]%string
           (init controls_AB domains_AB).

Definition asset_classification_options : list string :=
  ["Yes, all assets classified"; "Partial classification";
   "No classification"]%string.

Definition sample_domain_scores : dict Q :=
  [("IAM", 50); ("CR", 59.9); ("NO", 60); ("DM", 20)]%string.

Definition finding_of (t r : string) (p : Priority) : Finding :=
  {| finding_id := "F"; title := t; description := "";
     affected_controls := []; priority := p; recommendation := r;
     risk_impact := ""; remediation_effort := "" |}.

(** The second question of the Identity and Access Management
    domain, with its options. *)
Definition access_provisioning_question : string :=
  "How are user access rights provisioned and managed?".

Definition access_provisioning_options : list string :=
  ["Automated role-based access control"; "Manual approval process";
   "Ad-hoc/No formal process"]%string.

(** A registry that holds every priority, out of band order. *)
Definition sample_registry : list Finding :=
  [ finding_of "t1" "r1" LOW; finding_of "t2" "r2" MEDIUM;
    finding_of "t3" "r3" INFO; finding_of "t4" "r4" CRITICAL;
    finding_of "t5" "r5" HIGH; finding_of "t6" "r6" CRITICAL;
    finding_of "t7" "r7" LOW ]%string.

Definition sample_recommendations : string :=
  ("**Prioritized Recommendations:**" ++ PyStr.nl ++ PyStr.nl
   ++ "**CRITICAL PRIORITY (Immediate Action Required):**" ++ PyStr.nl
   ++ "1. t4" ++ PyStr.nl ++ "   - r4" ++ PyStr.nl ++ PyStr.nl
   ++ "2. t6" ++ PyStr.nl ++ "   - r6" ++ PyStr.nl ++ PyStr.nl
   ++ "**HIGH PRIORITY (Address within 30 days):**" ++ PyStr.nl
   ++ "1. t5" ++ PyStr.nl ++ "   - r5" ++ PyStr.nl ++ PyStr.nl
   ++ "**MEDIUM PRIORITY (Address within 90 days):**" ++ PyStr.nl
   ++ "1. t2" ++ PyStr.nl ++ "   - r2" ++ PyStr.nl ++ PyStr.nl
   ++ "**LOW PRIORITY (Address within 6 months):**" ++ PyStr.nl
   ++ "1. t1" ++ PyStr.nl ++ PyStr.nl
   ++ "2. t7")%string.

(* ================================================================== *)
(** ** Questionnaire: the question tables and findings from gaps *)

Module QuestionnaireTables.

(** One entry of a question list: [(question, control_id, options)]. *)
Definition question : Type := string * string * list string.

Definition question_text (q : question) : string := fst (fst q).
Definition question_control (q : question) : string := snd (fst q).
Definition question_options (q : question) : list string := snd q.

(** The class attribute [DOMAIN_QUESTIONS]. *)
Definition DOMAIN_QUESTIONS : dict (list question) :=
  [
    ("Asset Management",
      [
        ("Do you maintain a comprehensive inventory of all information systems, applications, and network devices?",
         "AM-01",
         ["Yes, comprehensive and automated"; "Yes, but manual/incomplete";
          "No inventory exists"]);
        ("How frequently is your asset inventory reconciled and updated?",
         "AM-01",
         ["Automated/Real-time"; "Monthly"; "Quarterly"; "Annually";
          "Never/Rarely"]);
        ("Are all assets classified by their criticality and data sensitivity?",
         "AM-05",
         ["Yes, all assets classified"; "Partial classification";
          "No classification"]);
        ("Do you track and manage the lifecycle of your assets (from acquisition to disposal)?",
         "AM-06",
         ["Yes, formal process"; "Informal process"; "No process"])
      ]);
    ("Identity and Access Management",
      [
        ("Do you enforce multi-factor authentication (MFA) for all users accessing sensitive systems?",
         "IAM-05",
         ["Yes, for all users"; "Yes, for privileged users only";
          "No MFA implemented"]);
        ("How are user access rights provisioned and managed?",
         "IAM-01",
         ["Automated role-based access control"; "Manual approval process";
          "Ad-hoc/No formal process"]);
        ("Is there a formal process for regular access reviews and recertification?",
         "IAM-08",
         ["Yes, quarterly or more frequent"; "Yes, annually";
          "No formal review process"]);
        ("Are privileged accounts monitored and their activities logged?",
         "IAM-15",
         ["Yes, comprehensive monitoring"; "Partial monitoring";
          "No monitoring"]);
        ("How quickly are access rights revoked when employees leave or change roles?",
         "IAM-09",
         ["Immediately/Same day"; "Within 24 hours"; "Within a week";
          "No formal process"])
      ]);
    ("Data Management",
      [
        ("Is sensitive data encrypted at rest?",
         "DM-09",
         ["Yes, all sensitive data"; "Partial encryption"; "No encryption"]);
        ("Is data encrypted in transit (e.g., TLS/SSL for all communications)?",
         "DM-10",
         ["Yes, all transmissions"; "Most transmissions";
          "Limited/No encryption"]);
        ("Do you have a data classification scheme in place?",
         "DM-01",
         ["Yes, comprehensive"; "Partial/Informal"; "No classification"]);
        ("Are data retention and disposal policies defined and enforced?",
         "DM-04",
         ["Yes, automated enforcement"; "Yes, manual enforcement";
          "No formal policy"]);
        ("Do you implement data loss prevention (DLP) controls?",
         "DM-13",
         ["Yes, comprehensive DLP"; "Basic DLP"; "No DLP"])
      ]);
    ("Application Security",
      [
        ("Do you follow secure coding practices and standards?",
         "CM-01",
         ["Yes, mandatory with enforcement"; "Yes, guidelines exist";
          "No formal practices"]);
        ("Is security testing (SAST/DAST) integrated into your development pipeline?",
         "VM-11",
         ["Yes, automated in CI/CD"; "Yes, manual/periodic";
          "No security testing"]);
        ("Do you conduct regular vulnerability assessments of applications?",
         "VM-01",
         ["Yes, continuously"; "Yes, monthly/quarterly"; "Annually or less";
          "Never"]);
        ("Is there a process for secure code review before deployment?",
         "CM-02",
         ["Yes, all code reviewed"; "Critical code only"; "No formal review"]);
        ("How do you manage third-party dependencies and libraries?",
         "VM-14",
         ["Automated scanning and updates"; "Manual tracking";
          "No formal process"])
      ]);
    ("Network Operations",
      [
        ("Is network segmentation implemented to separate sensitive systems?",
         "NO-02",
         ["Yes, comprehensive segmentation"; "Basic segmentation";
          "No segmentation"]);
        ("Are firewalls configured following the principle of least privilege?",
         "NO-01",
         ["Yes, deny-by-default"; "Partially configured";
          "Minimal restrictions"]);
        ("Do you monitor network traffic for anomalies and threats?",
         "SM-01",
         ["Yes, 24/7 monitoring"; "Business hours only"; "No monitoring"]);
        ("Are intrusion detection/prevention systems (IDS/IPS) deployed?",
         "NO-11",
         ["Yes, comprehensive"; "Limited deployment"; "Not deployed"]);
        ("Is wireless network access properly secured (WPA3, certificate-based auth)?",
         "NO-09",
         ["Yes, enterprise-grade security"; "Basic security (WPA2)";
          "Weak/No security"])
      ]);
    ("Systems Monitoring",
      [
        ("Are security logs collected from all critical systems?",
         "SM-01",
         ["Yes, comprehensive collection"; "Partial collection";
          "Minimal/No collection"]);
        ("How long are security logs retained?",
         "SM-03",
         ["1+ years"; "6-12 months"; "1-6 months"; "Less than 1 month"]);
        ("Is there a Security Information and Event Management (SIEM) system in place?",
         "SM-04",
         ["Yes, with active monitoring"; "Yes, but limited use"; "No SIEM"]);
        ("Are logs reviewed regularly for security incidents?",
         "SM-05",
         ["Yes, automated analysis"; "Yes, manual review";
          "Rarely/Never reviewed"]);
        ("Do you have alerting configured for critical security events?",
         "SM-08",
         ["Yes, comprehensive alerts"; "Basic alerts"; "No alerting"])
      ]);
    ("Vulnerability Management",
      [
        ("How frequently are systems scanned for vulnerabilities?",
         "VM-01",
         ["Continuously"; "Weekly"; "Monthly"; "Quarterly";
          "Annually or less"]);
        ("What is your target timeframe for patching critical vulnerabilities?",
         "VM-02",
         ["Within 24 hours"; "Within 1 week"; "Within 1 month";
          "No defined timeframe"]);
        ("Is there a formal vulnerability management program?",
         "VM-01",
         ["Yes, comprehensive program"; "Basic program"; "No formal program"]);
        ("Are penetration tests conducted regularly?",
         "VM-12",
         ["Yes, quarterly or more"; "Yes, annually"; "Never conducted"]);
        ("Do you track and manage vulnerabilities to closure?",
         "VM-03",
         ["Yes, formal tracking system"; "Informal tracking"; "No tracking"])
      ]);
    ("Cryptography",
      [
        ("Are cryptographic standards defined and enforced organization-wide?",
         "CR-01",
         ["Yes, comprehensive policy"; "Basic guidelines"; "No standards"]);
        ("How are cryptographic keys managed?",
         "CR-02",
         ["Hardware Security Module (HSM)"; "Key management service";
          "No formal management"]);
        ("Are encryption algorithms up-to-date and comply with industry standards?",
         "CR-04",
         ["Yes, modern algorithms only"; "Mix of old and new";
          "Outdated algorithms in use"]);
        ("Is there a key rotation policy?",
         "CR-03",
         ["Yes, automated rotation"; "Yes, manual rotation";
          "No rotation policy"])
      ]);
    ("Incident Response",
      [
        ("Do you have a documented incident response plan?",
         "IR-01",
         ["Yes, tested regularly"; "Yes, but not tested"; "No formal plan"]);
        ("Is there a dedicated incident response team?",
         "IR-02",
         ["Yes, 24/7 team"; "Yes, business hours"; "No dedicated team"]);
        ("How are security incidents detected?",
         "IR-03",
         ["Automated detection systems"; "Manual monitoring";
          "Reactive/reported by users"]);
        ("What is your average time to detect a security incident?",
         "IR-04",
         ["< 1 hour"; "< 24 hours"; "< 1 week"; "> 1 week"]);
        ("Are incident response procedures tested through tabletop exercises or simulations?",
         "IR-09",
         ["Yes, quarterly or more"; "Yes, annually"; "Never tested"])
      ]);
    ("Business Continuity",
      [
        ("Do you have a business continuity plan (BCP)?",
         "BC-01",
         ["Yes, tested regularly"; "Yes, but not tested"; "No BCP"]);
        ("What is your Recovery Time Objective (RTO) for critical systems?",
         "BC-03",
         ["< 4 hours"; "< 24 hours"; "< 1 week"; "Not defined"]);
        ("What is your Recovery Point Objective (RPO) for critical data?",
         "BC-03",
         ["< 1 hour"; "< 24 hours"; "< 1 week"; "Not defined"]);
        ("Are backups tested regularly for restoration?",
         "BM-03",
         ["Yes, monthly or more"; "Yes, quarterly"; "Annually or less";
          "Never tested"])
      ]);
    ("Access Control",
      [
        ("Is the principle of least privilege enforced for all accounts?",
         "IAM-03",
         ["Yes, strictly enforced"; "Partially enforced"; "Not enforced"]);
        ("Are administrative privileges separated from regular user accounts?",
         "IAM-14",
         ["Yes, separate admin accounts"; "Same accounts with elevation";
          "No separation"]);
        ("Is there session timeout configured for inactive sessions?",
         "IAM-19",
         ["Yes, < 15 minutes"; "Yes, < 30 minutes"; "Yes, > 30 minutes";
          "No timeout"])
      ]);
    ("Configuration Management",
      [
        ("Are system configurations hardened according to security benchmarks (CIS, STIG)?",
         "CM-04",
         ["Yes, fully hardened"; "Partially hardened"; "No hardening"]);
        ("Is there a baseline configuration standard for all systems?",
         "CM-03",
         ["Yes, enforced"; "Yes, but not enforced"; "No baseline"]);
        ("Are configuration changes tracked and audited?",
         "CHM-01",
         ["Yes, automatically"; "Yes, manually"; "Not tracked"])
      ]);
    ("Change Management",
      [
        ("Is there a formal change management process?",
         "CHM-01",
         ["Yes, comprehensive"; "Basic process"; "No formal process"]);
        ("Are all changes reviewed and approved before implementation?",
         "CHM-02",
         ["Yes, all changes"; "Critical changes only"; "No review process"]);
        ("Is there a rollback procedure for failed changes?",
         "CHM-04",
         ["Yes, tested"; "Yes, but not tested"; "No rollback procedure"])
      ]);
    ("Third-Party Management",
      [
        ("Are third-party vendors assessed for security before engagement?",
         "TPM-01",
         ["Yes, comprehensive assessment"; "Basic assessment";
          "No assessment"]);
        ("Do you have contracts with security and privacy requirements for vendors?",
         "TPM-03",
         ["Yes, all vendors"; "Critical vendors only";
          "No security requirements"]);
        ("Is third-party access monitored and restricted?",
         "TPM-05",
         ["Yes, strictly controlled"; "Basic controls"; "No restrictions"])
      ]);
    ("Security Governance",
      [
        ("Is there an executive-level security governance body?",
         "SG-01",
         ["Yes, active board/committee"; "Informal governance";
          "No governance"]);
        ("Are security policies reviewed and updated regularly?",
         "SG-02",
         ["Yes, annually or more"; "Every 2-3 years"; "Rarely/Never"]);
        ("Is there a security awareness program?",
         "TA-01",
         ["Yes, comprehensive program"; "Basic training"; "No formal program"])
      ]);
    ("Risk Management",
      [
        ("Do you conduct regular risk assessments?",
         "RM-01",
         ["Yes, quarterly or more"; "Yes, annually"; "Never"]);
        ("Are risks formally tracked and managed?",
         "RM-02",
         ["Yes, risk register maintained"; "Informal tracking"; "Not tracked"]);
        ("Is there a risk acceptance process for residual risks?",
         "RM-04",
         ["Yes, formal approval"; "Informal process"; "No process"])
      ])
  ]%string.

(** [get_questions_for_domain]: [DOMAIN_QUESTIONS.get(domain, [])]. *)
Definition get_questions_for_domain (domain : string) : list question :=
  match PyDict.get DOMAIN_QUESTIONS domain with
  | Some l => l
  | None => []
  end.

(** The list [get_scoping_questions] returns. *)
Definition get_scoping_questions : list question :=
  [
    ("What is the primary function of the system?",
     "scope",
     ["Web application"; "API service"; "Mobile app";
      "Desktop application"; "Database system"; "Infrastructure"; "Other"]);
    ("What types of data does the system process or store?",
     "scope",
     ["Personally Identifiable Information (PII)";
      "Payment card data (PCI)"; "Health information (PHI)";
      "Confidential business data"; "Public data only"; "Multiple types"]);
    ("What is the system architecture?",
     "scope",
     ["Cloud-native (AWS/Azure/GCP)"; "On-premises"; "Hybrid cloud";
      "Multi-cloud"; "SaaS"]);
    ("What is the system criticality?",
     "scope",
     ["Critical (business-essential)"; "High (important)";
      "Medium (supporting)"; "Low (non-essential)"]);
    ("Who are the primary users?",
     "scope",
     ["External customers"; "Internal employees"; "Partners/vendors";
      "Public users"; "Mixed"]);
    ("What compliance requirements apply?",
     "scope",
     ["SOC 2"; "ISO 27001"; "PCI-DSS"; "HIPAA"; "GDPR"; "FedRAMP";
      "None specific"; "Multiple"])
  ]%string.

(** The dictionary [generate_finding_from_gap] returns, key by key. *)
Record GapFinding := {
  gap_domain : string;
  gap_control_id : string;
  gap_control_name : string;
  gap_priority : Priority;
  gap_description : string;
  gap_recommendation : string
}.

Definition high_priority_domains : list string :=
  ["Identity and Access Management"; "Data Management";
   "Cryptography"; "Incident Response"]%string.

(** [x in l] on a list of strings. *)
Definition str_in_list (x : string) (l : list string) : bool :=
  existsb (String.eqb x) l.

(** The test ["no" in gap.lower() or "never" in gap.lower()]. *)
Definition mentions_absence (gap_description : string) : bool :=
  PyStr.contains "no" (PyStr.lower gap_description)
  || PyStr.contains "never" (PyStr.lower gap_description).

(** [generate_finding_from_gap]. *)
Definition generate_finding_from_gap
    (domain control_id control_name gap_description : string)
  : GapFinding :=
  let priority :=
    if str_in_list domain high_priority_domains then
      if mentions_absence gap_description then CRITICAL else HIGH
    else
      if mentions_absence gap_description then HIGH else MEDIUM in
  let recommendation :=
    ("Implement " ++ control_name
       ++ " controls to address the identified gap. "
       ++ gap_description)%string in
  {| gap_domain := domain;
     gap_control_id := control_id;
     gap_control_name := control_name;
     gap_priority := priority;
     gap_description := gap_description;
     gap_recommendation := recommendation |}.

End QuestionnaireTables.

(* ================================================================== *)
(** ** Catalog: grouping by domain and lookup by domain *)

(** [SecurityAuditor.get_controls_for_domain]: the catalog controls, in
    catalog order, whose identifier is listed under the domain. *)
Definition get_controls_for_domain (a : SecurityAuditor) (d : string)
  : list Control :=
  let control_ids :=
    match PyDict.get (domains a) d with Some l => l | None => [] end in
  filter (fun c => existsb (String.eqb (ctl_ccf_id c)) control_ids)
         (controls a).

Module CCFParser.

(** One pass of the loop of [_organize_by_domain]: a domain seen for the
    first time gets an empty list, then the control is appended to the
    list of its domain.  The lookup after the insertion cannot fail. *)
Definition organize_step (domains : dict (list Control)) (control : Control)
  : dict (list Control) :=
  let domains :=
    if PyDict.mem domains (ctl_domain control) then domains
    else PyDict.set domains (ctl_domain control) [] in
  match PyDict.get domains (ctl_domain control) with
  | Some l => PyDict.set domains (ctl_domain control) (l ++ [control])
  | None => domains
  end.

(** [_organize_by_domain] on the attributes [controls] and [domains]. *)
Definition _organize_by_domain (controls : list Control)
    (domains : dict (list Control)) : dict (list Control) :=
  fold_left organize_step controls domains.

(** The ['domains'] entry of [export_to_json]:
    [{domain: [c.ccf_id for c in controls] for domain, controls in ...}]. *)
Definition exported_domains (domains : dict (list Control))
  : dict (list string) :=
  PyDict.of_list
    (map (fun kv => (fst kv, map ctl_ccf_id (snd kv))) (PyDict.items domains)).

(** The domain index of the data file written after [parse()] on a
    fresh parser. *)
Definition ccf_domains (controls : list Control) : dict (list string) :=
  exported_domains (_organize_by_domain controls []).

End CCFParser.

(* ================================================================== *)
(** ** Code scanner: from scan results to assessments and findings *)

Module CodeSecurityScanner.

Local Open Scope string_scope.

(** [k] characters ['0']. *)
Fixpoint zeros (k : nat) : string :=
  match k with
  | O => ""
  | S k' => String "0" (zeros k')
  end.

(** The format specification [:0<width>d] on a non-negative integer:
    padded with zeros on the left up to the width, never truncated. *)
Definition format_0d (width n : nat) : string :=
  zeros (width - String.length (PyStr.of_nat n)) ++ PyStr.of_nat n.

(** The entries of [self.scan_results] that [_assess_controls] reads;
    the counts are lengths of match lists. *)
Record ScanResults := {
  has_documentation : bool;
  auth_issues_count : nat;
  mfa_implemented : bool;
  weak_crypto_count : nat;
  strong_crypto_found : bool;
  encryption_in_transit : bool;
  secrets_count : nat;
  has_audit_logging : bool;
  has_logging : bool;
  sql_injection_risks : nat
}.

(** [_add_finding]: the identifier numbers the finding by the length of
    the auditor's findings list at the time of the call. *)
Definition _add_finding (control_id title description : string)
    (priority : Priority) : M unit :=
  (a <- get_self ;;
   h <- get_heap ;;
   let finding :=
     {| finding_id :=
          "F-" ++ format_0d 3 (List.length (deref h (findings a)) + 1);
        title := title;
        description := description;
        affected_controls := [control_id];
        priority := priority;
        recommendation :=
          "Review and remediate " ++ control_id ++ ": " ++ title;
        risk_impact := "See control description for impact";
        remediation_effort := "Medium" |} in
   add_finding finding)%py.

(** A call of [assess_control] whose result is dropped. *)
Definition assess (id : string) (st : ComplianceStatus) (ev : string)
    (gs : list string) : M unit :=
  (assess_control id st ev gs "" ;;; ret tt)%py.

(** [_assess_controls]. *)
Definition _assess_controls (results : ScanResults) : M unit :=
  ((* Asset Management *)
   (if has_documentation results then
      assess "AM-01" COMPLIANT "Documentation found" []
    else
      assess "AM-01" NON_COMPLIANT "" ["No system documentation found"] ;;;
      _add_finding "AM-01" "Missing System Documentation"
                   "No README or architecture documentation found"
                   MEDIUM) ;;;
   (* Authentication *)
   (if (0 <? auth_issues_count results)%nat then
      assess "IAM-05" NON_COMPLIANT ""
             ["Found " ++ PyStr.of_nat (auth_issues_count results)
                ++ " authentication issues"] ;;;
      _add_finding "IAM-05" "Authentication Issues Detected"
                   "Hardcoded credentials or weak authentication found"
                   CRITICAL
    else if mfa_implemented results then
      assess "IAM-05" COMPLIANT "MFA implementation found" []
    else
      assess "IAM-05" PARTIAL
             "Basic authentication present, MFA not detected" []) ;;;
   (* Cryptography *)
   (if (0 <? weak_crypto_count results)%nat then
      assess "CR-04" NON_COMPLIANT ""
             ["Found " ++ PyStr.of_nat (weak_crypto_count results)
                ++ " weak cryptography instances"] ;;;
      _add_finding "CR-04" "Weak Cryptography Detected"
                   "MD5, SHA1, DES, or RC4 usage found" HIGH
    else if strong_crypto_found results then
      assess "CR-04" COMPLIANT "Strong cryptography algorithms in use" []
    else ret tt) ;;;
   (* Data Protection *)
   (if encryption_in_transit results then
      assess "DM-10" COMPLIANT "HTTPS/TLS usage detected" []
    else
      assess "DM-10" NON_COMPLIANT ""
             ["No encryption in transit detected"] ;;;
      _add_finding "DM-10" "Missing Encryption in Transit"
                   "HTTPS/TLS not detected in code" HIGH) ;;;
   (* Secrets Management *)
   (if (0 <? secrets_count results)%nat then
      assess "CR-02" NON_COMPLIANT ""
             ["Found " ++ PyStr.of_nat (secrets_count results)
                ++ " hardcoded secrets"] ;;;
      _add_finding "CR-02" "Hardcoded Secrets Detected"
                   ("Found " ++ PyStr.of_nat (secrets_count results)
                      ++ " potential secrets in code")
                   CRITICAL
    else ret tt) ;;;
   (* Logging *)
   (if has_audit_logging results then
      assess "SM-01" COMPLIANT "Audit logging detected" []
    else if has_logging results then
      assess "SM-01" PARTIAL
             "Basic logging present, audit logging not detected" []
    else
      assess "SM-01" NON_COMPLIANT "" ["No logging detected"]) ;;;
   (* Input Validation *)
   (if (0 <? sql_injection_risks results)%nat then
      assess "DM-11" NON_COMPLIANT "" ["SQL injection risks detected"] ;;;
      _add_finding "DM-11" "SQL Injection Risk"
                   ("Found " ++ PyStr.of_nat (sql_injection_risks results)
                      ++ " potential SQL injection vulnerabilities")
                   CRITICAL
    else ret tt))%py.

End CodeSecurityScanner.

(* ================================================================== *)
(** ** Interactive review: one question of the systematic review *)

Module CCFAuditorCLI.

Local Open Scope string_scope.

Definition high_priority_domains : list string :=
  ["Identity and Access Management"; "Data Management";
   "Cryptography"; "Incident Response"].

Definition high_risk_domains : list string :=
  ["Identity and Access Management"; "Data Management"; "Cryptography"].

(** [_determine_priority]. *)
Definition _determine_priority (domain control_id : string) : Priority :=
  if existsb (String.eqb domain) high_priority_domains then HIGH
  else MEDIUM.

(** [s.split(c)[0]]: the text before the first occurrence of [c]. *)
Fixpoint before_char (c : ascii) (s : string) : string :=
  match s with
  | EmptyString => EmptyString
  | String x s' => if Ascii.eqb x c then EmptyString
                   else String x (before_char c s')
  end.

(** [_generate_recommendation]; [guidance] is
    [control.get('implementation_guidance')] and [name] is
    [control['name']].  An absent or empty guidance is falsy. *)
Definition _generate_recommendation (guidance : option string)
    (name : string) : string :=
  match guidance with
  | Some (String c g) =>
      let guidance := String c g in
      if PyStr.contains "." guidance then before_char "." guidance ++ "."
      else substring 0 200 guidance ++ "..."
  | _ => "Implement " ++ name ++ " according to CCF guidelines."
  end.

(** [_assess_risk_impact]. *)
Definition _assess_risk_impact (domain : string) (status : ComplianceStatus)
  : string :=
  if existsb (String.eqb domain) high_risk_domains then
    if status_eqb status NON_COMPLIANT
    then "High - Could lead to data breach or unauthorized access"
    else "Medium - Increased risk of security incidents"
  else
    if status_eqb status NON_COMPLIANT
    then "Medium - Could impact security posture"
    else "Low - Minor security risk".

(** [_estimate_effort]. *)
Definition _estimate_effort (status : ComplianceStatus) : string :=
  if status_eqb status NON_COMPLIANT
  then "High - Significant implementation required"
  else if status_eqb status PARTIAL
  then "Medium - Enhancement of existing controls"
  else "Low - Minor adjustments needed".

Section Review.

(** The key ['implementation_guidance'] of a catalog entry, which the
    record [Control] does not carry. *)
Variable implementation_guidance : Control -> option string.

(** The body of the question loop of [conduct_systematic_review], for
    the question [(question, control_id, options)] at position [q_idx]
    of the domain at position [domain_idx].  [response] is what the
    first [get_input] returned; [evidence_input] and [gap_input] are
    what the two later prompts return when they are reached.  Console
    output is left out. *)
Definition review_question (domain_idx q_idx : nat) (domain : string)
    (question control_id : string) (options : list string)
    (response evidence_input gap_input : string) : M unit :=
  match QuestionnaireEngine.interpret_response question response options with
  | inl e => raise e
  | inr (status, _) =>
      (a <- get_self ;;
       match get_control_by_id (controls a) control_id with
       | None => ret tt
       | Some control =>
           let evidence :=
             if status_eqb status COMPLIANT then "" else evidence_input in
           let gaps :=
             if status_eqb status NON_COMPLIANT
             then match gap_input with
                  | EmptyString => []
                  | _ => [gap_input]
                  end
             else [] in
           assess_control control_id status evidence gaps
                          ("Based on: " ++ question) ;;;
           if status_eqb status NON_COMPLIANT && negb (is_empty gaps) then
             add_finding
               {| finding_id :=
                    "F-" ++ CodeSecurityScanner.format_0d 2 domain_idx
                      ++ "-" ++ CodeSecurityScanner.format_0d 2 q_idx;
                  title := ctl_name control ++ " - Gap Identified";
                  description := match gaps with
                                 | g :: _ => g
                                 | [] => "Control not implemented"
                                 end;
                  affected_controls := [control_id];
                  priority := _determine_priority domain control_id;
                  recommendation :=
                    _generate_recommendation
                      (implementation_guidance control) (ctl_name control);
                  risk_impact := _assess_risk_impact domain status;
                  remediation_effort := _estimate_effort status |}
           else ret tt
       end)%py
  end.

End Review.

End CCFAuditorCLI.

(* ================================================================== *)
(** ** Serialising a report *)

(** The values [to_dict] builds: strings, floats, lists and
    dictionaries with string keys, in insertion order. *)
#[warnings="-register-all"] Inductive pyval :=
| VStr (s : string)
| VFloat (q : Q)
| VList (l : list pyval)
| VDict (d : list (string * pyval)).

(** [ComplianceStatus.value] and [Priority.value]. *)
Definition status_value (s : ComplianceStatus) : string :=
  match s with
  | COMPLIANT => "compliant"
  | PARTIAL => "partial"
  | NON_COMPLIANT => "non_compliant"
  | NOT_APPLICABLE => "not_applicable"
  | NOT_ASSESSED => "not_assessed"
  end.

Definition priority_value (p : Priority) : string :=
  match p with
  | CRITICAL => "critical"
  | HIGH => "high"
  | MEDIUM => "medium"
  | LOW => "low"
  | INFO => "info"
  end.

(** [asdict] on a [List[str]] field. *)
Definition str_list (l : list string) : pyval := VList (map VStr l).

(** [SystemScope.to_dict]: [asdict(self)], the fields in declaration
    order. *)
Definition SystemScope_to_dict (s : SystemScope) : pyval :=
  VDict [ ("system_name", VStr (system_name s));
          ("primary_function", VStr (primary_function s));
          ("data_types", str_list (data_types s));
          ("architecture", VStr (architecture s));
          ("deployment_environment", VStr (deployment_environment s));
          ("compliance_requirements", str_list (compliance_requirements s));
          ("user_base", VStr (user_base s));
          ("criticality", VStr (criticality s));
          ("additional_context", VStr (additional_context s)) ]%string.

(** [ControlAssessment.to_dict]: [asdict(self)] with the entry
    ['status'] overwritten, in place, by the value of the enum. *)
Definition ControlAssessment_to_dict (a : ControlAssessment) : pyval :=
  VDict [ ("ccf_id", VStr (ccf_id a));
          ("domain", VStr (domain a));
          ("control_name", VStr (control_name a));
          ("status", VStr (status_value (status a)));
          ("evidence", VStr (evidence a));
          ("gaps", str_list (gaps a));
          ("notes", VStr (notes a));
          ("score", VFloat (score a)) ]%string.

(** [Finding.to_dict]: [asdict(self)] with the entry ['priority']
    overwritten, in place, by the value of the enum. *)
Definition Finding_to_dict (f : Finding) : pyval :=
  VDict [ ("finding_id", VStr (finding_id f));
          ("title", VStr (title f));
          ("description", VStr (description f));
          ("affected_controls", str_list (affected_controls f));
          ("priority", VStr (priority_value (priority f)));
          ("recommendation", VStr (recommendation f));
          ("risk_impact", VStr (risk_impact f));
          ("remediation_effort", VStr (remediation_effort f)) ]%string.

(** The error of [self.scope.to_dict()] when [scope] is [None]. *)
Inductive attribute_error := AttributeError.

(** [AuditReport.to_dict]; [h] is the heap the findings list lives in.
    The entries are evaluated in order, ['scope'] first. *)
Definition AuditReport_to_dict (h : Heap) (r : AuditReport)
  : attribute_error + pyval :=
  match report_scope r with
  | None => inl AttributeError
  | Some s =>
      inr (VDict
             [ ("scope", SystemScope_to_dict s);
               ("assessment_date", VStr (report_assessment_date r));
               ("assessments",
                VList (map ControlAssessment_to_dict (report_assessments r)));
               ("findings",
                VList (map Finding_to_dict (deref h (report_findings r))));
               ("overall_score", VFloat (report_overall_score r));
               ("domain_scores",
                VDict (map (fun kv => (fst kv, VFloat (snd kv)))
                           (report_domain_scores r)));
               ("executive_summary", VStr (report_executive_summary r));
               ("recommendations_summary",
                VStr (report_recommendations_summary r)) ]%string)
  end.

(* ================================================================== *)
(** ** Vocabulary of the further properties *)

(** Position of a posture label on the scale from worst to best. *)
Definition posture_rank (label : string) : nat :=
  if String.eqb label "Excellent" then 4
  else if String.eqb label "Good" then 3
  else if String.eqb label "Fair" then 2
  else if String.eqb label "Poor" then 1
  else 0.

(** The findings the executive summary counts. *)
Definition counted_in_summary (f : Finding) : bool :=
  match priority f with
  | CRITICAL | HIGH | MEDIUM => true
  | LOW | INFO => false
  end.

(** A string made of white space only (the empty string included). *)
Fixpoint all_space (s : string) : bool :=
  match s with
  | EmptyString => true
  | String c s' => PyStr.isspace c && all_space s'
  end.

(** Position of a priority on the scale from Info to Critical. *)
Definition priority_level (p : Priority) : nat :=
  match p with
  | CRITICAL => 4 | HIGH => 3 | MEDIUM => 2 | LOW => 1 | INFO => 0
  end.

(** Every predefined question of every domain, in table order. *)
Definition all_domain_questions : list QuestionnaireTables.question :=
  flat_map snd QuestionnaireTables.DOMAIN_QUESTIONS.

(** A question has at least three options and each option, given back
    as the response, resolves to its own position. *)
Definition self_resolving (q : QuestionnaireTables.question) : bool :=
  let options := QuestionnaireTables.question_options q in
  (3 <=? List.length options)%nat
  && forallb (fun i =>
                (QuestionnaireEngine.resolve_option
                   (nth i options ""%string) options =? Z.of_nat i)%Z)
             (seq 0 (List.length options)).

(** The controls of a catalog that belong to a domain. *)
Definition controls_of_domain (cs : list Control) (d : string)
  : list Control :=
  filter (fun c => String.eqb (ctl_domain c) d) cs.

(** The stored assessments of a domain that enter its score, selected
    by the domain field of the record. *)
Definition scored_by_domain_field (a : SecurityAuditor) (d : string)
  : list ControlAssessment :=
  filter (fun x => String.eqb (domain x) d && is_applicable x)
         (PyDict.values (assessments a)).

(** The findings a list of calls adds, in order. *)
Fixpoint added_findings (ops : list op) : list Finding :=
  match ops with
  | [] => []
  | OpAddFinding f :: ops' => f :: added_findings ops'
  | _ :: ops' => added_findings ops'
  end.

(** Status and gaps of the last assessment a list of calls records for
    an identifier. *)
Fixpoint last_assessed (ops : list op) (id : string)
  : option (ComplianceStatus * list string) :=
  match ops with
  | [] => None
  | o :: ops' =>
      match last_assessed ops' id with
      | Some r => Some r
      | None =>
          match o with
          | OpAssess id' st _ gs _ =>
              if String.eqb id' id then Some (st, gs) else None
          | _ => None
          end
      end
  end.

(** The identifiers a list of calls assesses. *)
Fixpoint assessed_ids (ops : list op) : list string :=
  match ops with
  | [] => []
  | OpAssess id _ _ _ _ :: ops' => id :: assessed_ids ops'
  | _ :: ops' => assessed_ids ops'
  end.

(** The calls the code scanner makes on the auditor, block by block;
    [k] is the length of the findings list when the block starts. *)
Module ScannerCalls.

Import CodeSecurityScanner.
Local Open Scope string_scope.

Definition scanner_finding (k : nat) (control_id title description : string)
    (priority : Priority) : Finding :=
  {| finding_id := "F-" ++ format_0d 3 (k + 1)%nat;
     title := title;
     description := description;
     affected_controls := [control_id];
     priority := priority;
     recommendation := "Review and remediate " ++ control_id ++ ": " ++ title;
     risk_impact := "See control description for impact";
     remediation_effort := "Medium" |}.

Definition plain (id : string) (st : ComplianceStatus) (ev : string)
  : nat -> list op :=
  fun _ => [OpAssess id st ev [] ""].

Definition flagged (id : string) (gs : list string)
    (title description : string) (priority : Priority) : nat -> list op :=
  fun k => [OpAssess id NON_COMPLIANT "" gs "";
            OpAddFinding (scanner_finding k id title description priority)].

Definition nothing : nat -> list op := fun _ => [].

(** One block after the other: the second starts with the findings
    list grown by what the first added. *)
Definition then_calls (o1 o2 : nat -> list op) : nat -> list op :=
  fun k => (o1 k ++ o2 (List.length (added_findings (o1 k)) + k)%nat)%list.

Definition asset_management (r : ScanResults) : nat -> list op :=
  if has_documentation r then plain "AM-01" COMPLIANT "Documentation found"
  else flagged "AM-01" ["No system documentation found"]
               "Missing System Documentation"
               "No README or architecture documentation found" MEDIUM.

Definition authentication (r : ScanResults) : nat -> list op :=
  if (0 <? auth_issues_count r)%nat then
    flagged "IAM-05"
            ["Found " ++ PyStr.of_nat (auth_issues_count r)
               ++ " authentication issues"]
            "Authentication Issues Detected"
            "Hardcoded credentials or weak authentication found" CRITICAL
  else if mfa_implemented r then
    plain "IAM-05" COMPLIANT "MFA implementation found"
  else plain "IAM-05" PARTIAL
             "Basic authentication present, MFA not detected".

Definition cryptography (r : ScanResults) : nat -> list op :=
  if (0 <? weak_crypto_count r)%nat then
    flagged "CR-04"
            ["Found " ++ PyStr.of_nat (weak_crypto_count r)
               ++ " weak cryptography instances"]
            "Weak Cryptography Detected"
            "MD5, SHA1, DES, or RC4 usage found" HIGH
  else if strong_crypto_found r then
    plain "CR-04" COMPLIANT "Strong cryptography algorithms in use"
  else nothing.

Definition data_protection (r : ScanResults) : nat -> list op :=
  if encryption_in_transit r then
    plain "DM-10" COMPLIANT "HTTPS/TLS usage detected"
  else flagged "DM-10" ["No encryption in transit detected"]
               "Missing Encryption in Transit"
               "HTTPS/TLS not detected in code" HIGH.

Definition secrets_management (r : ScanResults) : nat -> list op :=
  if (0 <? secrets_count r)%nat then
    flagged "CR-02"
            ["Found " ++ PyStr.of_nat (secrets_count r)
               ++ " hardcoded secrets"]
            "Hardcoded Secrets Detected"
            ("Found " ++ PyStr.of_nat (secrets_count r)
               ++ " potential secrets in code") CRITICAL
  else nothing.

Definition logging (r : ScanResults) : nat -> list op :=
  if has_audit_logging r then
    plain "SM-01" COMPLIANT "Audit logging detected"
  else if has_logging r then
    plain "SM-01" PARTIAL
          "Basic logging present, audit logging not detected"
  else fun _ => [OpAssess "SM-01" NON_COMPLIANT "" ["No logging detected"] ""].

Definition input_validation (r : ScanResults) : nat -> list op :=
  if (0 <? sql_injection_risks r)%nat then
    flagged "DM-11" ["SQL injection risks detected"]
            "SQL Injection Risk"
            ("Found " ++ PyStr.of_nat (sql_injection_risks r)
               ++ " potential SQL injection vulnerabilities") CRITICAL
  else nothing.

Definition scanner_calls (r : ScanResults) : nat -> list op :=
  then_calls (asset_management r)
    (then_calls (authentication r)
       (then_calls (cryptography r)
          (then_calls (data_protection r)
             (then_calls (secrets_management r)
                (then_calls (logging r) (input_validation r)))))).

(** The controls the scanner may assess. *)
Definition scanner_controls : list string :=
  ["AM-01"; "IAM-05"; "CR-04"; "DM-10"; "CR-02"; "SM-01"; "DM-11"].

End ScannerCalls.

(** Each finding names one control, and the last assessment the calls
    record for that control is NonCompliant with a gap listed. *)
Definition findings_follow_gaps (ops : list op) : bool :=
  forallb
    (fun f =>
       match affected_controls f with
       | [cid] =>
           match last_assessed ops cid with
           | Some (NON_COMPLIANT, _ :: _) => true
           | _ => false
           end
       | _ => false
       end
       && negb (priority_eqb (priority f) LOW)
       && negb (priority_eqb (priority f) INFO))
    (added_findings ops).

(** What holds of the calls of the scanner whatever the scan found:
    findings follow gaps, at most six findings, only the scanner's
    controls are assessed, and the four controls of the unconditional
    blocks get a status other than NotApplicable and NotAssessed. *)
Definition scanner_table_ok (ops : list op) : bool :=
  findings_follow_gaps ops
  && (List.length (added_findings ops) <=? 6)%nat
  && forallb (fun id => existsb (String.eqb id) ScannerCalls.scanner_controls)
             (assessed_ids ops)
  && forallb
       (fun id =>
          match last_assessed ops id with
          | Some (st, _) =>
              negb (status_eqb st NOT_APPLICABLE)
              && negb (status_eqb st NOT_ASSESSED)
          | None => false
          end)
       ["AM-01"; "IAM-05"; "DM-10"; "SM-01"]%string.

(** The identifiers [_add_finding] gives to [n] findings added to a
    findings list of length [k]. *)
Definition sequential_ids (k n : nat) : list string :=
  map (fun j => ("F-" ++ CodeSecurityScanner.format_0d 3 (j + k + 1))%string)
      (seq 0 n).

(** Reads a string of decimal digits back as a number. *)
Definition parse_nat (s : string) : option nat :=
  option_map Nat.of_uint (NilEmpty.uint_of_string s).

(** The scanner can run: the findings reference is valid and the
    catalog holds the seven controls it may assess. *)
Definition scanner_ready (w : World) : Prop :=
  (findings (self w) < List.length (heap w))%nat
  /\ forall id, In id ScannerCalls.scanner_controls -> in_catalog w id.

(** The catalog of a data file that holds the scanner's controls. *)
Definition scanner_catalog : list Control :=
  map (fun id => {| ctl_ccf_id := id; ctl_domain := "Scanned";
                    ctl_name := id |})
      ScannerCalls.scanner_controls.

Definition sample_scan : CodeSecurityScanner.ScanResults :=
  {| CodeSecurityScanner.has_documentation := false;
     CodeSecurityScanner.auth_issues_count := 12;
     CodeSecurityScanner.mfa_implemented := true;
     CodeSecurityScanner.weak_crypto_count := 0;
     CodeSecurityScanner.strong_crypto_found := false;
     CodeSecurityScanner.encryption_in_transit := false;
     CodeSecurityScanner.secrets_count := 3;
     CodeSecurityScanner.has_audit_logging := false;
     CodeSecurityScanner.has_logging := true;
     CodeSecurityScanner.sql_injection_risks := 1 |}.

(** The list object the auditor's [findings] attribute points to. *)
(** The scope left by a sequence of calls that started from [o]. *)
Definition last_scope (ops : list op) (o : option SystemScope)
  : option SystemScope :=
  fold_left (fun acc x => match x with
                          | OpSetScope s => Some s
                          | _ => acc
                          end) ops o.

Definition registry (w : World) : list Finding :=
  deref (heap w) (findings (self w)).

(** A computation that, on a ready world, returns normally and does
    what the listed calls do. *)
Definition runs (m : M unit) (calls : nat -> list op) : Prop :=
  forall w, scanner_ready w ->
            m w = (inr tt, exec_all (calls (List.length (registry w))) w).

(* ================================================================== *)
(** ** Facts about dictionaries *)

Module PyDictFacts.
Section Facts.

Variable V : Type.
Implicit Types (d : dict V) (k : string) (v : V).

Lemma get_set_same d k v : PyDict.get (PyDict.set d k v) k = Some v.
Proof.
  induction d as [|[k' v'] d IH]; simpl.
  - now rewrite String.eqb_refl.
  - destruct (String.eqb k' k) eqn:E; simpl; rewrite E; auto.
Qed.

Lemma get_set_other d k k' v :
  k <> k' -> PyDict.get (PyDict.set d k v) k' = PyDict.get d k'.
Proof.
  intros Hne. induction d as [|[k0 v0] d IH]; simpl.
  - destruct (String.eqb k k') eqn:E; auto.
    apply String.eqb_eq in E. contradiction.
  - destruct (String.eqb k0 k) eqn:E; simpl.
    + apply String.eqb_eq in E. subst k0.
      destruct (String.eqb k k') eqn:E'; auto.
      apply String.eqb_eq in E'. contradiction.
    + now rewrite IH.
Qed.

Lemma get_Some_In d k v : PyDict.get d k = Some v -> In (k, v) d.
Proof.
  induction d as [|[k' v'] d IH]; simpl; [discriminate|].
  destruct (String.eqb k' k) eqn:E.
  - apply String.eqb_eq in E. intros [= ->]. subst. now left.
  - intros H. right. auto.
Qed.

Lemma get_None_keys d k : PyDict.get d k = None <-> ~ In k (PyDict.keys d).
Proof.
  induction d as [|[k' v'] d IH]; simpl.
  - tauto.
  - destruct (String.eqb k' k) eqn:E.
    + apply String.eqb_eq in E. split; [discriminate|]. intros H.
      exfalso. apply H. now left.
    + apply String.eqb_neq in E. rewrite IH. tauto.
Qed.

Lemma In_get d k v :
  NoDup (PyDict.keys d) -> In (k, v) d -> PyDict.get d k = Some v.
Proof.
  induction d as [|[k' v'] d IH]; simpl; [tauto|].
  intros Hnd [H|H].
  - injection H as -> ->. now rewrite String.eqb_refl.
  - inversion Hnd as [|? ? Hnotin Hnd']; subst.
    destruct (String.eqb k' k) eqn:E.
    + apply String.eqb_eq in E. subst k'. exfalso. apply Hnotin.
      change k with (fst (k, v)). now apply in_map.
    + auto.
Qed.

(** Writing a key that is present leaves the keys as they are;
    writing a new key appends it. *)
Lemma keys_set d k v :
  PyDict.keys (PyDict.set d k v)
  = if PyDict.mem d k then PyDict.keys d else (PyDict.keys d ++ [k])%list.
Proof.
  unfold PyDict.mem. induction d as [|[k' v'] d IH]; simpl; auto.
  destruct (String.eqb k' k) eqn:E; simpl; auto.
  rewrite IH. now destruct (PyDict.get d k).
Qed.

Lemma NoDup_keys_set d k v :
  NoDup (PyDict.keys d) -> NoDup (PyDict.keys (PyDict.set d k v)).
Proof.
  intros Hnd. rewrite keys_set. unfold PyDict.mem.
  destruct (PyDict.get d k) eqn:E; auto.
  apply get_None_keys in E.
  apply NoDup_rev in Hnd. rewrite <- (rev_involutive (_ ++ _)).
  apply NoDup_rev. rewrite rev_app_distr. simpl. constructor; auto.
  now rewrite <- in_rev.
Qed.

Lemma In_set d k v k' v' :
  In (k', v') (PyDict.set d k v) ->
  (k' = k /\ v' = v) \/ In (k', v') d.
Proof.
  induction d as [|[k0 v0] d IH]; simpl.
  - intros [[= <- <-]|[]]. now left.
  - destruct (String.eqb k0 k) eqn:E.
    + apply String.eqb_eq in E. subst k0. intros [[= <- <-]|H]; auto.
    + intros [H|H]; auto. destruct (IH H); auto.
Qed.

(** A comprehension over distinct keys lists them in order. *)
Lemma of_list_NoDup (l : list (string * V)) :
  NoDup (map fst l) -> PyDict.of_list l = l.
Proof.
  unfold PyDict.of_list.
  assert (G : forall (l acc : list (string * V)),
             NoDup (map fst (acc ++ l)) ->
             fold_left (fun acc kv => PyDict.set acc (fst kv) (snd kv))
                       l acc = (acc ++ l)%list).
  { clear l. induction l as [|[k v] l IH]; intros acc Hnd; simpl.
    - now rewrite app_nil_r.
    - assert (Hset : PyDict.set acc k v = (acc ++ [(k, v)])%list).
      { clear IH. induction acc as [|[k0 v0] acc IHa]; simpl; auto.
        simpl in Hnd. inversion Hnd as [|? ? Hnotin Hnd']; subst.
        destruct (String.eqb k0 k) eqn:E.
        - apply String.eqb_eq in E. subst k0. exfalso. apply Hnotin.
          rewrite map_app, in_app_iff. right. now left.
        - now rewrite IHa. }
      rewrite Hset. rewrite IH; rewrite <- app_assoc; auto. }
  intros Hnd. now rewrite (G l []).
Qed.

End Facts.
End PyDictFacts.

(* ================================================================== *)
(** ** Facts about the methods *)

Ltac run_method :=
  unfold assess_control, add_finding, set_scope, generate_report,
         bind, get_self, put_self, get_heap, put_heap, ret, raise in *;
  simpl in *.

Lemma get_control_by_id_Some cs id :
  In id (map ctl_ccf_id cs) ->
  exists c, get_control_by_id cs id = Some c /\ ctl_ccf_id c = id.
Proof.
  induction cs as [|c cs IH]; simpl; [tauto|].
  destruct (String.eqb (ctl_ccf_id c) id) eqn:E.
  - apply String.eqb_eq in E. eauto.
  - apply String.eqb_neq in E. intros [H|H]; [contradiction|auto].
Qed.

Lemma get_control_by_id_None cs id :
  ~ In id (map ctl_ccf_id cs) -> get_control_by_id cs id = None.
Proof.
  induction cs as [|c cs IH]; simpl; auto.
  intros H. destruct (String.eqb (ctl_ccf_id c) id) eqn:E.
  - apply String.eqb_eq in E. tauto.
  - tauto.
Qed.

Lemma assess_control_found w id st ev gs nt c :
  get_control_by_id (controls (self w)) id = Some c ->
  assess_control id st ev gs nt w
  = (inr (assessment_of c id st ev gs nt),
     {| self := {| controls := controls (self w);
                   domains := domains (self w);
                   scope := scope (self w);
                   assessments :=
                     PyDict.set (assessments (self w)) id
                                (assessment_of c id st ev gs nt);
                   findings := findings (self w) |};
        heap := heap w |}).
Proof. intros H. run_method. now rewrite H. Qed.

Lemma assess_control_missing w id st ev gs nt :
  get_control_by_id (controls (self w)) id = None ->
  assess_control id st ev gs nt w = (inl (ValueError (not_found_msg id)), w).
Proof. intros H. run_method. now rewrite H. Qed.

(** What a successful call returned and left behind. *)
Lemma assess_control_inr w id st ev gs nt a w' :
  assess_control id st ev gs nt w = (inr a, w') ->
  ccf_id a = id /\ status a = st
  /\ score a = match score_map st with Some s => s | None => 0 end
  /\ assessments (self w') = PyDict.set (assessments (self w)) id a
  /\ controls (self w') = controls (self w)
  /\ domains (self w') = domains (self w)
  /\ findings (self w') = findings (self w)
  /\ heap w' = heap w.
Proof.
  destruct (get_control_by_id (controls (self w)) id) as [c|] eqn:E.
  - rewrite (assess_control_found _ _ _ _ _ _ _ E). intros [= <- <-].
    simpl. tauto.
  - rewrite (assess_control_missing _ _ _ _ _ _ E). discriminate.
Qed.

Lemma exec_controls o w : controls (self (exec o w)) = controls (self w).
Proof.
  destruct o as [id st ev gs nt|f|s]; simpl; run_method; auto.
  destruct (get_control_by_id (controls (self w)) id); auto.
Qed.

Lemma exec_all_controls ops w :
  controls (self (exec_all ops w)) = controls (self w).
Proof.
  revert w. induction ops as [|o ops IH]; intros w; simpl; auto.
  unfold exec_all in IH. now rewrite IH, exec_controls.
Qed.

Lemma exec_domains o w : domains (self (exec o w)) = domains (self w).
Proof.
  destruct o as [id st ev gs nt|f|s]; simpl; run_method; auto.
  destruct (get_control_by_id (controls (self w)) id); auto.
Qed.

Lemma exec_all_domains ops w :
  domains (self (exec_all ops w)) = domains (self w).
Proof.
  revert w. induction ops as [|o ops IH]; intros w; simpl; auto.
  unfold exec_all in IH. now rewrite IH, exec_domains.
Qed.

Lemma store_ok_set d id a :
  store_ok d -> ccf_id a = id -> store_ok (PyDict.set d id a).
Proof.
  intros [Hnd Hid] Ha. split.
  - now apply PyDictFacts.NoDup_keys_set.
  - intros k x Hin. apply PyDictFacts.In_set in Hin.
    destruct Hin as [[-> ->]|Hin]; auto.
Qed.

Lemma exec_store_ok o w :
  store_ok (assessments (self w)) ->
  store_ok (assessments (self (exec o w))).
Proof.
  intros Hok. destruct o as [id st ev gs nt|f|s]; simpl; run_method; auto.
  destruct (get_control_by_id (controls (self w)) id); simpl; auto.
  now apply store_ok_set.
Qed.

Lemma exec_all_store_ok ops w :
  store_ok (assessments (self w)) ->
  store_ok (assessments (self (exec_all ops w))).
Proof.
  revert w. induction ops as [|o ops IH]; intros w Hok; simpl; auto.
  apply IH. now apply exec_store_ok.
Qed.

Lemma init_store_ok cs ds : store_ok (assessments (self (init cs ds))).
Proof. split; simpl; [constructor|tauto]. Qed.

(** Calls that do not assess [id] leave its record alone. *)
Lemma exec_get_other o w id :
  assesses id o = false ->
  PyDict.get (assessments (self (exec o w))) id
  = PyDict.get (assessments (self w)) id.
Proof.
  destruct o as [id' st ev gs nt|f|s]; simpl; run_method; auto.
  intros E. apply String.eqb_neq in E.
  destruct (get_control_by_id (controls (self w)) id'); simpl; auto.
  now apply PyDictFacts.get_set_other.
Qed.

Lemma exec_all_get_other ops w id :
  existsb (assesses id) ops = false ->
  PyDict.get (assessments (self (exec_all ops w))) id
  = PyDict.get (assessments (self w)) id.
Proof.
  revert w. induction ops as [|o ops IH]; intros w; simpl; auto.
  intros H. apply orb_false_iff in H. destruct H as [Ho Hops].
  unfold exec_all in IH. rewrite IH; auto. now apply exec_get_other.
Qed.

(** In a well-formed store the records carrying [id] are exactly the
    one filed under [id]. *)
Lemma store_ok_filter_id d id a :
  store_ok d -> PyDict.get d id = Some a ->
  filter (fun x => String.eqb (ccf_id x) id) (PyDict.values d) = [a].
Proof.
  intros [Hnd Hid]. induction d as [|[k v] d IH]; simpl; [discriminate|].
  inversion Hnd as [|? ? Hnotin Hnd']; subst.
  assert (Hv : ccf_id v = k) by (apply Hid; now left).
  assert (Hid' : forall k0 a0, In (k0, a0) d -> ccf_id a0 = k0)
    by (intros; apply Hid; now right).
  rewrite Hv. destruct (String.eqb k id) eqn:E.
  - intros [= ->]. f_equal. clear IH Hid Hv Hnd.
    apply String.eqb_eq in E. subst k. induction d as [|[k' v'] d IHd]; simpl; auto.
    rewrite (Hid' k' v') by now left.
    destruct (String.eqb k' id) eqn:E'.
    + apply String.eqb_eq in E'. subst k'. exfalso. apply Hnotin. now left.
    + apply IHd.
      * intros H. apply Hnotin. now right.
      * now inversion Hnd'.
      * intros; apply Hid'; now right.
  - intros H. now apply IH.
Qed.

(** Whatever holds of every record [assess_control] can build holds of
    every record in a store grown by calls. *)
Lemma exec_all_entries (P : string -> ControlAssessment -> Prop) :
  (forall c id st ev gs nt, P id (assessment_of c id st ev gs nt)) ->
  forall ops w,
    (forall k a, In (k, a) (assessments (self w)) -> P k a) ->
    forall k a, In (k, a) (assessments (self (exec_all ops w))) -> P k a.
Proof.
  intros Hnew. induction ops as [|o ops IH]; intros w Hw; simpl; auto.
  apply IH. intros k a.
  destruct o as [id st ev gs nt|f|s]; simpl; run_method; auto.
  destruct (get_control_by_id (controls (self w)) id) as [c|]; simpl; auto.
  intros Hin. apply PyDictFacts.In_set in Hin.
  destruct Hin as [[-> ->]|Hin]; auto. apply Hnew.
Qed.

Lemma get_filter_applicable (d : dict ControlAssessment) k :
  NoDup (PyDict.keys d) ->
  PyDict.get (filter (fun kv => is_applicable (snd kv)) d) k
  = match PyDict.get d k with
    | Some x => if is_applicable x then Some x else None
    | None => None
    end.
Proof.
  induction d as [|[k' v] d IH]; simpl; auto.
  intros Hnd. inversion Hnd as [|? ? Hnotin Hnd']; subst.
  destruct (String.eqb k' k) eqn:E.
  - apply String.eqb_eq in E. subst k'.
    destruct (is_applicable v) eqn:Ev; simpl.
    + now rewrite String.eqb_refl.
    + rewrite IH by assumption.
      apply PyDictFacts.get_None_keys in Hnotin. now rewrite Hnotin.
  - destruct (is_applicable v); simpl; [rewrite E|]; auto.
Qed.

Lemma status_eqb_eq a b : status_eqb a b = true <-> a = b.
Proof. destruct a, b; simpl; split; congruence. Qed.

Lemma is_applicable_iff x :
  is_applicable x = true <-> status x <> NOT_APPLICABLE.
Proof.
  unfold is_applicable. rewrite negb_true_iff.
  destruct (status_eqb (status x) NOT_APPLICABLE) eqn:E.
  - apply status_eqb_eq in E. split; [discriminate|tauto].
  - split; auto. intros _ H. apply status_eqb_eq in H. congruence.
Qed.

Lemma domain_assessed_applicable a d x :
  In x (domain_assessed_controls a d) -> status x <> NOT_APPLICABLE.
Proof.
  unfold domain_assessed_controls. rewrite in_flat_map.
  intros [cid [_ H]].
  destruct (PyDict.get (assessments a) cid) as [y|]; [|destruct H].
  destruct (is_applicable y) eqn:E; [|destruct H].
  destruct H as [<-|[]]. now apply is_applicable_iff.
Qed.

Lemma overall_assessed_applicable a x :
  In x (overall_assessed_controls a) <->
  In x (PyDict.values (assessments a)) /\ status x <> NOT_APPLICABLE.
Proof.
  unfold overall_assessed_controls. rewrite filter_In.
  now rewrite is_applicable_iff.
Qed.

Lemma overall_without_not_applicable a :
  overall_assessed_controls (without_not_applicable a)
  = overall_assessed_controls a.
Proof.
  unfold overall_assessed_controls, PyDict.values; simpl.
  induction (assessments a) as [|[k v] d IH]; simpl; auto.
  destruct (is_applicable v) eqn:E; simpl; rewrite ?E, IH; auto.
Qed.

Lemma domain_without_not_applicable a d :
  NoDup (PyDict.keys (assessments a)) ->
  domain_assessed_controls (without_not_applicable a) d
  = domain_assessed_controls a d.
Proof.
  intros Hnd. unfold domain_assessed_controls; simpl.
  induction (match PyDict.get (domains a) d with Some l => l | None => [] end)
    as [|cid l IH]; simpl; auto.
  rewrite IH. f_equal. rewrite get_filter_applicable by assumption.
  destruct (PyDict.get (assessments a) cid) as [x|]; auto.
  destruct (is_applicable x) eqn:E; auto. now rewrite E.
Qed.

(* ================================================================== *)
(** ** Recording assessments *)

(** C6: recording an assessment for an identifier that is not in the
    catalog raises the not-found error and leaves the world, hence the
    assessment store, exactly as it was; for an identifier of the catalog
    the call returns the assessment and files it under the identifier. *)
Theorem assess_control_unknown_id :
  forall w id st ev gs nt,
    (~ in_catalog w id ->
     assess_control id st ev gs nt w
     = (inl (ValueError (not_found_msg id)), w))
    /\ (in_catalog w id ->
        exists a w',
          assess_control id st ev gs nt w = (inr a, w')
          /\ PyDict.get (assessments (self w')) id = Some a).
Proof.
  intros w id st ev gs nt. split; intros H.
  - apply assess_control_missing. now apply get_control_by_id_None.
  - destruct (get_control_by_id_Some _ _ H) as [c [Hc _]].
    rewrite (assess_control_found _ _ _ _ _ _ _ Hc).
    eexists. eexists. split; [reflexivity|]. simpl.
    apply PyDictFacts.get_set_same.
Qed.

Lemma assess_control_unknown_id_witness :
  ~ in_catalog sample_world "XX-99"
  /\ assess_control "XX-99" COMPLIANT "" [] "" sample_world
     = (inl (ValueError "Control XX-99 not found"), sample_world)
  /\ in_catalog sample_world "CR-01"
  /\ exists a w',
       assess_control "CR-01" COMPLIANT "" [] "" sample_world = (inr a, w')
       /\ PyDict.get (assessments (self w')) "CR-01" = Some a.
Proof.
  assert (Hout : ~ in_catalog sample_world "XX-99")
    by (unfold in_catalog; simpl; intuition discriminate).
  assert (Hin : in_catalog sample_world "CR-01")
    by (unfold in_catalog; simpl; tauto).
  split; [exact Hout|]. split.
  - exact (proj1 (assess_control_unknown_id sample_world "XX-99"
                    COMPLIANT "" [] "") Hout).
  - split; [exact Hin|].
    exact (proj2 (assess_control_unknown_id sample_world "CR-01"
                    COMPLIANT "" [] "") Hin).
Defined.

(** C1: for an identifier of the catalog, recording Compliant, Partial,
    NonCompliant or NotAssessed stores an assessment scoring exactly 100,
    50, 0 and 0; a NotApplicable assessment is in neither of the lists
    that [calculate_domain_score] and [calculate_overall_score] average,
    and both scores are what they would be with the NotApplicable records
    removed from the store. *)
Theorem assess_control_score_table :
  forall w id ev gs nt,
    in_catalog w id ->
    store_ok (assessments (self w)) ->
    (forall st expected,
        In (st, expected)
           [(COMPLIANT, 100); (PARTIAL, 50); (NON_COMPLIANT, 0);
            (NOT_ASSESSED, 0)] ->
        exists a w',
          assess_control id st ev gs nt w = (inr a, w')
          /\ PyDict.get (assessments (self w')) id = Some a
          /\ status a = st /\ score a = expected)
    /\ (forall x, status x = NOT_APPLICABLE ->
                  ~ In x (overall_assessed_controls (self w))
                  /\ forall d, ~ In x (domain_assessed_controls (self w) d))
    /\ calculate_overall_score (self w)
       = calculate_overall_score (without_not_applicable (self w))
    /\ forall d, calculate_domain_score (self w) d
                 = calculate_domain_score (without_not_applicable (self w)) d.
Proof.
  intros w id ev gs nt Hcat [Hnd _]. repeat split.
  - intros st expected Hin.
    destruct (get_control_by_id_Some _ _ Hcat) as [c [Hc _]].
    rewrite (assess_control_found _ _ _ _ _ _ _ Hc).
    exists (assessment_of c id st ev gs nt). eexists.
    split; [reflexivity|]. simpl.
    split; [apply PyDictFacts.get_set_same|]. split; [reflexivity|].
    simpl in Hin.
    destruct Hin as [H|[H|[H|[H|[]]]]]; injection H as <- <-; reflexivity.
  - intros Hin. apply overall_assessed_applicable in Hin. tauto.
  - intros d Hin. apply domain_assessed_applicable in Hin. tauto.
  - unfold calculate_overall_score.
    now rewrite overall_without_not_applicable.
  - intros d. unfold calculate_domain_score.
    now rewrite domain_without_not_applicable.
Qed.

Lemma assess_control_score_table_witness :
  in_catalog sample_world "IAM-01"
  /\ store_ok (assessments (self sample_world))
  /\ exists a w',
       assess_control "IAM-01" PARTIAL "mfa for admins" [] "" sample_world
       = (inr a, w')
       /\ PyDict.get (assessments (self w')) "IAM-01" = Some a
       /\ status a = PARTIAL /\ score a = 50.
Proof.
  assert (Hin : in_catalog sample_world "IAM-01")
    by (unfold in_catalog; simpl; tauto).
  split; [exact Hin|]. split; [apply init_store_ok|].
  exact (proj1 (assess_control_score_table sample_world "IAM-01"
                  "mfa for admins" [] "" Hin (init_store_ok _ _))
               PARTIAL 50 (or_intror (or_introl eq_refl))).
Defined.

Lemma generate_report_returns format_1f now w :
  exists r,
    generate_report format_1f now w = (inr r, w)
    /\ report_assessments r = PyDict.values (assessments (self w))
    /\ report_findings r = findings (self w)
    /\ report_overall_score r = calculate_overall_score (self w)
    /\ report_domain_scores r = domain_scores_of (self w).
Proof. eexists. run_method. repeat split. Qed.

(** C3: after two successive recordings for one identifier (other calls
    may come between them, and after them, as long as they record nothing
    for that identifier) the second call has replaced the first record
    in place: the keys of the store are those it had before the second
    call, the identifier occurs once among them and maps to the second
    assessment, and a report generated then lists the second assessment
    as its only entry for the identifier, so the first one, when it
    differs, is not in it. *)
Theorem reassessment_replaces :
  forall format_1f now cs ds pre mid post id
         st1 ev1 gs1 nt1 st2 ev2 gs2 nt2,
    let w0 := exec_all pre (init cs ds) in
    in_catalog w0 id ->
    existsb (assesses id) mid = false ->
    existsb (assesses id) post = false ->
    exists a1 w1 a2 w2,
      assess_control id st1 ev1 gs1 nt1 w0 = (inr a1, w1)
      /\ assess_control id st2 ev2 gs2 nt2 (exec_all mid w1) = (inr a2, w2)
      /\ status a2 = st2
      /\ PyDict.keys (assessments (self w2))
         = PyDict.keys (assessments (self (exec_all mid w1)))
      /\ let later := exec_all post w2 in
         PyDict.get (assessments (self later)) id = Some a2
         /\ count_occ string_dec (PyDict.keys (assessments (self later))) id
            = 1%nat
         /\ exists r,
              generate_report format_1f now later = (inr r, later)
              /\ filter (fun x => String.eqb (ccf_id x) id)
                        (report_assessments r) = [a2]
              /\ (a1 <> a2 -> ~ In a1 (report_assessments r)).
Proof.
  intros fmt date cs ds pre mid post id st1 ev1 gs1 nt1 st2 ev2 gs2 nt2 w0
         Hcat Hmid Hpost.
  assert (Hok0 : store_ok (assessments (self w0)))
    by apply exec_all_store_ok, init_store_ok.
  destruct (get_control_by_id_Some _ _ Hcat) as [c [Hc _]].
  pose proof (assess_control_found w0 id st1 ev1 gs1 nt1 c Hc) as H1.
  set (a1 := assessment_of c id st1 ev1 gs1 nt1) in *.
  match type of H1 with _ = (_, ?w) => set (w1 := w) in * end.
  assert (Hok1 : store_ok (assessments (self w1)))
    by (simpl; now apply store_ok_set).
  set (wm := exec_all mid w1).
  assert (Hokm : store_ok (assessments (self wm)))
    by now apply exec_all_store_ok.
  assert (Hgm : PyDict.get (assessments (self wm)) id = Some a1).
  { unfold wm. rewrite exec_all_get_other by assumption. simpl.
    apply PyDictFacts.get_set_same. }
  assert (Hcm : get_control_by_id (controls (self wm)) id = Some c).
  { unfold wm. rewrite exec_all_controls. exact Hc. }
  pose proof (assess_control_found wm id st2 ev2 gs2 nt2 c Hcm) as H2.
  set (a2 := assessment_of c id st2 ev2 gs2 nt2) in *.
  match type of H2 with _ = (_, ?w) => set (w2 := w) in * end.
  assert (Hok2 : store_ok (assessments (self w2)))
    by (simpl; now apply store_ok_set).
  exists a1, w1, a2, w2. split; [exact H1|]. split; [exact H2|].
  split; [reflexivity|]. split.
  { simpl. rewrite PyDictFacts.keys_set. unfold PyDict.mem.
    now rewrite Hgm. }
  intros later.
  assert (Hokl : store_ok (assessments (self later)))
    by now apply exec_all_store_ok.
  assert (Hgl : PyDict.get (assessments (self later)) id = Some a2).
  { unfold later. rewrite exec_all_get_other by assumption. simpl.
    apply PyDictFacts.get_set_same. }
  split; [exact Hgl|]. split.
  { destruct Hokl as [Hnd _].
    apply (proj1 (NoDup_count_occ' string_dec _) Hnd).
    apply PyDictFacts.get_Some_In in Hgl.
    change id with (fst (id, a2)). now apply in_map. }
  destruct (generate_report_returns fmt date later)
    as [r [Hr [Hra _]]].
  exists r. split; [exact Hr|]. rewrite Hra.
  pose proof (store_ok_filter_id _ _ _ Hokl Hgl) as Hf.
  split; [exact Hf|].
  intros Hne Hin.
  assert (Hin' : In a1 (filter (fun x => String.eqb (ccf_id x) id)
                               (PyDict.values (assessments (self later))))).
  { apply filter_In. split; [exact Hin|]. simpl. apply String.eqb_refl. }
  rewrite Hf in Hin'. destruct Hin' as [H|[]]. now apply Hne.
Qed.

Lemma reassessment_replaces_witness :
  let w0 := exec_all [] sample_world in
  let mid := [OpAssess "CR-01" PARTIAL "" [] ""; OpAddFinding sample_finding] in
  let post := [OpAssess "IAM-01" COMPLIANT "" [] ""] in
  in_catalog w0 "IAM-02"
  /\ existsb (assesses "IAM-02") mid = false
  /\ existsb (assesses "IAM-02") post = false
  /\ exists a1 w1 a2 w2,
       assess_control "IAM-02" NON_COMPLIANT "" ["no process"%string] "" w0
       = (inr a1, w1)
       /\ assess_control "IAM-02" COMPLIANT "automated" [] ""
                         (exec_all mid w1) = (inr a2, w2)
       /\ status a2 = COMPLIANT
       /\ exists r,
            generate_report (fun _ => ""%string) "2024-01-01 00:00:00"
                            (exec_all post w2)
            = (inr r, exec_all post w2)
            /\ filter (fun x => String.eqb (ccf_id x) "IAM-02")
                      (report_assessments r) = [a2]
            /\ (a1 <> a2 -> ~ In a1 (report_assessments r)).
Proof.
  intros w0 mid post.
  assert (Hin : in_catalog w0 "IAM-02")
    by (unfold in_catalog; simpl; tauto).
  split; [exact Hin|]. split; [reflexivity|]. split; [reflexivity|].
  destruct (reassessment_replaces (fun _ => ""%string)
              "2024-01-01 00:00:00" sample_controls sample_domains []
              mid post "IAM-02" NON_COMPLIANT "" ["no process"%string] ""
              COMPLIANT "automated" [] "" Hin eq_refl eq_refl)
    as [a1 [w1 [a2 [w2 [H1 [H2 [Hs [_ [_ [_ Hr]]]]]]]]]].
  exists a1, w1, a2, w2. auto.
Defined.

(* ================================================================== *)
(** ** Stored scores and what the averages filter on *)

(** C10: in every store built by the auditor's methods each assessment
    carries a score that is 0, 50 or 100; recording NotApplicable stores
    the number 0; and membership in the averaged lists is decided by the
    status alone: a stored record is averaged by [calculate_overall_score]
    exactly when its status is not NotApplicable, whatever its score.
    Two stores that differ only in the status of a record scoring 0 have
    different averages: 100 when that record is NotApplicable, 50 when it
    is NonCompliant. *)
Theorem stored_scores_are_numeric :
  forall cs ds ops,
    let w := exec_all ops (init cs ds) in
    (forall k a, In (k, a) (assessments (self w)) ->
                 score a = 0 \/ score a = 50 \/ score a = 100)
    /\ (forall id ev gs nt a w',
           assess_control id NOT_APPLICABLE ev gs nt w = (inr a, w') ->
           score a = 0
           /\ PyDict.get (assessments (self w')) id = Some a)
    /\ (forall x, In x (PyDict.values (assessments (self w))) ->
                  (In x (overall_assessed_controls (self w))
                   <-> status x <> NOT_APPLICABLE))
    /\ (forall d x, In x (domain_assessed_controls (self w) d) ->
                    status x <> NOT_APPLICABLE)
    /\ stored_score world_with_not_applicable "IAM-02" = Some 0
    /\ stored_score world_with_non_compliant "IAM-02" = Some 0
    /\ calculate_overall_score (self world_with_not_applicable) == 100
    /\ calculate_domain_score (self world_with_not_applicable) "IAM" == 100
    /\ calculate_overall_score (self world_with_non_compliant) == 50
    /\ calculate_domain_score (self world_with_non_compliant) "IAM" == 50.
Proof.
  intros cs ds ops w. split; [|split; [|split; [|split]]].
  - apply (exec_all_entries
             (fun _ a => score a = 0 \/ score a = 50 \/ score a = 100)).
    + intros c id st ev gs nt. destruct st; simpl; auto.
    + simpl. tauto.
  - intros id ev gs nt a w' H.
    apply assess_control_inr in H.
    destruct H as [_ [_ [Hs [Hst _]]]]. split; [exact Hs|].
    rewrite Hst. apply PyDictFacts.get_set_same.
  - intros x Hx. rewrite overall_assessed_applicable. tauto.
  - intros d x. apply domain_assessed_applicable.
  - repeat split; vm_compute; reflexivity.
Qed.

(* ================================================================== *)
(** ** Overall score against the mean of the domain scores *)

Lemma applicable_scores_by_status la lb :
  map (fun x => (status x, score x)) la
  = map (fun x => (status x, score x)) lb ->
  map score (filter is_applicable la) = map score (filter is_applicable lb).
Proof.
  revert lb. induction la as [|x la IH]; intros [|y lb] H;
    simpl in H; try discriminate; [reflexivity|].
  injection H as Hst Hsc H. cbn [filter].
  replace (is_applicable y) with (is_applicable x)
    by (unfold is_applicable; now rewrite Hst).
  destruct (is_applicable x); cbn [map]; rewrite ?Hsc, (IH lb H);
    reflexivity.
Qed.

Lemma mean_score_by_scores la lb :
  map score la = map score lb -> mean_score la = mean_score lb.
Proof.
  intros H. assert (Hl : List.length la = List.length lb).
  { rewrite <- (length_map score la), H. apply length_map. }
  unfold mean_score, total_score. rewrite H.
  destruct la, lb; try discriminate; [reflexivity|].
  now rewrite Hl.
Qed.

Lemma overall_score_times_count (a : SecurityAuditor) :
  let included :=
    filter (fun x => negb (status_eqb (status x) NOT_APPLICABLE))
           (map snd (assessments a)) in
  included <> [] ->
  calculate_overall_score a * inject_Z (Z.of_nat (List.length included))
  == fold_left Qplus (map score included) 0.
Proof.
  intros included Hne.
  unfold calculate_overall_score, overall_assessed_controls, mean_score,
    PyDict.values, is_applicable, total_score.
  fold included. destruct included as [|x l] eqn:E; [congruence|].
  field. intros H.
  assert (Hz : (Z.of_nat (List.length (x :: l)) = 0)%Z).
  { unfold Qeq in H. simpl in H. simpl. lia. }
  simpl in Hz. lia.
Qed.

(** C2: the overall score is the average over all assessments that
    are not NotApplicable, whatever their domains.  It reads the store
    only through the statuses and scores of its records, so two stores
    that agree on these have the same overall score however the records
    are grouped.  In every store built by the auditor's methods it sits
    where the quotient of the sum of those scores by their number sits
    among the binary fractions k / 2^j (j up to 40): not above one the
    quotient is not above, not below one the quotient is not below, so
    it is the quotient itself whenever that is such a fraction.  It is
    not the mean of the domain scores: with one control scoring 100 in
    domain A and three scoring 0 in domain B the domain scores are 100
    and 0, their mean is 50, and the overall score is 25. *)
Theorem overall_score_is_micro_average :
  (forall a b : SecurityAuditor,
      map (fun x => (status x, score x)) (PyDict.values (assessments a))
      = map (fun x => (status x, score x)) (PyDict.values (assessments b)) ->
      calculate_overall_score a = calculate_overall_score b)
  /\ (forall cs ds ops (k : Z) (j : nat),
         let a := self (exec_all ops (init cs ds)) in
         let included :=
           filter (fun x => negb (status_eqb (status x) NOT_APPLICABLE))
                  (map snd (assessments a)) in
         let total := fold_left Qplus (map score included) 0 in
         let n := inject_Z (Z.of_nat (List.length included)) in
         let c := inject_Z k / inject_Z (2 ^ Z.of_nat j) in
         included <> [] -> (j <= 40)%nat ->
         (total <= c * n -> calculate_overall_score a <= c)
         /\ (c * n <= total -> c <= calculate_overall_score a))
  /\ PyDict.keys (domain_scores_of (self world_AB)) = ["A"; "B"]%string
  /\ Forall2 Qeq (PyDict.values (domain_scores_of (self world_AB)))
                 [100; 0]
  /\ mean (PyDict.values (domain_scores_of (self world_AB))) == 50
  /\ calculate_overall_score (self world_AB) == 25
  /\ ~ calculate_overall_score (self world_AB)
       == mean (PyDict.values (domain_scores_of (self world_AB))).
Proof.
  split; [|split].
  - intros a b H. unfold calculate_overall_score, overall_assessed_controls.
    apply mean_score_by_scores. now apply applicable_scores_by_status.
  - intros cs ds ops k j a included total n c Hne _.
    pose proof (overall_score_times_count a Hne) as E.
    fold included in E. fold total in E. fold n in E.
    assert (Hn : 0 < n).
    { unfold n. destruct included; [congruence|].
      unfold Qlt, inject_Z. cbn [Qnum Qden List.length]. lia. }
    clearbody total n c. split; intros H.
    + apply Qmult_le_r with (z := n); [exact Hn|]. rewrite E. exact H.
    + apply Qmult_le_r with (z := n); [exact Hn|]. rewrite E. exact H.
  - repeat split; try (vm_compute; reflexivity).
    + vm_compute. repeat constructor.
    + vm_compute. discriminate.
Qed.

Lemma overall_score_is_micro_average_witness :
  let included :=
    filter (fun x => negb (status_eqb (status x) NOT_APPLICABLE))
           (map snd (assessments (self world_AB))) in
  included <> []
  /\ fold_left Qplus (map score included) 0
     == 25 * inject_Z (Z.of_nat (List.length included))
  /\ calculate_overall_score (self world_AB) <= 25
  /\ 25 <= calculate_overall_score (self world_AB).
Proof.
  intros included.
  assert (Hne : included <> []) by (vm_compute; discriminate).
  split; [exact Hne|]. split; [vm_compute; reflexivity|].
  destruct (proj1 (proj2 overall_score_is_micro_average)
              controls_AB domains_AB
              [OpAssess "A-1" COMPLIANT "" [] "";
               OpAssess "B-1" NON_COMPLIANT "" [] "";
               OpAssess "B-2" NON_COMPLIANT "" [] "";
               OpAssess "B-3" NON_COMPLIANT "" [] ""]%string
              25%Z 0%nat Hne (Nat.le_0_l 40)) as [Hle Hge].
  split.
  - apply Hle. vm_compute. discriminate.
  - apply Hge. vm_compute. discriminate.
Defined.

(* ================================================================== *)
(** ** A report and the findings list it refers to *)

Lemma heap_update_length h r l :
  List.length (heap_update h r l) = List.length h.
Proof.
  revert r. induction h as [|x h IH]; intros [|r]; simpl; auto.
Qed.

Lemma deref_heap_update h r l :
  (r < List.length h)%nat -> deref (heap_update h r l) r = l.
Proof.
  unfold deref. revert r.
  induction h as [|x h IH]; intros [|r]; simpl; try lia; auto.
  intros H. apply IH. lia.
Qed.

Lemma exec_heap_ok o w : heap_ok w -> heap_ok (exec o w).
Proof.
  unfold heap_ok.
  destruct o as [id st ev gs nt|f|s]; simpl; run_method; auto.
  - destruct (get_control_by_id (controls (self w)) id); auto.
  - now rewrite heap_update_length.
Qed.

Lemma exec_all_heap_ok ops w : heap_ok w -> heap_ok (exec_all ops w).
Proof.
  revert w. induction ops as [|o ops IH]; intros w H; simpl; auto.
  apply IH. now apply exec_heap_ok.
Qed.

(** C5, evaluated on the code: the finding list of a report is the
    registry's own list object.  In every world the methods can reach,
    [generate_report] returns a report and leaves the world as it was,
    and the report's [findings] field is the auditor's findings
    reference.  A finding added afterwards is appended to the list that
    reference points to: the finding list read through the already
    produced report is then the earlier one followed by the new finding,
    hence not the list the report had when it was generated. *)
Theorem report_findings_alias_registry :
  forall format_1f now cs ds ops f,
    let w := exec_all ops (init cs ds) in
    exists r,
      generate_report format_1f now w = (inr r, w)
      /\ report_findings r = findings (self w)
      /\ let w' := exec (OpAddFinding f) w in
         deref (heap w') (report_findings r)
         = (deref (heap w) (report_findings r) ++ [f])%list
         /\ deref (heap w') (report_findings r)
            <> deref (heap w) (report_findings r).
Proof.
  intros fmt date cs ds ops f w.
  destruct (generate_report_returns fmt date w) as [r [Hr [_ [Hf _]]]].
  exists r. split; [exact Hr|]. split; [exact Hf|].
  intros w'.
  assert (Hok : heap_ok w).
  { apply exec_all_heap_ok. unfold heap_ok. simpl. lia. }
  assert (E : deref (heap w') (report_findings r)
              = (deref (heap w) (report_findings r) ++ [f])%list).
  { rewrite Hf. unfold w'. simpl. run_method.
    now apply deref_heap_update. }
  split; [exact E|]. rewrite E. intros H.
  apply (f_equal (@List.length Finding)) in H.
  rewrite length_app in H. simpl in H. lia.
Qed.

(* ================================================================== *)
(** ** Interpreting a questionnaire response *)

Import QuestionnaireEngine.

Lemma find_option_no_match i r options :
  (forall o, In o options -> option_matches r o = false) ->
  find_option i r options = (-1)%Z.
Proof.
  revert i. induction options as [|o options IH]; intros i H; simpl; auto.
  rewrite (H o) by now left. apply IH. intros; apply H; now right.
Qed.

Lemma has_any_split ws1 ws2 s :
  has_any (ws1 ++ ws2) s = has_any ws1 s || has_any ws2 s.
Proof. unfold has_any. apply existsb_app. Qed.

(** With no option matched and no keyword present the index stays -1
    and, from two options on, the position formula is applied to it. *)
Lemma interpret_response_unresolved question response options :
  let r := PyStr.strip (PyStr.lower response) in
  (2 <= List.length options)%nat ->
  (forall o, In o options -> option_matches r o = false) ->
  has_any fallback_keywords r = false ->
  let sc := 100 - (inject_Z (-1)
                   / inject_Z (Z.of_nat (List.length options) - 1)) * 100 in
  interpret_response question response options = inr (PARTIAL, sc)
  /\ 100 < sc.
Proof.
  intros r Hlen Hno Hkw sc.
  assert (Hres : resolve_option response options = (-1)%Z).
  { unfold resolve_option. fold r.
    rewrite (find_option_no_match 0 r options Hno). simpl.
    unfold infer_option.
    change fallback_keywords
      with (["yes"; "comprehensive"; "all"]%string
              ++ ["partial"; "basic"; "some"]%string
              ++ ["no"; "never"; "none"]%string)%list in Hkw.
    rewrite !has_any_split in Hkw.
    apply orb_false_iff in Hkw. destruct Hkw as [H1 Hkw].
    apply orb_false_iff in Hkw. destruct Hkw as [H2 H3].
    now rewrite H1, H2, H3. }
  assert (Hpos : 0 < inject_Z (Z.of_nat (List.length options) - 1)).
  { unfold Qlt. simpl. lia. }
  assert (Hq : inject_Z (-1)
               / inject_Z (Z.of_nat (List.length options) - 1) < 0).
  { apply Qlt_shift_div_r; [exact Hpos|]. rewrite Qmult_0_l.
    unfold Qlt. simpl. lia. }
  assert (Hsc : 100 < sc) by (unfold sc; lra).
  split; [|exact Hsc].
  unfold interpret_response. cbv zeta. rewrite Hres.
  change (-1 =? 0)%Z with false. cbv iota.
  assert (E1 : (-1 =? Z.of_nat (List.length options) - 1)%Z = false)
    by (apply Z.eqb_neq; lia).
  assert (E2 : (Z.of_nat (List.length options) - 1 =? 0)%Z = false)
    by (apply Z.eqb_neq; lia).
  rewrite E1, E2. fold sc.
  destruct (Qle_bool sc 60) eqn:E3; [|reflexivity].
  apply Qle_bool_iff in E3. lra.
Qed.

(** C7: there is an input of [interpret_response], with two options and
    a response that matches no option as a substring either way and
    holds none of the fallback keywords, for which the returned score
    exceeds 100: the position formula is applied to the unresolved
    index -1 and yields 200. *)
Theorem interpret_response_unresolved_out_of_range :
  exists question response options st sc,
    (2 <= List.length options)%nat
    /\ (forall o, In o options ->
                  option_matches (PyStr.strip (PyStr.lower response)) o
                  = false)
    /\ has_any fallback_keywords (PyStr.strip (PyStr.lower response)) = false
    /\ resolve_option response options = (-1)%Z
    /\ interpret_response question response options = inr (st, sc)
    /\ 100 < sc /\ sc == 200.
Proof.
  exists "Is sensitive data encrypted at rest?"%string,
         "Unsure"%string,
         ["Enabled everywhere"; "Disabled"]%string.
  assert (Hlen : (2 <= List.length ["Enabled everywhere"; "Disabled"]%string)%nat)
    by (simpl; lia).
  assert (Hno : forall o, In o ["Enabled everywhere"; "Disabled"]%string ->
                          option_matches
                            (PyStr.strip (PyStr.lower "Unsure")) o = false).
  { intros o [<-|[<-|[]]]; vm_compute; reflexivity. }
  assert (Hkw : has_any fallback_keywords
                        (PyStr.strip (PyStr.lower "Unsure")) = false)
    by (vm_compute; reflexivity).
  destruct (interpret_response_unresolved
              "Is sensitive data encrypted at rest?" "Unsure"
              ["Enabled everywhere"; "Disabled"]%string Hlen Hno Hkw)
    as [Hret Hgt].
  eexists PARTIAL, _. split; [exact Hlen|]. split; [exact Hno|].
  split; [exact Hkw|]. split; [vm_compute; reflexivity|].
  split; [exact Hret|]. split; [exact Hgt|]. vm_compute. reflexivity.
Qed.

(** C4, as the code behaves: with three options, a response that does
    not match the first option and matches the second resolves to index
    1 and gets the score 100 - (1/2) * 100 = 50; 50 is not above 60, so
    the status returned is NonCompliant. *)
Theorem interpret_response_middle_of_three :
  forall question response x y z,
    let r := PyStr.strip (PyStr.lower response) in
    option_matches r x = false ->
    option_matches r y = true ->
    resolve_option response [x; y; z] = 1%Z
    /\ exists sc,
         interpret_response question response [x; y; z]
         = inr (NON_COMPLIANT, sc)
         /\ sc == 50.
Proof.
  intros question response x y z r Hx Hy.
  assert (Hres : resolve_option response [x; y; z] = 1%Z).
  { unfold resolve_option. fold r. simpl. now rewrite Hx, Hy. }
  split; [exact Hres|].
  unfold interpret_response. rewrite Hres. simpl.
  eexists. split; [reflexivity|]. vm_compute. reflexivity.
Qed.

Lemma interpret_response_middle_of_three_witness :
  let r := PyStr.strip (PyStr.lower "Partial classification") in
  option_matches r "Yes, all assets classified" = false
  /\ option_matches r "Partial classification" = true
  /\ exists sc,
       interpret_response
         "Are all assets classified by their criticality and data sensitivity?"
         "Partial classification" asset_classification_options
       = inr (NON_COMPLIANT, sc)
       /\ sc == 50.
Proof.
  intros r.
  assert (Hx : option_matches r "Yes, all assets classified" = false)
    by (vm_compute; reflexivity).
  assert (Hy : option_matches r "Partial classification" = true)
    by (vm_compute; reflexivity).
  split; [exact Hx|]. split; [exact Hy|].
  exact (proj2 (interpret_response_middle_of_three
                  "Are all assets classified by their criticality and data sensitivity?"
                  "Partial classification" "Yes, all assets classified"
                  "Partial classification" "No classification" Hx Hy)).
Defined.

(** C4 fails as stated: on the options of the asset-classification
    question, the response equal to the second option resolves to index
    1 of 3, and the result is NonCompliant with score 50, not Partial. *)
Lemma interpret_response_middle_of_three_not_partial :
  option_matches (PyStr.strip (PyStr.lower "Partial classification"))
                 "Partial classification" = true
  /\ resolve_option "Partial classification" asset_classification_options
     = 1%Z
  /\ interpret_response
       "Are all assets classified by their criticality and data sensitivity?"
       "Partial classification" asset_classification_options
     = inr (NON_COMPLIANT, 100 # 2)
  /\ ~ exists sc,
         interpret_response
           "Are all assets classified by their criticality and data sensitivity?"
           "Partial classification" asset_classification_options
         = inr (PARTIAL, sc).
Proof.
  split; [vm_compute; reflexivity|]. split; [vm_compute; reflexivity|].
  split; [vm_compute; reflexivity|].
  intros [sc H]. vm_compute in H. discriminate.
Qed.

(* ================================================================== *)
(** ** Facts about strings *)

Lemma append_assoc (a b c : string) :
  ((a ++ b) ++ c = a ++ (b ++ c))%string.
Proof. induction a as [|x a IH]; simpl; [reflexivity|now rewrite IH]. Qed.

Lemma append_empty_r (a : string) : (a ++ "" = a)%string.
Proof. induction a as [|x a IH]; simpl; [reflexivity|now rewrite IH]. Qed.

(** [String.concat] with the empty separator is plain concatenation. *)
Lemma concat_empty_cons (x : string) (l : list string) :
  String.concat "" (x :: l) = (x ++ String.concat "" l)%string.
Proof.
  destruct l as [|y l]; simpl; [now rewrite append_empty_r|reflexivity].
Qed.

(** A loop that appends one piece per element appends their
    concatenation. *)
Lemma fold_left_append {A} (g : A -> string) (l : list A) (s : string) :
  fold_left (fun acc x => (acc ++ g x)%string) l s
  = (s ++ String.concat "" (map g l))%string.
Proof.
  revert s. induction l as [|x l IH]; intros s.
  - simpl. now rewrite append_empty_r.
  - cbn [fold_left map]. rewrite IH, concat_empty_cons.
    now rewrite append_assoc.
Qed.

Lemma fold_left_pointwise {A B} (f g : A -> B -> A) (l : list B) (a : A) :
  (forall x y, f x y = g x y) -> fold_left f l a = fold_left g l a.
Proof.
  intros H. revert a. induction l as [|y l IH]; intros a; simpl; auto.
  now rewrite H, IH.
Qed.

(* ================================================================== *)
(** ** Weakest domains of the executive summary *)

Lemma insert_by_score_perm x l :
  Permutation (insert_by_score x l) (x :: l).
Proof.
  induction l as [|y l IH]; simpl; auto.
  destruct (Qle_bool (snd x) (snd y)); auto.
  rewrite IH. apply perm_swap.
Qed.

Lemma sorted_by_score_perm l : Permutation (sorted_by_score l) l.
Proof.
  induction l as [|x l IH]; simpl; auto.
  rewrite insert_by_score_perm. now constructor.
Qed.

Lemma insert_by_score_sorted x l :
  StronglySorted by_score l -> StronglySorted by_score (insert_by_score x l).
Proof.
  induction l as [|y l IH]; simpl; intros Hs.
  - repeat constructor.
  - inversion Hs as [|? ? Hs' Hall]; subst.
    destruct (Qle_bool (snd x) (snd y)) eqn:E.
    + apply Qle_bool_iff in E. constructor; auto.
      constructor; auto.
      eapply Forall_impl; [|exact Hall].
      intros z Hz. unfold by_score in *. now apply Qle_trans with (snd y).
    + assert (Hyx : snd y <= snd x).
      { destruct (Qlt_le_dec (snd y) (snd x)) as [H|H].
        - now apply Qlt_le_weak.
        - apply Qle_bool_iff in H. congruence. }
      constructor; auto.
      rewrite insert_by_score_perm. constructor; auto.
Qed.

Lemma sorted_by_score_sorted l : StronglySorted by_score (sorted_by_score l).
Proof.
  induction l as [|x l IH]; simpl.
  - constructor.
  - now apply insert_by_score_sorted.
Qed.

Lemma StronglySorted_filter {A} (R : A -> A -> Prop) (p : A -> bool) l :
  StronglySorted R l -> StronglySorted R (filter p l).
Proof.
  induction 1 as [|x l Hs IH Hall]; simpl; [constructor|].
  destruct (p x); auto. constructor; auto.
  rewrite Forall_forall in *. intros y Hy. apply Hall.
  now apply filter_In in Hy.
Qed.

Lemma StronglySorted_app_l {A} (R : A -> A -> Prop) l1 l2 :
  StronglySorted R (l1 ++ l2) -> StronglySorted R l1.
Proof.
  induction l1 as [|x l1 IH]; simpl; intros H; [constructor|].
  inversion H as [|? ? Hs Hall]; subst. constructor; auto.
  rewrite Forall_forall in *. intros y Hy. apply Hall.
  apply in_or_app. now left.
Qed.

Lemma below_60_code e : negb (Qle_bool 60 (snd e)) = below_60 e.
Proof.
  unfold below_60. destruct (Qlt_le_dec (snd e) 60) as [H|H].
  - destruct (Qle_bool 60 (snd e)) eqn:E; auto.
    apply Qle_bool_iff in E. lra.
  - apply Qle_bool_iff in H. now rewrite H.
Qed.

(** The summary text is a part that does not depend on the domain
    scores, followed by the block of the weakest domains. *)
Lemma executive_summary_attention format_1f a fs overall_score :
  exists statistics,
    forall domain_scores,
      NoDup (PyDict.keys domain_scores) ->
      _generate_executive_summary format_1f a fs overall_score domain_scores
      = PyStr.strip
          (statistics
           ++ attention_block format_1f
                (filter below_60
                   (firstn 3 (sorted_by_score
                                (PyDict.items domain_scores)))))%string.
Proof.
  eexists. intros ds Hnd.
  unfold _generate_executive_summary. cbv zeta. f_equal.
  assert (Hw : weakest_domains ds
               = map fst (filter below_60
                            (firstn 3 (sorted_by_score (PyDict.items ds))))).
  { unfold weakest_domains. f_equal. apply filter_ext.
    intros e. apply below_60_code. }
  assert (Hin : forall e,
             In e (filter below_60
                     (firstn 3 (sorted_by_score (PyDict.items ds)))) ->
             PyDict.get ds (fst e) = Some (snd e)).
  { intros [d s] He. apply filter_In in He. destruct He as [He _].
    apply PyDictFacts.In_get; [exact Hnd|].
    apply (Permutation_in _ (sorted_by_score_perm ds)).
    rewrite <- (firstn_skipn 3 (sorted_by_score ds)).
    apply in_or_app. now left. }
  rewrite Hw.
  assert (Hmap : forall l,
             (forall e, In e l -> PyDict.get ds (fst e) = Some (snd e)) ->
             map (fun d => ("- " ++ d ++ " (Score: "
                            ++ format_1f match PyDict.get ds d with
                                         | Some x => x
                                         | None => 0
                                         end ++ "/100)" ++ PyStr.nl)%string)
                 (map fst l)
             = map (fun e => ("- " ++ fst e ++ " (Score: "
                              ++ format_1f (snd e) ++ "/100)"
                              ++ PyStr.nl)%string) l).
  { intros l H. rewrite map_map. apply map_ext_in.
    intros x Hx. now rewrite (H x Hx). }
  revert Hin.
  generalize (filter below_60 (firstn 3 (sorted_by_score (PyDict.items ds)))).
  intros [|e l] Hin.
  - cbn [map is_empty attention_block]. rewrite append_empty_r. reflexivity.
  - change (is_empty (map fst (e :: l))) with false. cbv iota.
    unfold attention_block.
    rewrite (fold_left_append
               (fun d => ("- " ++ d ++ " (Score: "
                          ++ format_1f match PyDict.get ds d with
                                       | Some x => x
                                       | None => 0
                                       end ++ "/100)" ++ PyStr.nl)%string)).
    rewrite (Hmap _ Hin), !append_assoc. reflexivity.
Qed.

(** C9: the weakest-domains list of the executive summary is read off
    the three lowest-scoring entries of [domain_scores]: the entries
    split into [lowest], of length min(3, n), and [rest], the whole in
    ascending order of score; the list names the entries of [lowest]
    scoring strictly below 60, in that order, so it has at most three
    names.  An entry among the three lowest is named when its score is
    below 60, and a domain scoring 60 or more is never named.  The
    summary text itself ends with these entries: it is the statistics,
    which do not depend on the domain scores, followed by the heading
    "Areas Requiring Immediate Attention" and one line per such entry
    with its name and score, or by nothing when there is none.  With A
    at exactly 60 and B at 59.9 the summary lists B alone; with no
    domain below 60 it has no such block. *)
Theorem weakest_domains_three_lowest_below_60 :
  forall format_1f a fs overall_score,
    exists statistics,
      (forall domain_scores : dict Q,
          exists lowest rest,
            Permutation (lowest ++ rest) (PyDict.items domain_scores)
            /\ StronglySorted by_score (lowest ++ rest)
            /\ List.length lowest = Nat.min 3 (List.length domain_scores)
            /\ weakest_domains domain_scores
               = map fst (filter below_60 lowest)
            /\ StronglySorted by_score (filter below_60 lowest)
            /\ (List.length (weakest_domains domain_scores) <= 3)%nat
            /\ (forall d s, In (d, s) lowest -> s < 60 ->
                            In d (weakest_domains domain_scores))
            /\ (forall d s, NoDup (PyDict.keys domain_scores) ->
                            In (d, s) domain_scores -> 60 <= s ->
                            ~ In d (weakest_domains domain_scores))
            /\ (NoDup (PyDict.keys domain_scores) ->
                _generate_executive_summary format_1f a fs overall_score
                  domain_scores
                = PyStr.strip
                    (statistics
                     ++ attention_block format_1f (filter below_60 lowest))))
      /\ weakest_domains [("A", 60); ("B", 59.9)]%string = ["B"%string]
      /\ weakest_domains [("A", 59.9); ("B", 60)]%string = ["A"%string]
      /\ _generate_executive_summary format_1f a fs overall_score
           [("A", 60); ("B", 59.9)]%string
         = PyStr.strip
             (statistics ++ PyStr.nl
              ++ "**Areas Requiring Immediate Attention:**" ++ PyStr.nl
              ++ "- B (Score: " ++ format_1f 59.9 ++ "/100)" ++ PyStr.nl)
      /\ _generate_executive_summary format_1f a fs overall_score
           [("A", 60); ("B", 75)]%string
         = PyStr.strip statistics.
Proof.
  intros format_1f a fs overall_score.
  destruct (executive_summary_attention format_1f a fs overall_score)
    as [statistics Hsum].
  exists statistics. split.
  - intros ds.
    set (sorted_domains := sorted_by_score (PyDict.items ds)).
    assert (Hperm : Permutation sorted_domains ds)
      by apply sorted_by_score_perm.
    assert (Hsorted : StronglySorted by_score sorted_domains)
      by apply sorted_by_score_sorted.
    assert (Hw : weakest_domains ds
                 = map fst (filter below_60 (firstn 3 sorted_domains))).
    { unfold weakest_domains. fold sorted_domains. f_equal.
      apply filter_ext. intros e. apply below_60_code. }
    exists (firstn 3 sorted_domains), (skipn 3 sorted_domains).
    rewrite firstn_skipn.
    split; [exact Hperm|]. split; [exact Hsorted|]. split.
    { rewrite length_firstn. now rewrite (Permutation_length Hperm). }
    split; [exact Hw|]. split.
    { apply StronglySorted_filter.
      apply StronglySorted_app_l with (l2 := skipn 3 sorted_domains).
      now rewrite firstn_skipn. }
    split.
    { rewrite Hw, length_map.
      eapply Nat.le_trans; [apply filter_length_le|].
      rewrite length_firstn. lia. }
    split.
    { intros d s Hin Hlt. rewrite Hw.
      change d with (fst (d, s)). apply in_map. apply filter_In.
      split; [exact Hin|]. unfold below_60. simpl.
      destruct (Qlt_le_dec s 60) as [H|H]; auto. lra. }
    split.
    { intros d s Hnd Hin Hge Hd. rewrite Hw in Hd.
      apply in_map_iff in Hd. destruct Hd as [[d' s'] [Hfst Hf]].
      simpl in Hfst. subst d'. apply filter_In in Hf.
      destruct Hf as [Hin' Hlow].
      assert (Hds : In (d, s') ds).
      { apply (Permutation_in _ Hperm).
        rewrite <- (firstn_skipn 3 sorted_domains).
        apply in_or_app. now left. }
      pose proof (PyDictFacts.In_get _ _ _ _ Hnd Hin) as G1.
      pose proof (PyDictFacts.In_get _ _ _ _ Hnd Hds) as G2.
      rewrite G1 in G2. injection G2 as <-.
      unfold below_60 in Hlow. simpl in Hlow.
      destruct (Qlt_le_dec s 60) as [H|H]; [lra|discriminate]. }
    intros Hnd. exact (Hsum ds Hnd).
  - split; [vm_compute; reflexivity|]. split; [vm_compute; reflexivity|].
    split.
    + rewrite Hsum
        by (repeat constructor; simpl; intuition discriminate).
      reflexivity.
    + rewrite Hsum
        by (repeat constructor; simpl; intuition discriminate).
      change (attention_block format_1f
                (filter below_60
                   (firstn 3 (sorted_by_score
                                (PyDict.items [("A", 60); ("B", 75)]%string)))))
        with ""%string.
      now rewrite append_empty_r.
Qed.

Lemma weakest_domains_three_lowest_below_60_witness :
  exists statistics lowest,
    _generate_executive_summary (fun _ => ""%string) (self sample_world) []
      50 sample_domain_scores
    = PyStr.strip
        (statistics
         ++ attention_block (fun _ => ""%string) (filter below_60 lowest))
    /\ map fst (filter below_60 lowest) = ["DM"; "IAM"; "CR"]%string
    /\ (List.length (weakest_domains sample_domain_scores) <= 3)%nat.
Proof.
  destruct (weakest_domains_three_lowest_below_60
              (fun _ => ""%string) (self sample_world) [] 50)
    as [statistics [H _]].
  destruct (H sample_domain_scores)
    as [lowest [rest [_ [_ [_ [Hw [_ [Hl [_ [_ Hs]]]]]]]]]].
  exists statistics, lowest.
  split; [apply Hs; repeat constructor; simpl; intuition discriminate|].
  split; [rewrite <- Hw; vm_compute; reflexivity|exact Hl].
Defined.

(* ================================================================== *)
(** ** Recommendations summary *)

Lemma add_entries_with_recommendation_spec p summary members :
  p <> LOW ->
  add_entries_with_recommendation summary members
  = (summary ++ String.concat ""
       (map (RecommendationsSpec.entry p) (enumerate 1 members)))%string.
Proof.
  intros Hp. unfold add_entries_with_recommendation.
  rewrite <- fold_left_append. apply fold_left_pointwise. intros s e.
  unfold RecommendationsSpec.entry.
  destruct p; try congruence; now rewrite !append_assoc.
Qed.

Lemma add_entries_title_only_spec summary members :
  add_entries_title_only summary members
  = (summary ++ String.concat ""
       (map (RecommendationsSpec.entry LOW) (enumerate 1 members)))%string.
Proof.
  unfold add_entries_title_only. now rewrite <- fold_left_append.
Qed.

Lemma band_step_with_recommendation p header fs s :
  p <> LOW ->
  RecommendationsSpec.band_header p = (header ++ PyStr.nl)%string ->
  (if is_empty (with_priority p fs) then s
   else add_entries_with_recommendation (s ++ header ++ PyStr.nl)%string
                                        (with_priority p fs))
  = (s ++ RecommendationsSpec.band fs p)%string.
Proof.
  intros Hp Hh. unfold RecommendationsSpec.band, with_priority.
  destruct (filter (fun f => priority_eqb (priority f) p) fs) as [|f l].
  - simpl. now rewrite append_empty_r.
  - cbn [is_empty].
    rewrite (add_entries_with_recommendation_spec p) by assumption.
    now rewrite Hh, !append_assoc.
Qed.

Lemma band_step_title_only fs s :
  (if is_empty (with_priority LOW fs) then s
   else add_entries_title_only
          (s ++ "**LOW PRIORITY (Address within 6 months):**"
             ++ PyStr.nl)%string
          (with_priority LOW fs))
  = (s ++ RecommendationsSpec.band fs LOW)%string.
Proof.
  unfold RecommendationsSpec.band, with_priority.
  destruct (filter (fun f => priority_eqb (priority f) LOW) fs) as [|f l].
  - simpl. now rewrite append_empty_r.
  - cbn [is_empty]. rewrite add_entries_title_only_spec.
    unfold RecommendationsSpec.band_header. now rewrite !append_assoc.
Qed.

Lemma recommendations_refine fs :
  _generate_recommendations_summary fs
  = RecommendationsSpec.recommendations fs.
Proof.
  unfold _generate_recommendations_summary,
    RecommendationsSpec.recommendations, RecommendationsSpec.bands.
  cbv zeta.
  rewrite (band_step_with_recommendation CRITICAL
             "**CRITICAL PRIORITY (Immediate Action Required):**")
    by (reflexivity || discriminate).
  rewrite (band_step_with_recommendation HIGH
             "**HIGH PRIORITY (Address within 30 days):**")
    by (reflexivity || discriminate).
  rewrite (band_step_with_recommendation MEDIUM
             "**MEDIUM PRIORITY (Address within 90 days):**")
    by (reflexivity || discriminate).
  rewrite band_step_title_only.
  cbn [map]. rewrite !concat_empty_cons. cbn [String.concat].
  now rewrite append_empty_r, !append_assoc.
Qed.

Lemma with_priority_not_info p fs :
  p <> INFO ->
  with_priority p (filter RecommendationsSpec.not_info fs)
  = with_priority p fs.
Proof.
  intros Hp. unfold with_priority, RecommendationsSpec.not_info.
  induction fs as [|f fs IH]; simpl; auto.
  destruct (priority f) eqn:E; simpl; rewrite ?E, IH; auto.
  destruct p; simpl; congruence.
Qed.

Lemma priority_blank f :
  priority (RecommendationsSpec.blank_low_recommendation f) = priority f.
Proof.
  unfold RecommendationsSpec.blank_low_recommendation.
  now destruct (priority f) eqn:E.
Qed.

Lemma title_blank f :
  title (RecommendationsSpec.blank_low_recommendation f) = title f.
Proof.
  unfold RecommendationsSpec.blank_low_recommendation.
  now destruct (priority f).
Qed.

Lemma with_priority_blank p fs :
  with_priority p (map RecommendationsSpec.blank_low_recommendation fs)
  = map RecommendationsSpec.blank_low_recommendation (with_priority p fs).
Proof.
  unfold with_priority. induction fs as [|f fs IH]; simpl; auto.
  rewrite priority_blank, IH.
  now destruct (priority_eqb (priority f) p).
Qed.

Lemma entries_blank p start l :
  Forall (fun f => priority f = p) l ->
  map (RecommendationsSpec.entry p)
      (enumerate start (map RecommendationsSpec.blank_low_recommendation l))
  = map (RecommendationsSpec.entry p) (enumerate start l).
Proof.
  intros H. revert start.
  induction H as [|f l Hf Hl IH]; intros start; simpl; auto.
  rewrite IH. f_equal.
  unfold RecommendationsSpec.entry. simpl. rewrite title_blank.
  destruct p; auto;
    unfold RecommendationsSpec.blank_low_recommendation; now rewrite Hf.
Qed.

Lemma priority_eqb_eq a b : priority_eqb a b = true <-> a = b.
Proof. destruct a, b; simpl; split; congruence. Qed.

Lemma band_blank fs p :
  RecommendationsSpec.band
    (map RecommendationsSpec.blank_low_recommendation fs) p
  = RecommendationsSpec.band fs p.
Proof.
  unfold RecommendationsSpec.band.
  change (filter (fun f => priority_eqb (priority f) p) ?l)
    with (with_priority p l).
  rewrite with_priority_blank.
  assert (Hall : Forall (fun f => priority f = p) (with_priority p fs)).
  { apply Forall_forall. intros f Hf. apply filter_In in Hf.
    now apply priority_eqb_eq. }
  destruct (with_priority p fs) as [|f l] eqn:E; auto.
  rewrite <- (entries_blank p 1 (f :: l) Hall). reflexivity.
Qed.

(** C8: the recommendations summary is the title line followed by the
    bands Critical, High, Medium, Low in that order, each band (when it
    has findings) listing them numbered in registry order; an entry of
    the first three bands is its title and its recommendation, an entry
    of the Low band its title alone.  The text does not change when the
    Info findings are removed from the registry, nor when the
    recommendation text of the Low findings is blanked. *)
Theorem recommendations_summary_bands :
  forall fs : list Finding,
    _generate_recommendations_summary fs
    = RecommendationsSpec.recommendations fs
    /\ _generate_recommendations_summary
         (filter RecommendationsSpec.not_info fs)
       = _generate_recommendations_summary fs
    /\ _generate_recommendations_summary
         (map RecommendationsSpec.blank_low_recommendation fs)
       = _generate_recommendations_summary fs
    /\ _generate_recommendations_summary sample_registry
       = sample_recommendations.
Proof.
  intros fs. split; [apply recommendations_refine|]. split; [|split].
  - unfold _generate_recommendations_summary.
    now rewrite !with_priority_not_info by discriminate.
  - rewrite !recommendations_refine.
    unfold RecommendationsSpec.recommendations.
    now rewrite (map_ext _ _ (band_blank fs)).
  - vm_compute. reflexivity.
Qed.

Lemma stored_scores_are_numeric_witness :
  let w := exec_all [OpAssess "IAM-01" PARTIAL "" [] ""]%string
                    sample_world in
  (forall k a, In (k, a) (assessments (self w)) ->
               score a = 0 \/ score a = 50 \/ score a = 100)
  /\ exists a w',
       assess_control "CR-01" NOT_APPLICABLE "" [] "" w = (inr a, w')
       /\ score a = 0
       /\ PyDict.get (assessments (self w')) "CR-01" = Some a.
Proof.
  intros w.
  pose proof (stored_scores_are_numeric sample_controls sample_domains
                [OpAssess "IAM-01" PARTIAL "" [] ""]%string) as H.
  split; [exact (proj1 H)|].
  destruct (assess_control "CR-01" NOT_APPLICABLE "" [] "" w)
    as [[e|a] w'] eqn:E; [vm_compute in E; discriminate|].
  exists a, w'. split; [reflexivity|].
  exact (proj1 (proj2 H) "CR-01"%string ""%string [] ""%string a w' E).
Defined.

(* ================================================================== *)
(** ** Further properties of the scoring engine *)

Lemma fold_left_Qplus_acc (l : list Q) (x : Q) :
  fold_left Qplus l x == x + fold_left Qplus l 0.
Proof.
  revert x. induction l as [|y l IH]; intros x; simpl.
  - ring.
  - rewrite IH. rewrite (IH (0 + y)). ring.
Qed.

Lemma total_score_cons x l :
  total_score (x :: l) == score x + total_score l.
Proof.
  unfold total_score. simpl. rewrite fold_left_Qplus_acc. ring.
Qed.

Lemma total_score_bounds l :
  Forall (fun x => 0 <= score x <= 100) l ->
  0 <= total_score l
  /\ total_score l <= 100 * inject_Z (Z.of_nat (List.length l)).
Proof.
  induction 1 as [|x l [Hlo Hhi] Hl [IHlo IHhi]].
  - split; vm_compute; discriminate.
  - rewrite total_score_cons.
    assert (E : inject_Z (Z.of_nat (List.length (x :: l)))
                == 1 + inject_Z (Z.of_nat (List.length l))).
    { cbn [List.length]. rewrite Nat2Z.inj_succ. unfold Z.succ.
      rewrite inject_Z_plus. ring. }
    rewrite E. split; lra.
Qed.

Lemma mean_score_bounds l :
  Forall (fun x => 0 <= score x <= 100) l ->
  0 <= mean_score l <= 100.
Proof.
  intros H. destruct l as [|x l]; [simpl; split; lra|].
  unfold mean_score.
  destruct (total_score_bounds _ H) as [Hlo Hhi].
  assert (Hpos : 0 < inject_Z (Z.of_nat (List.length (x :: l)))).
  { unfold Qlt. simpl. lia. }
  split.
  - apply Qle_shift_div_l; [exact Hpos|]. lra.
  - apply Qle_shift_div_r; [exact Hpos|]. lra.
Qed.

Lemma domain_assessed_in_store a d x :
  In x (domain_assessed_controls a d) ->
  exists cid, PyDict.get (assessments a) cid = Some x.
Proof.
  unfold domain_assessed_controls. rewrite in_flat_map.
  intros [cid [_ H]]. exists cid.
  destruct (PyDict.get (assessments a) cid) as [y|]; [|destruct H].
  destruct (is_applicable y); [|destruct H].
  destruct H as [<-|[]]. reflexivity.
Qed.

(** X1: in every store the auditor's methods can build, the overall
    score and every domain score lie between 0 and 100. *)
Theorem scores_within_0_100 :
  forall cs ds ops d,
    let w := exec_all ops (init cs ds) in
    0 <= calculate_overall_score (self w) <= 100
    /\ 0 <= calculate_domain_score (self w) d <= 100.
Proof.
  intros cs ds ops d w.
  assert (Hstore : forall k a, In (k, a) (assessments (self w)) ->
                               0 <= score a <= 100).
  { apply (exec_all_entries (fun _ a => 0 <= score a <= 100)).
    - intros c id st ev gs nt. destruct st; simpl; split; lra.
    - simpl. tauto. }
  split; apply mean_score_bounds; apply Forall_forall; intros x Hx.
  - apply filter_In in Hx. destruct Hx as [Hx _].
    unfold PyDict.values in Hx. apply in_map_iff in Hx.
    destruct Hx as [[k a] [<- Hin]]. exact (Hstore k a Hin).
  - apply domain_assessed_in_store in Hx. destruct Hx as [cid Hg].
    apply PyDictFacts.get_Some_In in Hg. exact (Hstore cid x Hg).
Qed.

(** X2: a domain none of whose listed controls has a stored assessment
    other than NotApplicable scores exactly 0; this covers a domain that
    is not in the index at all.  Likewise the overall score is 0 when
    the store holds nothing but NotApplicable records. *)
Theorem score_zero_when_nothing_assessed :
  forall (a : SecurityAuditor) (d : string),
    (forall ids cid x,
        PyDict.get (domains a) d = Some ids -> In cid ids ->
        PyDict.get (assessments a) cid = Some x ->
        status x = NOT_APPLICABLE) ->
    calculate_domain_score a d = 0
    /\ ((forall k x, In (k, x) (assessments a) -> status x = NOT_APPLICABLE) ->
        calculate_overall_score a = 0).
Proof.
  intros a d H. split.
  - unfold calculate_domain_score.
    assert (E : domain_assessed_controls a d = []).
    { unfold domain_assessed_controls.
      destruct (PyDict.get (domains a) d) as [ids|] eqn:Ed; [|reflexivity].
      assert (Hids : forall cid, In cid ids ->
                forall x, PyDict.get (assessments a) cid = Some x ->
                          status x = NOT_APPLICABLE)
        by (intros cid Hc x Hx; exact (H ids cid x eq_refl Hc Hx)).
      clear H Ed. induction ids as [|cid ids IH]; simpl; auto.
      rewrite IH by (intros; eapply Hids; eauto; now right).
      destruct (PyDict.get (assessments a) cid) as [x|] eqn:Ex; auto.
      unfold is_applicable.
      rewrite (Hids cid (or_introl eq_refl) x Ex). reflexivity. }
    now rewrite E.
  - intros Hall. unfold calculate_overall_score, overall_assessed_controls.
    assert (E : filter is_applicable (PyDict.values (assessments a)) = []).
    { unfold PyDict.values. clear H. revert Hall.
      generalize (assessments a). intros l.
      induction l as [|[k x] l IH]; intros Hall; simpl; auto.
      unfold is_applicable at 1.
      rewrite (Hall k x) by now left. simpl.
      apply IH. intros k0 x0 Hin. apply (Hall k0 x0). now right. }
    now rewrite E.
Qed.

Lemma score_zero_when_nothing_assessed_witness :
  calculate_domain_score (self world_with_not_applicable) "Cryptography" = 0
  /\ calculate_domain_score (self world_with_not_applicable) "CR" = 0.
Proof.
  split.
  - apply (score_zero_when_nothing_assessed
             (self world_with_not_applicable) "Cryptography").
    intros ids cid x H. vm_compute in H. discriminate.
  - apply (score_zero_when_nothing_assessed
             (self world_with_not_applicable) "CR").
    intros ids cid x H Hin Hx. vm_compute in H. injection H as <-.
    destruct Hin as [<-|[]]. vm_compute in Hx. discriminate.
Defined.

(* ================================================================== *)
(** ** Further properties of the store and the registry *)



Lemma exec_add_finding w f :
  heap_ok w ->
  registry (exec (OpAddFinding f) w) = (registry w ++ [f])%list
  /\ self (exec (OpAddFinding f) w) = self w.
Proof.
  intros Hok. unfold registry. simpl. run_method.
  split; [now apply deref_heap_update|reflexivity].
Qed.

(** X4: [add_finding] is a pure append.  Adding a list of findings one
    after the other, in any reachable world, leaves the registry as the
    old list followed by the new findings in the order given, with no
    finding dropped or merged, so the length grows by their number; the
    assessment store, the scope and the catalog are untouched. *)
Theorem add_finding_appends :
  forall cs ds ops fs,
    let w := exec_all ops (init cs ds) in
    let w' := exec_all (map OpAddFinding fs) w in
    registry w' = (registry w ++ fs)%list
    /\ List.length (registry w')
       = (List.length (registry w) + List.length fs)%nat
    /\ self w' = self w.
Proof.
  intros cs ds ops fs w w'.
  assert (Hok : heap_ok w).
  { apply exec_all_heap_ok. unfold heap_ok. simpl. lia. }
  assert (G : registry w' = (registry w ++ fs)%list /\ self w' = self w).
  { unfold w'. clearbody w. clear w'. revert w Hok.
    induction fs as [|f fs IH]; intros w Hok.
    - simpl. now rewrite app_nil_r.
    - destruct (exec_add_finding w f Hok) as [Hr Hs].
      destruct (IH (exec (OpAddFinding f) w) (exec_heap_ok _ _ Hok))
        as [Hr' Hs'].
      change (exec_all (map OpAddFinding (f :: fs)) w)
        with (exec_all (map OpAddFinding fs) (exec (OpAddFinding f) w)).
      split.
      + rewrite Hr', Hr, <- app_assoc. reflexivity.
      + now rewrite Hs', Hs. }
  destruct G as [Hr Hs]. split; [exact Hr|]. split; [|exact Hs].
  rewrite Hr. apply length_app.
Qed.

Lemma with_priority_app p l1 l2 :
  with_priority p (l1 ++ l2) = (with_priority p l1 ++ with_priority p l2)%list.
Proof. unfold with_priority. apply filter_app. Qed.

(** X5: the four bands the report renders split the findings that are
    not Info: taken together, in the order Critical, High, Medium, Low,
    they hold each such finding exactly once.  A finding added to the
    registry goes to the end of the band of its own priority and leaves
    the other bands as they were. *)
Theorem bands_partition_findings :
  forall (fs : list Finding) (f : Finding),
    Permutation
      (with_priority CRITICAL fs ++ with_priority HIGH fs
         ++ with_priority MEDIUM fs ++ with_priority LOW fs)
      (filter RecommendationsSpec.not_info fs)
    /\ with_priority (priority f) (fs ++ [f])
       = (with_priority (priority f) fs ++ [f])%list
    /\ forall p, p <> priority f ->
                 with_priority p (fs ++ [f]) = with_priority p fs.
Proof.
  intros fs f. split; [|split].
  - unfold with_priority, RecommendationsSpec.not_info.
    induction fs as [|x fs IH]; simpl; [constructor|].
    destruct (priority x); simpl; auto.
    + symmetry. apply Permutation_cons_app. now symmetry.
    + symmetry. rewrite app_assoc. apply Permutation_cons_app.
      rewrite <- app_assoc. now symmetry.
    + symmetry. rewrite app_assoc, app_assoc. apply Permutation_cons_app.
      rewrite <- !app_assoc. now symmetry.
  - rewrite with_priority_app. unfold with_priority at 2. simpl.
    now destruct (priority f).
  - intros p Hp. rewrite with_priority_app. unfold with_priority at 2.
    simpl. destruct (priority_eqb (priority f) p) eqn:E.
    + apply priority_eqb_eq in E. congruence.
    + apply app_nil_r.
Qed.

Lemma count_summary_priority p fs :
  p <> LOW -> p <> INFO ->
  with_priority p (filter counted_in_summary fs) = with_priority p fs.
Proof.
  intros H1 H2. unfold with_priority, counted_in_summary.
  induction fs as [|f fs IH]; simpl; auto.
  destruct (priority f) eqn:E; simpl; rewrite ?E, IH; auto;
    destruct p; simpl; congruence.
Qed.

(** X6: the executive summary reads the registry only through its
    Critical, High and Medium findings: the text is the same when the
    Low and Info findings are taken out of the registry. *)
Theorem executive_summary_ignores_low_and_info :
  forall format_1f a fs overall_score domain_scores,
    _generate_executive_summary format_1f a
      (filter counted_in_summary fs) overall_score domain_scores
    = _generate_executive_summary format_1f a fs overall_score domain_scores.
Proof.
  intros fmt a fs os ds. unfold _generate_executive_summary.
  now rewrite !count_summary_priority by discriminate.
Qed.

Lemma count_status_cons st k x d :
  count_status st ((k, x) :: d)
  = ((if status_eqb (status x) st then 1 else 0) + count_status st d)%nat.
Proof.
  unfold count_status, PyDict.values. simpl.
  now destruct (status_eqb (status x) st).
Qed.

(** X7: the three status counts of the executive summary never exceed
    its total of assessed controls: the total is the number of stored
    records, and it exceeds the sum of the Compliant, Partial and
    NonCompliant counts by the number of NotApplicable and NotAssessed
    records. *)
Theorem summary_counts_add_up :
  forall d : dict ControlAssessment,
    List.length d
    = (count_status COMPLIANT d + count_status PARTIAL d
       + count_status NON_COMPLIANT d
       + count_status NOT_APPLICABLE d + count_status NOT_ASSESSED d)%nat
    /\ (count_status COMPLIANT d + count_status PARTIAL d
        + count_status NON_COMPLIANT d <= List.length d)%nat.
Proof.
  intros d.
  assert (E : List.length d
              = (count_status COMPLIANT d + count_status PARTIAL d
                 + count_status NON_COMPLIANT d
                 + count_status NOT_APPLICABLE d
                 + count_status NOT_ASSESSED d)%nat).
  { induction d as [|[k x] d IH]; [reflexivity|].
    rewrite !count_status_cons. cbn [List.length]. rewrite IH.
    destruct (status x); simpl; lia. }
  split; [exact E|]. rewrite E. lia.
Qed.

Lemma posture_of_cases s :
  (90 <= s /\ posture_of s = "Excellent"%string)
  \/ (75 <= s < 90 /\ posture_of s = "Good"%string)
  \/ (60 <= s < 75 /\ posture_of s = "Fair"%string)
  \/ (40 <= s < 60 /\ posture_of s = "Poor"%string)
  \/ (s < 40 /\ posture_of s = "Critical"%string).
Proof.
  unfold posture_of.
  destruct (Qle_bool 90 s) eqn:E1;
    [apply Qle_bool_iff in E1; auto|].
  destruct (Qle_bool 75 s) eqn:E2;
    [apply Qle_bool_iff in E2|].
  { right; left. split; auto. split; auto.
    apply Qnot_le_lt. intros H. apply Qle_bool_iff in H. congruence. }
  destruct (Qle_bool 60 s) eqn:E3;
    [apply Qle_bool_iff in E3|].
  { right; right; left. split; auto. split; auto.
    apply Qnot_le_lt. intros H. apply Qle_bool_iff in H. congruence. }
  destruct (Qle_bool 40 s) eqn:E4;
    [apply Qle_bool_iff in E4|].
  { right; right; right; left. split; auto. split; auto.
    apply Qnot_le_lt. intros H. apply Qle_bool_iff in H. congruence. }
  right; right; right; right. split; auto.
  apply Qnot_le_lt. intros H. apply Qle_bool_iff in H. congruence.
Qed.

(** X8: the posture label is monotone in the overall score: a score
    that is at least as high never gets a label lower on the scale
    Critical, Poor, Fair, Good, Excellent. *)
Theorem posture_monotone :
  forall s1 s2 : Q,
    s1 <= s2 ->
    (posture_rank (posture_of s1) <= posture_rank (posture_of s2))%nat.
Proof.
  intros s1 s2 H.
  destruct (posture_of_cases s1) as [[B1 ->]|[[B1 ->]|[[B1 ->]|[[B1 ->]|[B1 ->]]]]];
  destruct (posture_of_cases s2) as [[B2 ->]|[[B2 ->]|[[B2 ->]|[[B2 ->]|[B2 ->]]]]];
    vm_compute; try lia; exfalso; lra.
Qed.

Lemma posture_monotone_witness :
  59.9 <= 60
  /\ (posture_rank (posture_of 59.9) <= posture_rank (posture_of 60))%nat.
Proof.
  assert (H : 59.9 <= 60) by (unfold Qle; simpl; lia).
  split; [exact H|]. exact (posture_monotone 59.9 60 H).
Defined.

(* ================================================================== *)
(** ** Further properties of the response interpretation *)

Lemma prefix_empty s : prefix "" s = true.
Proof. now destruct s. Qed.

Lemma contains_empty s : PyStr.contains "" s = true.
Proof. destruct s; simpl; reflexivity. Qed.

Lemma contains_prefix p s : prefix p s = true -> PyStr.contains p s = true.
Proof. intros H. destruct s; simpl in *; rewrite H; reflexivity. Qed.

Lemma contains_cons p c s :
  PyStr.contains p s = true -> PyStr.contains p (String c s) = true.
Proof.
  intros H. cbn [PyStr.contains]. rewrite H. apply orb_true_r.
Qed.

Lemma contains_app_right p pre s :
  PyStr.contains p s = true -> PyStr.contains p (pre ++ s) = true.
Proof.
  intros H. induction pre as [|c pre IH]; [exact H|].
  cbn [String.append]. now apply contains_cons.
Qed.

Lemma rstrip_prefix s : prefix (PyStr.rstrip s) s = true.
Proof.
  induction s as [|c s IH]; [reflexivity|].
  cbn [PyStr.rstrip].
  destruct (PyStr.rstrip s) as [|c' r] eqn:E.
  - destruct (PyStr.isspace c); [reflexivity|].
    cbn [prefix]. destruct (ascii_dec c c); [apply prefix_empty|congruence].
  - cbn [prefix]. destruct (ascii_dec c c); [exact IH|congruence].
Qed.

Lemma lstrip_suffix s : exists pre, s = (pre ++ PyStr.lstrip s)%string.
Proof.
  induction s as [|c s [pre IH]].
  - exists ""%string. reflexivity.
  - cbn [PyStr.lstrip]. destruct (PyStr.isspace c).
    + exists (String c pre). cbn [String.append]. now rewrite <- IH.
    + exists ""%string. reflexivity.
Qed.

(** A string contains its own stripped form. *)
Lemma contains_strip s : PyStr.contains (PyStr.strip s) s = true.
Proof.
  unfold PyStr.strip. destruct (lstrip_suffix s) as [pre E].
  rewrite E at 2. apply contains_app_right, contains_prefix, rstrip_prefix.
Qed.

Lemma isspace_lower_char c :
  PyStr.isspace (PyStr.lower_char c) = PyStr.isspace c.
Proof.
  destruct c as [[] [] [] [] [] [] [] []]; vm_compute; reflexivity.
Qed.

Lemma all_space_lower s : all_space (PyStr.lower s) = all_space s.
Proof.
  induction s as [|c s IH]; [reflexivity|].
  cbn [PyStr.lower all_space]. now rewrite isspace_lower_char, IH.
Qed.

Lemma all_space_strip s : all_space s = true -> PyStr.strip s = ""%string.
Proof.
  unfold PyStr.strip. intros H.
  assert (E : PyStr.lstrip s = ""%string).
  { induction s as [|c s IH]; [reflexivity|].
    cbn [all_space] in H. apply andb_true_iff in H. destruct H as [Hc Hs].
    cbn [PyStr.lstrip]. rewrite Hc. now apply IH. }
  now rewrite E.
Qed.

Lemma resolve_option_first_match response o rest :
  option_matches (PyStr.strip (PyStr.lower response)) o = true ->
  resolve_option response (o :: rest) = 0%Z.
Proof.
  intros H. unfold resolve_option. cbn [find_option]. now rewrite H.
Qed.

Lemma interpret_response_index_0 question response options :
  resolve_option response options = 0%Z ->
  interpret_response question response options = inr (COMPLIANT, 100).
Proof. intros H. unfold interpret_response. now rewrite H. Qed.

(** X9: a response that is empty or made of white space only is
    taken as the first option: with at least one option the result is
    Compliant with score 100, whatever the options say. *)
Theorem blank_response_is_compliant :
  forall question response o rest,
    all_space response = true ->
    interpret_response question response (o :: rest)
    = inr (COMPLIANT, 100).
Proof.
  intros question response o rest H.
  apply interpret_response_index_0, resolve_option_first_match.
  rewrite all_space_strip by now rewrite all_space_lower.
  unfold option_matches. now rewrite contains_empty.
Qed.

Lemma blank_response_is_compliant_witness :
  all_space "  " = true
  /\ interpret_response "Is sensitive data encrypted at rest?" "  "
       ["Yes, all sensitive data"; "Partial encryption";
        "No encryption"]%string
     = inr (COMPLIANT, 100).
Proof.
  split; [reflexivity|].
  exact (blank_response_is_compliant
           "Is sensitive data encrypted at rest?"%string "  "%string
           "Yes, all sensitive data"%string
           ["Partial encryption"; "No encryption"]%string eq_refl).
Defined.

(** X10: answering with the text of the first option, in any list of
    options, gives Compliant with score 100. *)
Theorem first_option_is_compliant :
  forall question o rest,
    interpret_response question o (o :: rest) = inr (COMPLIANT, 100).
Proof.
  intros question o rest.
  apply interpret_response_index_0, resolve_option_first_match.
  unfold option_matches. now rewrite contains_strip.
Qed.



(** X12: whatever [interpret_response] returns, the status is
    Compliant, Partial or NonCompliant, never NotApplicable or
    NotAssessed; Compliant comes with the score 100 only, Partial only
    with a score above 60, and NonCompliant only with a score of at
    most 60. *)
Theorem interpret_response_status_score :
  forall question response options st sc,
    interpret_response question response options = inr (st, sc) ->
    (st = COMPLIANT /\ sc = 100)
    \/ (st = PARTIAL /\ 60 < sc)
    \/ (st = NON_COMPLIANT /\ sc <= 60).
Proof.
  intros question response options st sc.
  unfold interpret_response. cbv zeta.
  destruct (_ =? 0)%Z; [intros [= <- <-]; now left|].
  destruct (_ =? _ - 1)%Z.
  { intros [= <- <-]. right; right. split; [reflexivity|].
    unfold Qle; simpl; lia. }
  destruct (_ - 1 =? 0)%Z; [discriminate|].
  destruct (Qle_bool _ 60) eqn:E; cbn [negb]; intros [= <- <-].
  - right; right. split; [reflexivity|]. now apply Qle_bool_iff.
  - right; left. split; [reflexivity|]. apply Qnot_le_lt. intros H.
    apply Qle_bool_iff in H. congruence.
Qed.

Lemma interpret_response_status_score_witness :
  exists sc,
    interpret_response
      "How frequently are systems scanned for vulnerabilities?" "weekly"
      ["Continuously"; "Weekly"; "Monthly"; "Quarterly";
       "Annually or less"]%string
    = inr (PARTIAL, sc)
    /\ sc == 75
    /\ 60 < sc.
Proof.
  assert (E : interpret_response
                "How frequently are systems scanned for vulnerabilities?"
                "weekly"
                ["Continuously"; "Weekly"; "Monthly"; "Quarterly";
                 "Annually or less"]%string
              = inr (PARTIAL, 300 # 4)).
  { vm_compute. reflexivity. }
  exists (300 # 4). split; [exact E|]. split; [reflexivity|].
  destruct (interpret_response_status_score _ _ _ _ _ E)
    as [[H _]|[[_ H]|[H _]]]; [discriminate|exact H|discriminate].
Defined.

Lemma interpret_response_middle question response options :
  let n := Z.of_nat (List.length options) in
  let i := resolve_option response options in
  (0 < i < n - 1)%Z ->
  let sc := 100 - (inject_Z i / inject_Z (n - 1)) * 100 in
  interpret_response question response options
  = inr (if Qle_bool sc 60 then NON_COMPLIANT else PARTIAL, sc).
Proof.
  intros n i Hi sc. unfold interpret_response. cbv zeta.
  fold n. fold i.
  assert (E0 : (i =? 0)%Z = false) by (apply Z.eqb_neq; lia).
  assert (E1 : (i =? n - 1)%Z = false) by (apply Z.eqb_neq; lia).
  assert (E2 : (n - 1 =? 0)%Z = false) by (apply Z.eqb_neq; lia).
  rewrite E0, E1, E2. fold sc. now destruct (Qle_bool sc 60).
Qed.

(** X13: for a response resolved to a middle position [i] of [n]
    options (0 < i < n - 1) the score is strictly between 0 and 100 and
    the status is Partial exactly when 5 i < 2 (n - 1), NonCompliant
    otherwise: with three options the middle one is NonCompliant, with
    four or five only position 1 is Partial.  At a position one, two or
    three quarters of the way down the list (4 i = j (n - 1)) the score
    is exactly 100 - 25 j, that is 75, 50 or 25. *)
Theorem middle_option_classification :
  forall question response options,
    let n := Z.of_nat (List.length options) in
    let i := resolve_option response options in
    (0 < i < n - 1)%Z ->
    exists sc,
      interpret_response question response options
      = inr (if (5 * i <? 2 * (n - 1))%Z then PARTIAL else NON_COMPLIANT, sc)
      /\ 0 < sc < 100
      /\ (forall j : Z, (4 * i = j * (n - 1))%Z ->
                        sc == 100 - 25 * inject_Z j).
Proof.
  intros question response options n i Hi.
  rewrite (interpret_response_middle question response options Hi).
  fold n. fold i.
  set (x := inject_Z i / inject_Z (n - 1)).
  assert (Hm : 0 < inject_Z (n - 1)) by (unfold Qlt, Qmult, inject_Z; cbn [Qnum Qden]; lia).
  assert (Hx0 : 0 < x).
  { apply Qlt_shift_div_l; [exact Hm|]. unfold Qlt, Qmult, inject_Z; cbn [Qnum Qden]; lia. }
  assert (Hx1 : x < 1).
  { apply Qlt_shift_div_r; [exact Hm|]. unfold Qlt, Qmult, inject_Z; cbn [Qnum Qden]; lia. }
  exists (100 - x * 100). split; [|split].
  - f_equal. f_equal.
    assert (Hx25 : (5 * i < 2 * (n - 1))%Z -> x < 2 # 5).
    { intros E. apply Qlt_shift_div_r; [exact Hm|].
      unfold Qlt, Qmult, inject_Z; cbn [Qnum Qden]; lia. }
    assert (Hx52 : (2 * (n - 1) <= 5 * i)%Z -> 2 # 5 <= x).
    { intros E. apply Qle_shift_div_l; [exact Hm|].
      unfold Qle, Qmult, inject_Z; cbn [Qnum Qden]; lia. }
    clearbody x.
    destruct (5 * i <? 2 * (n - 1))%Z eqn:E.
    + apply Z.ltb_lt in E. pose proof (Hx25 E) as Hx.
      destruct (Qle_bool (100 - x * 100) 60) eqn:Eb; [|reflexivity].
      apply Qle_bool_iff in Eb. lra.
    + apply Z.ltb_ge in E. pose proof (Hx52 E) as Hx.
      destruct (Qle_bool (100 - x * 100) 60) eqn:Eb; [reflexivity|].
      assert (Hle : 100 - x * 100 <= 60) by lra.
      apply Qle_bool_iff in Hle. congruence.
  - clearbody x. lra.
  - intros j Hj.
    assert (Hne : ~ inject_Z (n - 1) == 0).
    { intros H. rewrite H in Hm. discriminate Hm. }
    assert (Hxm : x * inject_Z (n - 1) == inject_Z i).
    { unfold x. field. exact Hne. }
    assert (H4 : 4 * x == inject_Z j).
    { apply (Qmult_inj_r _ _ (inject_Z (n - 1)) Hne).
      rewrite <- Qmult_assoc, Hxm. change 4 with (inject_Z 4).
      rewrite <- !inject_Z_mult, Hj. reflexivity. }
    clearbody x. lra.
Qed.

Lemma middle_option_classification_witness :
  exists sc,
    interpret_response "How frequently are systems scanned for vulnerabilities?"
      "weekly"
      ["Continuously"; "Weekly"; "Monthly"; "Quarterly";
       "Annually or less"]%string
    = inr (PARTIAL, sc)
    /\ sc == 75.
Proof.
  assert (Hi : (0 < resolve_option "weekly"
                      ["Continuously"; "Weekly"; "Monthly"; "Quarterly";
                       "Annually or less"]%string
                < Z.of_nat 5 - 1)%Z) by (vm_compute; split; reflexivity).
  destruct (middle_option_classification
              "How frequently are systems scanned for vulnerabilities?"
              "weekly"
              ["Continuously"; "Weekly"; "Monthly"; "Quarterly";
               "Annually or less"]%string Hi) as [sc [E [_ Hsc]]].
  exists sc. split; [exact E|].
  rewrite (Hsc 1%Z) by (vm_compute; reflexivity). vm_compute. reflexivity.
Defined.

Lemma interpret_response_returns question response options :
  (2 <= List.length options)%nat ->
  exists st sc,
    interpret_response question response options = inr (st, sc).
Proof.
  intros Hlen. unfold interpret_response. cbv zeta.
  destruct (_ =? 0)%Z; [eauto|].
  destruct (_ =? _ - 1)%Z; [eauto|].
  destruct (_ - 1 =? 0)%Z eqn:E; [apply Z.eqb_eq in E; lia|].
  destruct (negb _); eauto.
Qed.

Lemma all_domain_questions_self_resolving :
  forallb self_resolving all_domain_questions = true.
Proof. vm_compute. reflexivity. Qed.

Lemma get_questions_for_domain_in domain q :
  In q (QuestionnaireTables.get_questions_for_domain domain) ->
  In q all_domain_questions.
Proof.
  unfold QuestionnaireTables.get_questions_for_domain, all_domain_questions.
  destruct (PyDict.get QuestionnaireTables.DOMAIN_QUESTIONS domain)
    as [l|] eqn:E; [|intros []].
  intros H. apply in_flat_map. exists (domain, l). split; [|exact H].
  now apply PyDictFacts.get_Some_In.
Qed.

(** X14: the predefined questions are safe for the substring matching.
    Every question of every domain has at least three options; each of
    its options, given back as the response, resolves to its own
    position, not to an earlier option that happens to match; and
    [interpret_response] returns for every response to it.  A domain
    without questions yields the empty list. *)
Theorem predefined_options_resolve_to_themselves :
  forall domain q i,
    In q (QuestionnaireTables.get_questions_for_domain domain) ->
    let options := QuestionnaireTables.question_options q in
    (i < List.length options)%nat ->
    (3 <= List.length options)%nat
    /\ resolve_option (nth i options ""%string) options = Z.of_nat i
    /\ forall response,
         exists st sc,
           interpret_response (QuestionnaireTables.question_text q)
                              response options = inr (st, sc).
Proof.
  intros domain q i Hq options Hi.
  apply get_questions_for_domain_in in Hq.
  pose proof all_domain_questions_self_resolving as Hall.
  rewrite forallb_forall in Hall. specialize (Hall q Hq).
  unfold self_resolving in Hall. fold options in Hall.
  apply andb_true_iff in Hall. destruct Hall as [Hlen Hres].
  apply Nat.leb_le in Hlen. split; [exact Hlen|]. split.
  - rewrite forallb_forall in Hres. apply Z.eqb_eq, Hres.
    apply in_seq. lia.
  - intros response. apply interpret_response_returns. lia.
Qed.

Lemma predefined_options_resolve_to_themselves_witness :
  let q := ("What is your average time to detect a security incident?",
            "IR-04",
            ["< 1 hour"; "< 24 hours"; "< 1 week"; "> 1 week"])%string in
  In q (QuestionnaireTables.get_questions_for_domain "Incident Response")
  /\ resolve_option "> 1 week" (QuestionnaireTables.question_options q)
     = 3%Z.
Proof.
  intros q.
  assert (Hq : In q (QuestionnaireTables.get_questions_for_domain
                       "Incident Response"))
    by (vm_compute; tauto).
  split; [exact Hq|].
  assert (Hi : (3 < List.length (QuestionnaireTables.question_options q))%nat)
    by (vm_compute; lia).
  exact (proj1 (proj2 (predefined_options_resolve_to_themselves
                         "Incident Response" q 3 Hq Hi))).
Defined.

(** X15: [generate_finding_from_gap] never gives a priority below
    Medium.  On the scale Medium, High, Critical the priority is Medium
    raised by one step when the domain is one of the four high-priority
    domains and by one more step when the lower-cased gap description
    contains "no" or "never"; the finding carries the domain, control
    and gap text it was given. *)
Theorem finding_from_gap_priority :
  forall domain control_id control_name gap,
    let f := QuestionnaireTables.generate_finding_from_gap
               domain control_id control_name gap in
    priority_level (QuestionnaireTables.gap_priority f)
    = (2 + (if QuestionnaireTables.str_in_list
                 domain QuestionnaireTables.high_priority_domains
            then 1 else 0)
         + (if QuestionnaireTables.mentions_absence gap then 1 else 0))%nat
    /\ QuestionnaireTables.gap_priority f <> LOW
    /\ QuestionnaireTables.gap_priority f <> INFO
    /\ QuestionnaireTables.gap_domain f = domain
    /\ QuestionnaireTables.gap_control_id f = control_id
    /\ QuestionnaireTables.gap_description f = gap.
Proof.
  intros domain control_id control_name gap f. unfold f.
  unfold QuestionnaireTables.generate_finding_from_gap.
  cbn [QuestionnaireTables.gap_priority QuestionnaireTables.gap_domain
       QuestionnaireTables.gap_control_id
       QuestionnaireTables.gap_description].
  destruct (QuestionnaireTables.str_in_list
              domain QuestionnaireTables.high_priority_domains),
           (QuestionnaireTables.mentions_absence gap);
    cbn; repeat split; try reflexivity; intros H; discriminate H.
Qed.

(* ================================================================== *)
(** ** The catalog index built by the parser and the domain score *)

Lemma organize_step_get acc c d :
  PyDict.get (CCFParser.organize_step acc c) d
  = if String.eqb (ctl_domain c) d
    then Some (match PyDict.get acc d with
               | Some l => l ++ [c]
               | None => [c]
               end)%list
    else PyDict.get acc d.
Proof.
  unfold CCFParser.organize_step, PyDict.mem.
  destruct (PyDict.get acc (ctl_domain c)) as [l|] eqn:E.
  - rewrite E.
    destruct (String.eqb (ctl_domain c) d) eqn:Ed.
    + apply String.eqb_eq in Ed. subst d.
      now rewrite PyDictFacts.get_set_same, E.
    + apply String.eqb_neq in Ed. now apply PyDictFacts.get_set_other.
  - rewrite PyDictFacts.get_set_same.
    destruct (String.eqb (ctl_domain c) d) eqn:Ed.
    + apply String.eqb_eq in Ed. subst d.
      now rewrite PyDictFacts.get_set_same, E.
    + apply String.eqb_neq in Ed.
      now rewrite !PyDictFacts.get_set_other by assumption.
Qed.

Lemma organize_step_NoDup acc c :
  NoDup (PyDict.keys acc) ->
  NoDup (PyDict.keys (CCFParser.organize_step acc c)).
Proof.
  intros H. unfold CCFParser.organize_step.
  destruct (PyDict.mem acc (ctl_domain c)).
  - destruct (PyDict.get acc (ctl_domain c)); auto.
    now apply PyDictFacts.NoDup_keys_set.
  - destruct (PyDict.get _ (ctl_domain c)).
    + now apply PyDictFacts.NoDup_keys_set, PyDictFacts.NoDup_keys_set.
    + now apply PyDictFacts.NoDup_keys_set.
Qed.

Lemma organize_get cs acc d :
  PyDict.get (CCFParser._organize_by_domain cs acc) d
  = match PyDict.get acc d with
    | Some l => Some (l ++ controls_of_domain cs d)%list
    | None => if is_empty (controls_of_domain cs d) then None
              else Some (controls_of_domain cs d)
    end.
Proof.
  unfold CCFParser._organize_by_domain, controls_of_domain.
  revert acc. induction cs as [|c cs IH]; intros acc; simpl.
  - destruct (PyDict.get acc d); [now rewrite app_nil_r|reflexivity].
  - rewrite IH, organize_step_get.
    destruct (String.eqb (ctl_domain c) d); simpl.
    + destruct (PyDict.get acc d); [now rewrite <- app_assoc|reflexivity].
    + reflexivity.
Qed.

Lemma organize_NoDup cs acc :
  NoDup (PyDict.keys acc) ->
  NoDup (PyDict.keys (CCFParser._organize_by_domain cs acc)).
Proof.
  unfold CCFParser._organize_by_domain.
  revert acc. induction cs as [|c cs IH]; intros acc H; simpl; auto.
  now apply IH, organize_step_NoDup.
Qed.

Lemma get_map_values {V W} (f : V -> W) (d : dict V) k :
  PyDict.get (map (fun kv => (fst kv, f (snd kv))) d) k
  = option_map f (PyDict.get d k).
Proof.
  induction d as [|[k' v] d IH]; simpl; auto.
  now destruct (String.eqb k' k).
Qed.

Lemma exported_domains_get ds d :
  NoDup (PyDict.keys ds) ->
  PyDict.get (CCFParser.exported_domains ds) d
  = option_map (map ctl_ccf_id) (PyDict.get ds d).
Proof.
  intros H. unfold CCFParser.exported_domains, PyDict.items.
  rewrite PyDictFacts.of_list_NoDup.
  - apply get_map_values.
  - rewrite map_map. exact H.
Qed.

Lemma ccf_domains_get cs d :
  PyDict.get (CCFParser.ccf_domains cs) d
  = (if is_empty (controls_of_domain cs d) then None
     else Some (map ctl_ccf_id (controls_of_domain cs d))).
Proof.
  unfold CCFParser.ccf_domains.
  rewrite exported_domains_get by (apply organize_NoDup; constructor).
  rewrite organize_get. simpl. now destruct (controls_of_domain cs d).
Qed.

Lemma ccf_domains_ids cs d :
  match PyDict.get (CCFParser.ccf_domains cs) d with
  | Some l => l
  | None => []
  end = map ctl_ccf_id (controls_of_domain cs d).
Proof.
  rewrite ccf_domains_get. now destruct (controls_of_domain cs d).
Qed.

(** X16: [_organize_by_domain], started on a fresh parser, groups the
    catalog by the domain field: a domain name maps to exactly the
    controls carrying it, in catalog order, and a name no control
    carries is not a key; no key occurs twice.  The index exported to
    the data file lists, under the same keys, the identifiers of those
    controls. *)
Theorem organize_by_domain_groups :
  forall (cs : list Control) (d : string),
    PyDict.get (CCFParser._organize_by_domain cs []) d
    = (if is_empty (controls_of_domain cs d) then None
       else Some (controls_of_domain cs d))
    /\ NoDup (PyDict.keys (CCFParser._organize_by_domain cs []))
    /\ PyDict.get (CCFParser.ccf_domains cs) d
       = (if is_empty (controls_of_domain cs d) then None
          else Some (map ctl_ccf_id (controls_of_domain cs d))).
Proof.
  intros cs d.
  assert (Hnd : NoDup (PyDict.keys (CCFParser._organize_by_domain cs [])))
    by (apply organize_NoDup; constructor).
  assert (Hg := organize_get cs [] d). simpl in Hg.
  split; [exact Hg|]. split; [exact Hnd|]. apply ccf_domains_get.
Qed.

Lemma NoDup_map_In_inj {A B} (f : A -> B) (l : list A) x y :
  NoDup (map f l) -> In x l -> In y l -> f x = f y -> x = y.
Proof.
  induction l as [|a l IH]; simpl; [tauto|].
  intros Hnd Hx Hy E. inversion Hnd as [|? ? Hnotin Hnd']; subst.
  destruct Hx as [->|Hx], Hy as [->|Hy]; auto.
  - exfalso. apply Hnotin. rewrite E. now apply in_map.
  - exfalso. apply Hnotin. rewrite <- E. now apply in_map.
Qed.

Lemma get_control_by_id_In cs id c :
  get_control_by_id cs id = Some c -> In c cs /\ ctl_ccf_id c = id.
Proof.
  induction cs as [|c' cs IH]; simpl; [discriminate|].
  destruct (String.eqb (ctl_ccf_id c') id) eqn:E.
  - intros [= ->]. apply String.eqb_eq in E. auto.
  - intros H. destruct (IH H). auto.
Qed.

Lemma in_ids_of_domain cs d c :
  NoDup (map ctl_ccf_id cs) -> In c cs ->
  (In (ctl_ccf_id c) (map ctl_ccf_id (controls_of_domain cs d))
   <-> ctl_domain c = d).
Proof.
  intros Hnd Hc. unfold controls_of_domain. split.
  - intros H. apply in_map_iff in H. destruct H as [c' [E Hc']].
    apply filter_In in Hc'. destruct Hc' as [Hc' Hd].
    apply String.eqb_eq in Hd.
    now rewrite <- (NoDup_map_In_inj ctl_ccf_id cs c' c Hnd Hc' Hc E).
  - intros Hd. apply in_map. apply filter_In. split; [exact Hc|].
    now apply String.eqb_eq.
Qed.

Lemma controls_of_domain_nil cs d :
  ~ In d (map ctl_domain cs) -> controls_of_domain cs d = [].
Proof.
  unfold controls_of_domain. induction cs as [|c cs IH]; simpl; auto.
  intros Hno. destruct (String.eqb (ctl_domain c) d) eqn:Ed.
  - apply String.eqb_eq in Ed. exfalso. apply Hno. now left.
  - apply IH. intros H. apply Hno. now right.
Qed.

(** X17: on a catalog with distinct control identifiers whose domain
    index was written by the parser, [get_controls_for_domain] returns
    exactly the catalog controls whose domain field is the given name,
    in catalog order, in every state of the audit; for a name no control
    carries it returns the empty list. *)
Theorem controls_for_domain_by_field :
  forall cs ops d,
    NoDup (map ctl_ccf_id cs) ->
    let w := exec_all ops (init cs (CCFParser.ccf_domains cs)) in
    get_controls_for_domain (self w) d = controls_of_domain cs d
    /\ (~ In d (map ctl_domain cs) -> get_controls_for_domain (self w) d = []).
Proof.
  intros cs ops d Hnd w.
  assert (E : get_controls_for_domain (self w) d = controls_of_domain cs d).
  { unfold get_controls_for_domain, w.
    rewrite exec_all_controls, exec_all_domains. simpl.
    rewrite ccf_domains_ids. unfold controls_of_domain at 2.
    apply filter_ext_in. intros c Hc.
    destruct (String.eqb (ctl_domain c) d) eqn:Ed.
    - apply String.eqb_eq in Ed. apply existsb_exists.
      exists (ctl_ccf_id c). split; [|apply String.eqb_refl].
      now apply in_ids_of_domain.
    - apply String.eqb_neq in Ed.
      destruct (existsb _ _) eqn:Ex; [|reflexivity].
      apply existsb_exists in Ex. destruct Ex as [k [Hk Ek]].
      apply String.eqb_eq in Ek. subst k.
      apply in_ids_of_domain in Hk; auto. contradiction. }
  split; [exact E|]. intros Hno. rewrite E.
  now apply controls_of_domain_nil.
Qed.

Lemma controls_for_domain_by_field_witness :
  NoDup (map ctl_ccf_id sample_controls)
  /\ map ctl_ccf_id
         (get_controls_for_domain
            (self (exec_all [] (init sample_controls
                                     (CCFParser.ccf_domains sample_controls))))
            "IAM")
     = ["IAM-01"; "IAM-02"]%string.
Proof.
  assert (Hnd : NoDup (map ctl_ccf_id sample_controls)).
  { simpl. repeat constructor; simpl; intuition discriminate. }
  split; [exact Hnd|].
  rewrite (proj1 (controls_for_domain_by_field sample_controls [] "IAM" Hnd)).
  reflexivity.
Defined.

(** Whatever holds of every record built from the catalog entry found
    for its identifier holds of every record in a store grown by
    calls. *)
Lemma exec_all_catalog_entries cs (P : string -> ControlAssessment -> Prop) :
  (forall c id st ev gs nt,
      get_control_by_id cs id = Some c ->
      P id (assessment_of c id st ev gs nt)) ->
  forall ops w,
    controls (self w) = cs ->
    (forall k a, In (k, a) (assessments (self w)) -> P k a) ->
    forall k a, In (k, a) (assessments (self (exec_all ops w))) -> P k a.
Proof.
  intros Hnew. induction ops as [|o ops IH]; intros w Hcs Hw; simpl; auto.
  apply IH; [now rewrite exec_controls|]. intros k a.
  destruct o as [id st ev gs nt|f|s]; simpl; run_method; auto.
  destruct (get_control_by_id (controls (self w)) id) as [c|] eqn:E;
    simpl; auto.
  intros Hin. apply PyDictFacts.In_set in Hin.
  destruct Hin as [[-> ->]|Hin]; auto. apply Hnew. now rewrite <- Hcs.
Qed.

Lemma total_score_perm l l' :
  Permutation l l' -> total_score l == total_score l'.
Proof.
  induction 1 as [|x l l' _ IH|x y l|l l' l'' _ IH1 _ IH2].
  - reflexivity.
  - rewrite !total_score_cons, IH. reflexivity.
  - rewrite !total_score_cons. ring.
  - now rewrite IH1.
Qed.

Lemma mean_score_perm l l' :
  Permutation l l' -> mean_score l == mean_score l'.
Proof.
  intros H. pose proof (Permutation_length H) as Hlen.
  pose proof (total_score_perm _ _ H) as Hsum.
  destruct l as [|x l], l' as [|x' l']; try discriminate.
  - reflexivity.
  - unfold mean_score. rewrite Hsum, Hlen. reflexivity.
Qed.

Lemma store_values_NoDup (d : dict ControlAssessment) :
  store_ok d -> NoDup (PyDict.values d).
Proof.
  intros [Hnd Hid]. apply (NoDup_map_inv ccf_id).
  unfold PyDict.values. rewrite map_map.
  replace (map (fun kv => ccf_id (snd kv)) d) with (PyDict.keys d);
    [exact Hnd|].
  unfold PyDict.keys. apply map_ext_in. intros [k a] Hin. simpl.
  symmetry. now apply Hid.
Qed.

Lemma domain_assessed_NoDup a d :
  store_ok (assessments a) ->
  NoDup (match PyDict.get (domains a) d with Some l => l | None => [] end) ->
  NoDup (domain_assessed_controls a d).
Proof.
  intros [_ Hid] Hids. unfold domain_assessed_controls.
  induction Hids as [|cid ids Hnotin Hids IH]; simpl; [constructor|].
  destruct (PyDict.get (assessments a) cid) as [x|] eqn:E; auto.
  destruct (is_applicable x); auto. simpl. constructor; auto.
  intros Hin. apply in_flat_map in Hin. destruct Hin as [cid' [Hc' Hx]].
  destruct (PyDict.get (assessments a) cid') as [y|] eqn:E'; [|destruct Hx].
  destruct (is_applicable y); [|destruct Hx].
  destruct Hx as [->|[]].
  apply PyDictFacts.get_Some_In, Hid in E.
  apply PyDictFacts.get_Some_In, Hid in E'. congruence.
Qed.

(** X18: with a catalog of distinct identifiers whose domain index was
    written by the parser, the list [calculate_domain_score] averages
    holds, in every state of the audit, exactly the stored assessments
    whose own domain field is the given name and whose status is not
    NotApplicable, each once; so the domain score is the mean of the
    scores of those records. *)
Theorem domain_score_by_domain_field :
  forall cs ops d,
    NoDup (map ctl_ccf_id cs) ->
    let a := self (exec_all ops (init cs (CCFParser.ccf_domains cs))) in
    Permutation (domain_assessed_controls a d) (scored_by_domain_field a d)
    /\ calculate_domain_score a d == mean_score (scored_by_domain_field a d).
Proof.
  intros cs ops d Hnd a.
  set (w := exec_all ops (init cs (CCFParser.ccf_domains cs))) in *.
  assert (Hok : store_ok (assessments a))
    by apply exec_all_store_ok, init_store_ok.
  assert (Hcat : forall k x, In (k, x) (assessments a) ->
             exists c, get_control_by_id cs k = Some c
                       /\ domain x = ctl_domain c).
  { apply (exec_all_catalog_entries cs
             (fun k x => exists c, get_control_by_id cs k = Some c
                                   /\ domain x = ctl_domain c)).
    - intros c id st ev gs nt Hc. exists c. auto.
    - reflexivity.
    - simpl. tauto. }
  assert (Hids : match PyDict.get (domains a) d with
                 | Some l => l
                 | None => []
                 end = map ctl_ccf_id (controls_of_domain cs d)).
  { unfold a, w. rewrite exec_all_domains. simpl. apply ccf_domains_ids. }
  assert (Hperm : Permutation (domain_assessed_controls a d)
                              (scored_by_domain_field a d)).
  { apply NoDup_Permutation.
    - apply domain_assessed_NoDup; [exact Hok|]. rewrite Hids.
      unfold controls_of_domain.
      clear -Hnd. induction cs as [|c cs IH]; simpl; [constructor|].
      simpl in Hnd. inversion Hnd as [|? ? Hnotin Hnd']; subst.
      destruct (String.eqb (ctl_domain c) d); simpl; auto.
      constructor; auto. intros H. apply Hnotin.
      apply in_map_iff in H. destruct H as [c' [E Hc']].
      apply filter_In in Hc'. rewrite <- E. apply in_map. tauto.
    - apply NoDup_filter. now apply store_values_NoDup.
    - intros x. unfold scored_by_domain_field, domain_assessed_controls.
      rewrite Hids, in_flat_map, filter_In. split.
      + intros [cid [Hcid Hx]].
        destruct (PyDict.get (assessments a) cid) as [y|] eqn:E;
          [|destruct Hx].
        destruct (is_applicable y) eqn:Ey; [|destruct Hx].
        destruct Hx as [->|[]].
        apply PyDictFacts.get_Some_In in E.
        split; [unfold PyDict.values; change x with (snd (cid, x));
                now apply in_map|].
        rewrite Ey, andb_true_r. apply String.eqb_eq.
        destruct (Hcat cid x E) as [c [Hc ->]].
        apply get_control_by_id_In in Hc. destruct Hc as [Hc Hk].
        subst cid. now apply (in_ids_of_domain cs d c Hnd Hc).
      + intros [Hx Hp]. apply andb_true_iff in Hp. destruct Hp as [Hd Hap].
        apply String.eqb_eq in Hd.
        unfold PyDict.values in Hx. apply in_map_iff in Hx.
        destruct Hx as [[k y] [Ey Hin]]. simpl in Ey. subst y.
        exists k. split.
        * destruct (Hcat k x Hin) as [c [Hc Hdc]].
          apply get_control_by_id_In in Hc. destruct Hc as [Hc Hk].
          subst k. apply (in_ids_of_domain cs d c Hnd Hc). congruence.
        * destruct Hok as [Hkeys _].
          rewrite (PyDictFacts.In_get _ _ _ _ Hkeys Hin), Hap. now left. }
  split; [exact Hperm|]. unfold calculate_domain_score.
  now apply mean_score_perm.
Qed.

Lemma domain_score_by_domain_field_witness :
  NoDup (map ctl_ccf_id sample_controls)
  /\ calculate_domain_score
       (self (exec_all [OpAssess "IAM-02" PARTIAL "" [] "";
                        OpAssess "CR-01" COMPLIANT "" [] "";
                        OpAssess "IAM-01" COMPLIANT "" [] ""]%string
                       (init sample_controls
                             (CCFParser.ccf_domains sample_controls))))
       "IAM"
     == 75.
Proof.
  assert (Hnd : NoDup (map ctl_ccf_id sample_controls)).
  { simpl. repeat constructor; simpl; intuition discriminate. }
  split; [exact Hnd|].
  rewrite (proj2 (domain_score_by_domain_field sample_controls
                    [OpAssess "IAM-02" PARTIAL "" [] "";
                     OpAssess "CR-01" COMPLIANT "" [] "";
                     OpAssess "IAM-01" COMPLIANT "" [] ""]%string
                    "IAM" Hnd)).
  vm_compute. reflexivity.
Defined.

(* ================================================================== *)
(** ** The code scanner's assessments and findings *)

Lemma exec_registry_other o w :
  (forall f, o <> OpAddFinding f) -> registry (exec o w) = registry w.
Proof.
  intros H. unfold registry.
  destruct o as [id st ev gs nt|f|s]; simpl; run_method; auto.
  - destruct (get_control_by_id (controls (self w)) id); auto.
  - exfalso. now apply (H f).
Qed.

Lemma exec_all_registry ops w :
  heap_ok w -> registry (exec_all ops w) = (registry w ++ added_findings ops)%list.
Proof.
  revert w. induction ops as [|o ops IH]; intros w Hok.
  - simpl. now rewrite app_nil_r.
  - change (exec_all (o :: ops) w) with (exec_all ops (exec o w)).
    rewrite IH by now apply exec_heap_ok.
    destruct o as [id st ev gs nt|f|s]; cbn [added_findings].
    + now rewrite exec_registry_other by discriminate.
    + destruct (exec_add_finding w f Hok) as [-> _].
      now rewrite <- app_assoc.
    + now rewrite exec_registry_other by discriminate.
Qed.

Lemma exec_in_catalog o w id : in_catalog w id -> in_catalog (exec o w) id.
Proof. unfold in_catalog. now rewrite exec_controls. Qed.

Lemma exec_all_in_catalog ops w id :
  in_catalog w id -> in_catalog (exec_all ops w) id.
Proof. unfold in_catalog. now rewrite exec_all_controls. Qed.

Lemma last_assessed_None ops id :
  last_assessed ops id = None -> existsb (assesses id) ops = false.
Proof.
  induction ops as [|o ops IH]; simpl; auto.
  destruct (last_assessed ops id); [discriminate|].
  rewrite IH by reflexivity. rewrite orb_false_r.
  destruct o as [id' st ev gs nt|f|s]; simpl; auto.
  destruct (String.eqb id' id); [discriminate|reflexivity].
Qed.

Lemma exec_all_last_assessed ops w id st gs :
  (forall k, In k (assessed_ids ops) -> in_catalog w k) ->
  last_assessed ops id = Some (st, gs) ->
  exists x, PyDict.get (assessments (self (exec_all ops w))) id = Some x
            /\ status x = st /\ gaps x = gs.
Proof.
  revert w. induction ops as [|o ops IH]; intros w Hcat; [discriminate|].
  change (exec_all (o :: ops) w) with (exec_all ops (exec o w)).
  cbn [last_assessed].
  destruct (last_assessed ops id) as [r|] eqn:E.
  - intros [= ->]. apply IH; [|reflexivity].
    intros k Hk. apply exec_in_catalog, Hcat.
    destruct o; simpl; auto.
  - destruct o as [id' st' ev gs' nt|f|s]; try discriminate.
    destruct (String.eqb id' id) eqn:Eid; [|discriminate].
    apply String.eqb_eq in Eid. subst id'. intros [= -> ->].
    rewrite exec_all_get_other by now apply last_assessed_None.
    assert (Hin : in_catalog w id) by (apply Hcat; simpl; now left).
    destruct (get_control_by_id_Some _ _ Hin) as [c [Hc _]].
    simpl. rewrite (assess_control_found _ _ _ _ _ _ _ Hc). simpl.
    rewrite PyDictFacts.get_set_same. eexists. repeat split.
Qed.

Lemma exec_all_app ops1 ops2 w :
  exec_all (ops1 ++ ops2) w = exec_all ops2 (exec_all ops1 w).
Proof. unfold exec_all. apply fold_left_app. Qed.

Lemma scanner_ready_exec_all ops w :
  scanner_ready w -> scanner_ready (exec_all ops w).
Proof.
  intros [Hh Hc]. split.
  - now apply exec_all_heap_ok.
  - intros id Hid. now apply exec_all_in_catalog, Hc.
Qed.

Lemma runs_bind m1 m2 c1 c2 :
  runs m1 c1 -> runs m2 c2 ->
  runs (bind m1 (fun _ => m2)) (ScannerCalls.then_calls c1 c2).
Proof.
  intros H1 H2 w Hw. unfold bind. rewrite (H1 w Hw).
  rewrite (H2 _ (scanner_ready_exec_all _ _ Hw)).
  unfold ScannerCalls.then_calls. rewrite exec_all_app.
  rewrite exec_all_registry by apply Hw.
  now rewrite length_app, Nat.add_comm.
Qed.

Lemma runs_assess id st ev gs :
  In id ScannerCalls.scanner_controls ->
  runs (CodeSecurityScanner.assess id st ev gs)
       (fun _ => [OpAssess id st ev gs ""%string]).
Proof.
  intros Hid w [_ Hc]. unfold CodeSecurityScanner.assess, bind.
  destruct (get_control_by_id_Some _ _ (Hc id Hid)) as [c [E _]].
  simpl. now rewrite !(assess_control_found _ _ _ _ _ _ _ E).
Qed.

Lemma runs_add_finding id title description p :
  runs (CodeSecurityScanner._add_finding id title description p)
       (fun k => [OpAddFinding
                    (ScannerCalls.scanner_finding k id title description p)]).
Proof. intros w _. reflexivity. Qed.

Lemma runs_flagged id gs title description p :
  In id ScannerCalls.scanner_controls ->
  runs (bind (CodeSecurityScanner.assess id NON_COMPLIANT "" gs)
             (fun _ => CodeSecurityScanner._add_finding
                         id title description p))
       (ScannerCalls.flagged id gs title description p).
Proof.
  intros Hid w Hw.
  pose proof (runs_bind _ _ _ _ (runs_assess id NON_COMPLIANT "" gs Hid)
                (runs_add_finding id title description p) w Hw) as H.
  rewrite H. reflexivity.
Qed.

Lemma runs_nothing : runs (ret tt) ScannerCalls.nothing.
Proof. intros w _. reflexivity. Qed.

Lemma runs_assess_controls r :
  runs (CodeSecurityScanner._assess_controls r) (ScannerCalls.scanner_calls r).
Proof.
  unfold CodeSecurityScanner._assess_controls, ScannerCalls.scanner_calls.
  repeat apply runs_bind.
  - unfold ScannerCalls.asset_management.
    destruct (CodeSecurityScanner.has_documentation r).
    + apply runs_assess. simpl. tauto.
    + apply runs_flagged. simpl. tauto.
  - unfold ScannerCalls.authentication.
    destruct (0 <? _)%nat; [apply runs_flagged; simpl; tauto|].
    destruct (CodeSecurityScanner.mfa_implemented r);
      apply runs_assess; simpl; tauto.
  - unfold ScannerCalls.cryptography.
    destruct (0 <? _)%nat; [apply runs_flagged; simpl; tauto|].
    destruct (CodeSecurityScanner.strong_crypto_found r);
      [apply runs_assess; simpl; tauto|apply runs_nothing].
  - unfold ScannerCalls.data_protection.
    destruct (CodeSecurityScanner.encryption_in_transit r).
    + apply runs_assess. simpl. tauto.
    + apply runs_flagged. simpl. tauto.
  - unfold ScannerCalls.secrets_management.
    destruct (0 <? _)%nat; [apply runs_flagged; simpl; tauto|].
    apply runs_nothing.
  - unfold ScannerCalls.logging.
    destruct (CodeSecurityScanner.has_audit_logging r);
      [apply runs_assess; simpl; tauto|].
    destruct (CodeSecurityScanner.has_logging r);
      apply runs_assess; simpl; tauto.
  - unfold ScannerCalls.input_validation.
    destruct (0 <? _)%nat; [apply runs_flagged; simpl; tauto|].
    apply runs_nothing.
Qed.

Lemma scanner_calls_table r k :
  scanner_table_ok (ScannerCalls.scanner_calls r k) = true
  /\ map finding_id (added_findings (ScannerCalls.scanner_calls r k))
     = sequential_ids k
         (List.length (added_findings (ScannerCalls.scanner_calls r k))).
Proof.
  destruct r as [doc [|auth] mfa [|weak] strong transit [|secrets]
                 audit logs [|sqli]];
    destruct doc, mfa, strong, transit, audit, logs;
    split; vm_compute; reflexivity.
Qed.

Lemma parse_nat_of_nat n : parse_nat (PyStr.of_nat n) = Some n.
Proof.
  unfold parse_nat, PyStr.of_nat. rewrite NilEmpty.usu. simpl.
  now rewrite DecimalNat.Unsigned.of_to.
Qed.

Lemma parse_nat_zeros k s n :
  parse_nat s = Some n ->
  parse_nat (CodeSecurityScanner.zeros k ++ s) = Some n.
Proof.
  intros H. induction k as [|k IH]; [exact H|].
  cbn [CodeSecurityScanner.zeros String.append].
  unfold parse_nat in *. cbn [NilEmpty.uint_of_string].
  destruct (NilEmpty.uint_of_string (CodeSecurityScanner.zeros k ++ s))
    as [d|]; [|discriminate].
  simpl in *. exact IH.
Qed.

(** Zero padding loses nothing: the number can be read back. *)
Lemma parse_nat_format_0d width n :
  parse_nat (CodeSecurityScanner.format_0d width n) = Some n.
Proof.
  unfold CodeSecurityScanner.format_0d.
  apply parse_nat_zeros, parse_nat_of_nat.
Qed.

Lemma finding_id_inj k j j' :
  ("F-" ++ CodeSecurityScanner.format_0d 3 (j + k + 1)
   = "F-" ++ CodeSecurityScanner.format_0d 3 (j' + k + 1))%string ->
  j = j'.
Proof.
  intros H. simpl in H. injection H as H.
  apply (f_equal parse_nat) in H. rewrite !parse_nat_format_0d in H.
  injection H as H. lia.
Qed.

Lemma sequential_ids_NoDup k n : NoDup (sequential_ids k n).
Proof.
  unfold sequential_ids.
  apply Finite.Injective_map_NoDup_in; [|apply seq_NoDup].
  intros j j' _ _. apply finding_id_inj.
Qed.

(** X19: on a catalog that holds the seven controls the scanner may
    assess, [_assess_controls] returns normally for every scan result.
    It appends at most six findings; each of them names exactly one
    control, has a priority other than Low and Info, and its control is
    then stored as NonCompliant with a gap listed.  AM-01, IAM-05,
    DM-10 and SM-01 are assessed in every case, never as NotApplicable
    or NotAssessed, and the record of any identifier outside the seven
    is left as it was. *)
Theorem scanner_assessment_outcome :
  forall r w,
    scanner_ready w ->
    exists w' new,
      CodeSecurityScanner._assess_controls r w = (inr tt, w')
      /\ registry w' = (registry w ++ new)%list
      /\ (List.length new <= 6)%nat
      /\ (forall f, In f new ->
            priority f <> LOW /\ priority f <> INFO
            /\ exists cid x g gs,
                 affected_controls f = [cid]
                 /\ PyDict.get (assessments (self w')) cid = Some x
                 /\ status x = NON_COMPLIANT /\ gaps x = g :: gs)
      /\ (forall id, In id ["AM-01"; "IAM-05"; "DM-10"; "SM-01"]%string ->
            exists x, PyDict.get (assessments (self w')) id = Some x
                      /\ status x <> NOT_APPLICABLE
                      /\ status x <> NOT_ASSESSED)
      /\ (forall id, ~ In id ScannerCalls.scanner_controls ->
            PyDict.get (assessments (self w')) id
            = PyDict.get (assessments (self w)) id).
Proof.
  intros r w Hw.
  set (ops := ScannerCalls.scanner_calls r (List.length (registry w))).
  exists (exec_all ops w), (added_findings ops).
  destruct (scanner_calls_table r (List.length (registry w))) as [Hok _].
  fold ops in Hok. unfold scanner_table_ok in Hok.
  apply andb_true_iff in Hok. destruct Hok as [Hok Hfour].
  apply andb_true_iff in Hok. destruct Hok as [Hok Hids].
  apply andb_true_iff in Hok. destruct Hok as [Hgaps Hlen].
  assert (Hcat : forall k, In k (assessed_ids ops) -> in_catalog w k).
  { intros k Hk. apply Hw. rewrite forallb_forall in Hids.
    specialize (Hids k Hk). apply existsb_exists in Hids.
    destruct Hids as [k' [Hk' E]]. apply String.eqb_eq in E. now subst. }
  split; [apply runs_assess_controls; exact Hw|].
  split; [apply exec_all_registry, Hw|].
  split; [now apply Nat.leb_le|].
  split; [|split].
  - intros f Hf. unfold findings_follow_gaps in Hgaps.
    rewrite forallb_forall in Hgaps. specialize (Hgaps f Hf).
    apply andb_true_iff in Hgaps. destruct Hgaps as [Hgaps Hinfo].
    apply andb_true_iff in Hgaps. destruct Hgaps as [Hgap Hlow].
    split; [intros E; rewrite E in Hlow; discriminate|].
    split; [intros E; rewrite E in Hinfo; discriminate|].
    destruct (affected_controls f) as [|cid [|? ?]]; try discriminate.
    destruct (last_assessed ops cid) as [[st gs]|] eqn:E; try discriminate.
    destruct st; try discriminate. destruct gs as [|g gs]; try discriminate.
    destruct (exec_all_last_assessed ops w cid _ _ Hcat E)
      as [x [Hx [Hst Hgs]]].
    exists cid, x, g, gs. auto.
  - intros id Hid. rewrite forallb_forall in Hfour.
    specialize (Hfour id Hid).
    destruct (last_assessed ops id) as [[st gs]|] eqn:E; try discriminate.
    destruct (exec_all_last_assessed ops w id _ _ Hcat E)
      as [x [Hx [Hst _]]].
    exists x. split; [exact Hx|]. rewrite Hst.
    destruct st; simpl in Hfour; split; discriminate.
  - intros id Hid. apply exec_all_get_other.
    destruct (existsb (assesses id) ops) eqn:E; [|reflexivity].
    exfalso. apply Hid. apply existsb_exists in E.
    destruct E as [o [Ho Eo]]. rewrite forallb_forall in Hids.
    destruct o as [id' st ev gs nt|f|s]; try discriminate.
    simpl in Eo. apply String.eqb_eq in Eo. subst id'.
    assert (Hin : In id (assessed_ids ops)).
    { clear -Ho. induction ops as [|o ops IH]; [destruct Ho|].
      destruct Ho as [->|Ho]; [now left|].
      destruct o; simpl; auto. }
    specialize (Hids id Hin). apply existsb_exists in Hids.
    destruct Hids as [k' [Hk' E]]. apply String.eqb_eq in E. now subst.
Qed.

Lemma scanner_ready_fresh : scanner_ready (init scanner_catalog []).
Proof.
  split; [simpl; lia|].
  intros id Hid. unfold in_catalog. simpl. exact Hid.
Qed.

Lemma scanner_assessment_outcome_witness :
  scanner_ready (init scanner_catalog [])
  /\ exists w' new,
       CodeSecurityScanner._assess_controls sample_scan
         (init scanner_catalog []) = (inr tt, w')
       /\ registry w' = (registry (init scanner_catalog []) ++ new)%list
       /\ (List.length new <= 6)%nat.
Proof.
  split; [exact scanner_ready_fresh|].
  destruct (scanner_assessment_outcome sample_scan _ scanner_ready_fresh)
    as [w' [new [H1 [H2 [H3 _]]]]].
  exists w', new. auto.
Defined.

(** X20: the findings the scanner adds are numbered by their position
    in the registry: when it starts on a registry of [k] findings, the
    new findings get the identifiers F-(k+1), F-(k+2), ..., zero-padded
    to three digits, and these identifiers are pairwise distinct. *)
Theorem scanner_finding_ids :
  forall r w,
    scanner_ready w ->
    exists w' new,
      CodeSecurityScanner._assess_controls r w = (inr tt, w')
      /\ registry w' = (registry w ++ new)%list
      /\ map finding_id new
         = sequential_ids (List.length (registry w)) (List.length new)
      /\ NoDup (map finding_id new).
Proof.
  intros r w Hw.
  set (ops := ScannerCalls.scanner_calls r (List.length (registry w))).
  exists (exec_all ops w), (added_findings ops).
  destruct (scanner_calls_table r (List.length (registry w))) as [_ Hids].
  fold ops in Hids.
  split; [apply runs_assess_controls; exact Hw|].
  split; [apply exec_all_registry, Hw|].
  split; [exact Hids|]. rewrite Hids. apply sequential_ids_NoDup.
Qed.

Lemma scanner_finding_ids_witness :
  scanner_ready (init scanner_catalog [])
  /\ exists w' new,
       CodeSecurityScanner._assess_controls sample_scan
         (init scanner_catalog []) = (inr tt, w')
       /\ map finding_id new
          = ["F-001"; "F-002"; "F-003"; "F-004"; "F-005"]%string.
Proof.
  split; [exact scanner_ready_fresh|].
  destruct (scanner_finding_ids sample_scan _ scanner_ready_fresh)
    as [w' [new [H1 [H2 [H3 _]]]]].
  exists w', new. split; [exact H1|].
  assert (E : registry w' = registry (snd (CodeSecurityScanner._assess_controls
                                            sample_scan
                                            (init scanner_catalog []))))
    by now rewrite H1.
  rewrite H2 in E. vm_compute in E. subst new. reflexivity.
Defined.

(** X21: when the catalog lacks a control the scanner wants to assess,
    [_assess_controls] stops with the not-found error at that control
    and rolls nothing back.  With AM-01 and IAM-05 in the catalog, CR-04
    missing, and a scan that found weak or strong cryptography, the call
    raises for CR-04; AM-01 and IAM-05 are then already recorded, and
    the controls of the later blocks (DM-10, CR-02, SM-01, DM-11) are
    left as they were. *)
Theorem scanner_stops_at_missing_control :
  forall r w,
    in_catalog w "AM-01" ->
    in_catalog w "IAM-05" ->
    ~ in_catalog w "CR-04" ->
    (0 <? CodeSecurityScanner.weak_crypto_count r)%nat
    || CodeSecurityScanner.strong_crypto_found r = true ->
    exists w',
      CodeSecurityScanner._assess_controls r w
      = (inl (ValueError (not_found_msg "CR-04")), w')
      /\ PyDict.get (assessments (self w')) "AM-01" <> None
      /\ PyDict.get (assessments (self w')) "IAM-05" <> None
      /\ forall id, In id ["CR-04"; "DM-10"; "CR-02"; "SM-01"; "DM-11"]%string ->
                    PyDict.get (assessments (self w')) id
                    = PyDict.get (assessments (self w)) id.
Proof.
  intros r w H1 H2 H3 Htrig.
  destruct (get_control_by_id_Some _ _ H1) as [c1 [E1 _]].
  destruct (get_control_by_id_Some _ _ H2) as [c2 [E2 _]].
  pose proof (get_control_by_id_None _ _ H3) as E3.
  assert (Hother : forall (d : dict ControlAssessment) a1 a2 id,
             In id ["CR-04"; "DM-10"; "CR-02"; "SM-01"; "DM-11"]%string ->
             PyDict.get (PyDict.set (PyDict.set d "AM-01" a1) "IAM-05" a2) id
             = PyDict.get d id).
  { intros d a1 a2 id Hid.
    rewrite !PyDictFacts.get_set_other; auto;
      intros <-; simpl in Hid; intuition discriminate. }
  assert (Ham : forall (d : dict ControlAssessment) a1 a2,
             PyDict.get (PyDict.set (PyDict.set d "AM-01" a1) "IAM-05" a2)
                        "AM-01" <> None).
  { intros d a1 a2. rewrite PyDictFacts.get_set_other by discriminate.
    rewrite PyDictFacts.get_set_same. discriminate. }
  assert (Hiam : forall (d : dict ControlAssessment) a1 a2,
             PyDict.get (PyDict.set (PyDict.set d "AM-01" a1) "IAM-05" a2)
                        "IAM-05" <> None).
  { intros d a1 a2. rewrite PyDictFacts.get_set_same. discriminate. }
  destruct r as [doc auth mfa weak strong transit secrets audit logs sqli].
  cbn [CodeSecurityScanner.weak_crypto_count
       CodeSecurityScanner.strong_crypto_found] in Htrig.
  unfold CodeSecurityScanner._assess_controls,
    CodeSecurityScanner.assess, CodeSecurityScanner._add_finding.
  cbn [CodeSecurityScanner.has_documentation
       CodeSecurityScanner.auth_issues_count
       CodeSecurityScanner.mfa_implemented
       CodeSecurityScanner.weak_crypto_count
       CodeSecurityScanner.strong_crypto_found].
  destruct doc, (0 <? auth)%nat, mfa, (0 <? weak)%nat, strong;
    try discriminate Htrig;
    run_method; rewrite ?E1; simpl; rewrite ?E2; simpl; rewrite ?E3; simpl;
    (eexists; split; [reflexivity|]; simpl;
     split; [apply Ham|]; split; [apply Hiam|apply Hother]).
Qed.

Lemma scanner_stops_at_missing_control_witness :
  let r := {| CodeSecurityScanner.has_documentation := true;
              CodeSecurityScanner.auth_issues_count := 0;
              CodeSecurityScanner.mfa_implemented := true;
              CodeSecurityScanner.weak_crypto_count := 2;
              CodeSecurityScanner.strong_crypto_found := false;
              CodeSecurityScanner.encryption_in_transit := true;
              CodeSecurityScanner.secrets_count := 0;
              CodeSecurityScanner.has_audit_logging := true;
              CodeSecurityScanner.has_logging := true;
              CodeSecurityScanner.sql_injection_risks := 0 |} in
  exists w',
    CodeSecurityScanner._assess_controls r
      (init (firstn 2 scanner_catalog) [])
    = (inl (ValueError "Control CR-04 not found"), w')
    /\ PyDict.get (assessments (self w')) "AM-01" <> None.
Proof.
  intros r.
  assert (H1 : in_catalog (init (firstn 2 scanner_catalog) []) "AM-01")
    by (unfold in_catalog; simpl; tauto).
  assert (H2 : in_catalog (init (firstn 2 scanner_catalog) []) "IAM-05")
    by (unfold in_catalog; simpl; tauto).
  assert (H3 : ~ in_catalog (init (firstn 2 scanner_catalog) []) "CR-04")
    by (unfold in_catalog; simpl; intuition discriminate).
  destruct (scanner_stops_at_missing_control r _ H1 H2 H3 eq_refl)
    as [w' [E [Ha _]]].
  exists w'. split; [exact E|exact Ha].
Defined.

(* ================================================================== *)
(** ** The interactive review *)

Lemma before_char_split c s :
  PyStr.contains (String c "") s = true ->
  exists rest,
    s = (CCFAuditorCLI.before_char c s ++ String c "" ++ rest)%string.
Proof.
  induction s as [|x s IH]; [discriminate|].
  cbn [PyStr.contains CCFAuditorCLI.before_char prefix].
  destruct (Ascii.eqb x c) eqn:E.
  - apply Ascii.eqb_eq in E. subst x. intros _. exists s. reflexivity.
  - destruct (ascii_dec c x) as [->|Hne];
      [rewrite Ascii.eqb_refl in E; discriminate|].
    simpl. intros H. destruct (IH H) as [rest Hr].
    exists rest. simpl. f_equal. exact Hr.
Qed.

Lemma before_char_free c s :
  PyStr.contains (String c "") (CCFAuditorCLI.before_char c s) = false.
Proof.
  induction s as [|x s IH]; [reflexivity|].
  cbn [CCFAuditorCLI.before_char].
  destruct (Ascii.eqb x c) eqn:E; [reflexivity|].
  cbn [PyStr.contains prefix].
  destruct (ascii_dec c x) as [->|Hne];
    [rewrite Ascii.eqb_refl in E; discriminate|].
  simpl. exact IH.
Qed.

(** X22: the recommendation of a finding always ends with a full
    stop.  When the control has guidance text that contains a full
    stop, the recommendation is the beginning of that text up to and
    including its first full stop, so it is one sentence of the
    guidance, with no other full stop in it. *)
Theorem recommendation_is_a_sentence :
  forall guidance name,
    (exists body,
        CCFAuditorCLI._generate_recommendation guidance name
        = (body ++ ".")%string)
    /\ (forall g,
           guidance = Some g -> PyStr.contains "." g = true ->
           exists rest,
             g = (CCFAuditorCLI._generate_recommendation guidance name
                    ++ rest)%string
             /\ CCFAuditorCLI._generate_recommendation guidance name
                = (CCFAuditorCLI.before_char "." g ++ ".")%string
             /\ PyStr.contains "." (CCFAuditorCLI.before_char "." g) = false).
Proof.
  intros guidance name. split.
  - unfold CCFAuditorCLI._generate_recommendation.
    destruct guidance as [[|c g]|].
    + exists ("Implement " ++ name ++ " according to CCF guidelines")%string.
      now rewrite !append_assoc.
    + destruct (PyStr.contains "." (String c g)).
      * eexists. reflexivity.
      * exists (substring 0 200 (String c g) ++ "..")%string.
        now rewrite !append_assoc.
    + exists ("Implement " ++ name ++ " according to CCF guidelines")%string.
      now rewrite !append_assoc.
  - intros g -> Hdot. unfold CCFAuditorCLI._generate_recommendation.
    destruct g as [|c g]; [discriminate|]. rewrite Hdot.
    destruct (before_char_split "." (String c g) Hdot) as [rest Hr].
    exists rest. split; [|split; [reflexivity|apply before_char_free]].
    rewrite append_assoc. exact Hr.
Qed.

Lemma recommendation_is_a_sentence_witness :
  PyStr.contains "." "Enable MFA for all users. Review quarterly." = true
  /\ CCFAuditorCLI._generate_recommendation
       (Some "Enable MFA for all users. Review quarterly."%string)
       "Multi-factor authentication"
     = "Enable MFA for all users."%string.
Proof.
  assert (H : PyStr.contains "." "Enable MFA for all users. Review quarterly."
              = true) by (vm_compute; reflexivity).
  split; [exact H|].
  destruct (proj2 (recommendation_is_a_sentence
                     (Some "Enable MFA for all users. Review quarterly."%string)
                     "Multi-factor authentication"%string)
                  _ eq_refl H) as [rest [_ [E _]]].
  rewrite E. vm_compute. reflexivity.
Defined.

Lemma add_finding_run f w :
  add_finding f w
  = (inr tt, {| self := self w;
                heap := heap_update (heap w) (findings (self w))
                          (deref (heap w) (findings (self w)) ++ [f]) |}).
Proof. reflexivity. Qed.

(** X23: one question of the interactive review, when the response is
    interpreted without error.  A question whose control is not in the
    catalog is skipped: the call returns and changes nothing, so the
    review never raises the not-found error.  Otherwise the call returns
    with the control stored under the interpreted status; a Compliant
    answer stores no evidence and no gap; a finding is added exactly
    when the status is NonCompliant and a gap text was entered, and
    that finding names the control, describes the gap, has priority
    High or Medium and the effort label for significant work. *)
Theorem review_question_outcome :
  forall guidance domain_idx q_idx domain question control_id options
         response evidence_input gap_input w st sc,
    heap_ok w ->
    QuestionnaireEngine.interpret_response question response options
    = inr (st, sc) ->
    let review :=
      CCFAuditorCLI.review_question guidance domain_idx q_idx domain
        question control_id options response evidence_input gap_input in
    (~ in_catalog w control_id -> review w = (inr tt, w))
    /\ (in_catalog w control_id ->
        exists w' x,
          review w = (inr tt, w')
          /\ PyDict.get (assessments (self w')) control_id = Some x
          /\ status x = st
          /\ (st = COMPLIANT -> evidence x = ""%string /\ gaps x = [])
          /\ ((st = NON_COMPLIANT /\ gap_input <> ""%string) ->
              exists f,
                registry w' = (registry w ++ [f])%list
                /\ gaps x = [gap_input]
                /\ affected_controls f = [control_id]
                /\ description f = gap_input
                /\ (priority f = HIGH \/ priority f = MEDIUM)
                /\ remediation_effort f
                   = "High - Significant implementation required"%string)
          /\ (~ (st = NON_COMPLIANT /\ gap_input <> ""%string) ->
              registry w' = registry w)).
Proof.
  intros guidance domain_idx q_idx domain question control_id options
         response evidence_input gap_input w st sc Hok Hint review.
  unfold review, CCFAuditorCLI.review_question. rewrite Hint.
  unfold bind at 1 3. unfold get_self. cbv beta iota. split.
  - intros Hno. apply get_control_by_id_None in Hno.
    rewrite Hno. reflexivity.
  - intros Hin. destruct (get_control_by_id_Some _ _ Hin) as [c [Hc _]].
    rewrite Hc. unfold bind.
    rewrite (assess_control_found _ _ _ _ _ _ c Hc).
    cbv beta iota.
    destruct st, gap_input as [|g0 gi];
      cbn [status_eqb andb negb is_empty];
      rewrite ?add_finding_run; unfold ret;
      eexists; eexists; (split; [reflexivity|]);
      cbn [self heap assessments findings];
      (split; [apply PyDictFacts.get_set_same|]);
      (split; [reflexivity|]);
      (split; [try discriminate; intros _; split; reflexivity|]);
      (split; [try (intros [? ?]; congruence)
              |try (intros _; reflexivity)]).
    + intros _. eexists. unfold registry. cbn [self heap findings].
      split; [now apply deref_heap_update|].
      repeat split.
      cbn [priority]. unfold CCFAuditorCLI._determine_priority.
      destruct (existsb _ _); auto.
    + intros H. exfalso. apply H. split; [reflexivity|discriminate].
Qed.

Lemma review_question_outcome_witness :
  heap_ok sample_world
  /\ exists w' x f,
       CCFAuditorCLI.review_question (fun _ => None) 1 2
         "Identity and Access Management"
         access_provisioning_question "IAM-01" access_provisioning_options
         "Ad-hoc/No formal process" "" "Accounts are created on request"
         sample_world
       = (inr tt, w')
       /\ PyDict.get (assessments (self w')) "IAM-01" = Some x
       /\ status x = NON_COMPLIANT
       /\ registry w' = (registry sample_world ++ [f])%list
       /\ description f = "Accounts are created on request"%string.
Proof.
  assert (Hok : heap_ok sample_world) by (unfold heap_ok; simpl; lia).
  split; [exact Hok|].
  assert (Hint : QuestionnaireEngine.interpret_response
                   access_provisioning_question "Ad-hoc/No formal process"
                   access_provisioning_options
                 = inr (NON_COMPLIANT, 0)) by (vm_compute; reflexivity).
  assert (Hin : in_catalog sample_world "IAM-01")
    by (unfold in_catalog; simpl; tauto).
  pose proof (review_question_outcome (fun _ => None) 1%nat 2%nat
                "Identity and Access Management"%string
                access_provisioning_question "IAM-01"%string
                access_provisioning_options
                "Ad-hoc/No formal process"%string
                ""%string "Accounts are created on request"%string
                sample_world NON_COMPLIANT 0 Hok Hint) as H.
  cbv zeta in H. destruct H as [_ H].
  destruct (H Hin) as [w' [x [E [Hx [Hst [_ [Hf _]]]]]]].
  assert (Hg : NON_COMPLIANT = NON_COMPLIANT
               /\ "Accounts are created on request"%string <> ""%string)
    by (split; [reflexivity|discriminate]).
  destruct (Hf Hg) as [f [Hr [_ [_ [Hd _]]]]].
  exists w', x, f.
  split; [exact E|]. split; [exact Hx|]. split; [exact Hst|].
  split; [exact Hr|exact Hd].
Defined.

(* ================================================================== *)
(** ** Serialising a report *)

Lemma exec_scope o w :
  scope (self (exec o w))
  = match o with OpSetScope s => Some s | _ => scope (self w) end.
Proof.
  destruct o as [id st ev gs nt|f|s]; simpl; run_method; auto.
  destruct (get_control_by_id (controls (self w)) id); reflexivity.
Qed.

Lemma exec_all_scope ops w :
  scope (self (exec_all ops w)) = last_scope ops (scope (self w)).
Proof.
  unfold exec_all, last_scope. revert w.
  induction ops as [|o ops IH]; intros w; simpl; [reflexivity|].
  rewrite IH, exec_scope. reflexivity.
Qed.

Lemma last_scope_unset ops o :
  (forall s, ~ In (OpSetScope s) ops) -> last_scope ops o = o.
Proof.
  unfold last_scope. revert o.
  induction ops as [|x ops IH]; intros o H; simpl; [reflexivity|].
  rewrite IH by (intros s Hs; apply (H s); now right).
  destruct x as [id st ev gs nt|f|s]; try reflexivity.
  exfalso. apply (H s). now left.
Qed.

Lemma last_scope_app ops1 ops2 o :
  last_scope (ops1 ++ ops2) o = last_scope ops2 (last_scope ops1 o).
Proof. unfold last_scope. apply fold_left_app. Qed.

(** X24: a report can be generated at any time, but it can be
    serialised only once a scope has been set.  After any sequence of
    calls on a fresh auditor, [generate_report] returns a report; its
    [to_dict] raises the attribute error when no call set the scope, and
    otherwise returns a dictionary whose ['scope'] entry is the scope of
    the last [set_scope] call and whose ['findings'] entry lists the
    registry, one dictionary per finding in order. *)
Theorem report_serialisable_once_scope_set :
  forall format_1f cs ds ops date,
    let w := exec_all ops (init cs ds) in
    exists r,
      generate_report format_1f date w = (inr r, w)
      /\ ((forall s, ~ In (OpSetScope s) ops) ->
          AuditReport_to_dict (heap w) r = inl AttributeError)
      /\ (forall ops1 s ops2,
             ops = (ops1 ++ OpSetScope s :: ops2)%list ->
             (forall s', ~ In (OpSetScope s') ops2) ->
             exists d,
               AuditReport_to_dict (heap w) r = inr (VDict d)
               /\ PyDict.get d "scope" = Some (SystemScope_to_dict s)
               /\ PyDict.get d "findings"
                  = Some (VList (map Finding_to_dict (registry w)))).
Proof.
  intros format_1f cs ds ops date w.
  assert (Hs : scope (self w) = last_scope ops None).
  { unfold w. now rewrite exec_all_scope. }
  eexists. split; [run_method; reflexivity|].
  unfold AuditReport_to_dict. cbn [report_scope report_findings].
  split.
  - intros Hno. rewrite Hs, (last_scope_unset _ _ Hno). reflexivity.
  - intros ops1 s ops2 E Hno. rewrite Hs, E, last_scope_app.
    change (last_scope (OpSetScope s :: ops2) (last_scope ops1 None))
      with (last_scope ops2 (Some s)).
    rewrite (last_scope_unset _ _ Hno).
    eexists. split; [reflexivity|]. split; reflexivity.
Qed.

Lemma map_VStr_inj l1 l2 : map VStr l1 = map VStr l2 -> l1 = l2.
Proof.
  revert l2.
  induction l1 as [|x l1 IH]; intros [|y l2] H; simpl in H;
    try discriminate; [reflexivity|].
  injection H as -> H. f_equal. now apply IH.
Qed.

Lemma status_value_inj s1 s2 : status_value s1 = status_value s2 -> s1 = s2.
Proof. destruct s1, s2; simpl; intros H; try reflexivity; discriminate H. Qed.

Lemma priority_value_inj p1 p2 :
  priority_value p1 = priority_value p2 -> p1 = p2.
Proof. destruct p1, p2; simpl; intros H; try reflexivity; discriminate H. Qed.

(** X25: [to_dict] loses nothing.  Two findings with the same
    dictionary are the same finding, and likewise for control
    assessments and for scopes: every field is kept, and the enum
    values that replace [status] and [priority] are pairwise
    distinct. *)
Theorem to_dict_lossless :
  (forall f1 f2, Finding_to_dict f1 = Finding_to_dict f2 -> f1 = f2)
  /\ (forall a1 a2,
         ControlAssessment_to_dict a1 = ControlAssessment_to_dict a2 ->
         a1 = a2)
  /\ (forall s1 s2, SystemScope_to_dict s1 = SystemScope_to_dict s2 ->
                    s1 = s2).
Proof.
  split; [|split].
  - intros [i1 t1 d1 c1 p1 r1 k1 e1] [i2 t2 d2 c2 p2 r2 k2 e2] H.
    unfold Finding_to_dict in H. cbn in H.
    injection H as -> -> -> Hc Hp -> -> ->.
    apply map_VStr_inj in Hc. apply priority_value_inj in Hp.
    now subst.
  - intros [i1 d1 n1 s1 e1 g1 t1 q1] [i2 d2 n2 s2 e2 g2 t2 q2] H.
    unfold ControlAssessment_to_dict in H. cbn in H.
    injection H as -> -> -> Hs -> Hg -> ->.
    apply map_VStr_inj in Hg. apply status_value_inj in Hs.
    now subst.
  - intros [n1 f1 d1 a1 e1 c1 u1 k1 x1] [n2 f2 d2 a2 e2 c2 u2 k2 x2] H.
    unfold SystemScope_to_dict in H. cbn in H.
    injection H as -> -> Hd -> -> Hc -> -> ->.
    apply map_VStr_inj in Hd. apply map_VStr_inj in Hc.
    now subst.
Qed.
